(** * bin_test: the test-sequence interpreter of [main.py]

    A shallow embedding of [TestRunner] (the script interpreter that drives
    the power supply, the resistance box and the oscilloscope) together with
    the properties of its specification.

    Modelling conventions.
    - Python [str] values are [string]s holding the UTF-8 bytes of the text;
      the [str] methods used by the interpreter ([strip], [split], [upper],
      [lower], [replace], [in], ...) are given on the ASCII range, bytes
      above 127 are ordinary non-blank, caseless characters.
    - Python [float] is IEEE binary64, here the primitive [float] of the
      kernel, so arithmetic and comparisons round exactly as in the program.
    - The interpreter object is the record [TestRunner]; every method is a
      state transformer in the monad [M], which also carries a raised
      exception.  The test-case dictionaries are objects that the program
      shares between [current_test_data] and [test_results]; they live in
      [heap] and are referred to by their index.
    - Everything outside the process (tool exit status and output, the
      operator pressing Ctrl+C, the wall clock) is read from a [world].
      Console output ([print], [log]) does not feed back into the
      interpreter and is left out, apart from the final list of failures;
      the file system is assumed not to fail when the directories and the
      report are written; paths are joined as on POSIX. *)

From Stdlib Require Import ZArith String Ascii List Floats Lia Bool.
From Stdlib Require Import DecimalString.
From stdpp Require Import base tactics option list gmap strings.

Set Warnings "-inexact-float".
Local Open Scope string_scope.
Local Open Scope Z_scope.

(** ** Python string primitives *)

Module Py.

(** [str.isspace] on one character (ASCII range): TAB..CR, FS..US, space. *)
Definition is_space (c : ascii) : bool :=
  let n := nat_of_ascii c in
  ((9 <=? n) && (n <=? 13) || (28 <=? n) && (n <=? 32))%nat.

Definition is_digit (c : ascii) : bool :=
  let n := nat_of_ascii c in ((48 <=? n) && (n <=? 57))%nat.

Definition lower_char (c : ascii) : ascii :=
  let n := nat_of_ascii c in
  if ((65 <=? n) && (n <=? 90))%nat then ascii_of_nat (n + 32) else c.

Definition upper_char (c : ascii) : ascii :=
  let n := nat_of_ascii c in
  if ((97 <=? n) && (n <=? 122))%nat then ascii_of_nat (n - 32) else c.

Fixpoint map_chars (f : ascii -> ascii) (s : string) : string :=
  match s with
  | EmptyString => EmptyString
  | String c s' => String (f c) (map_chars f s')
  end.

Definition lower : string -> string := map_chars lower_char.
Definition upper : string -> string := map_chars upper_char.

Fixpoint rev_onto (s acc : string) : string :=
  match s with
  | EmptyString => acc
  | String c s' => rev_onto s' (String c acc)
  end.

Definition rev (s : string) : string := rev_onto s EmptyString.

(** [s.lstrip(chars)], [s.rstrip(chars)], [s.strip(chars)] with the set of
    characters given as a predicate. *)
Fixpoint lstrip_by (p : ascii -> bool) (s : string) : string :=
  match s with
  | EmptyString => EmptyString
  | String c s' => if p c then lstrip_by p s' else s
  end.

Definition rstrip_by (p : ascii -> bool) (s : string) : string :=
  rev (lstrip_by p (rev s)).

Definition strip_by (p : ascii -> bool) (s : string) : string :=
  rstrip_by p (lstrip_by p s).

(** [s.strip()] *)
Definition strip : string -> string := strip_by is_space.

(** The double-quote character, code 34. *)
Definition dquote : ascii := ascii_of_nat 34.

(** [s.strip(q)] where [q] is the one-character string holding [dquote]. *)
Definition strip_quotes : string -> string :=
  strip_by (fun c => Ascii.eqb c dquote).

(** [s.startswith(p)] and [s.endswith(p)] *)
Definition startswith (p s : string) : bool := String.prefix p s.
Definition endswith (p s : string) : bool := String.prefix (rev p) (rev s).

(** [sub in s] *)
Fixpoint contains (sub s : string) : bool :=
  String.prefix sub s ||
  match s with
  | EmptyString => false
  | String _ s' => contains sub s'
  end.

(** [s.replace(old, new)] for a non-empty [old]: the occurrences are taken
    from the left and do not overlap.  [skip] counts the characters of the
    occurrence just replaced that are still to be passed over. *)
Fixpoint replace_from (old new : string) (skip : nat) (s : string) : string :=
  match s with
  | EmptyString => EmptyString
  | String c s' =>
      match skip with
      | S k => replace_from old new k s'
      | O =>
          if String.prefix old s
          then new ++ replace_from old new (Nat.pred (String.length old)) s'
          else String c (replace_from old new O s')
      end
  end.

Definition replace (old new s : string) : string := replace_from old new O s.

(** [s[:-1]] *)
Fixpoint drop_last (s : string) : string :=
  match s with
  | EmptyString => EmptyString
  | String c EmptyString => EmptyString
  | String c s' => String c (drop_last s')
  end.

(** [s.split()]: the maximal runs of non-blank characters.  [cur] holds the
    run being read, reversed. *)
Fixpoint split_from (cur : string) (s : string) : list string :=
  match s with
  | EmptyString =>
      match cur with EmptyString => [] | _ => [rev cur] end
  | String c s' =>
      if is_space c
      then match cur with
           | EmptyString => split_from EmptyString s'
           | _ => rev cur :: split_from EmptyString s'
           end
      else split_from (String c cur) s'
  end.

Definition split (s : string) : list string := split_from EmptyString s.

(** [sep.join(l)] *)
Fixpoint join (sep : string) (l : list string) : string :=
  match l with
  | [] => EmptyString
  | [x] => x
  | x :: l' => x ++ sep ++ join sep l'
  end.

(** [not s] for a string: the empty string is false. *)
Definition is_empty (s : string) : bool :=
  match s with EmptyString => true | _ => false end.

(** [os.path.join(a, b)] on POSIX. *)
Definition path_join (a b : string) : string :=
  if startswith "/" b then b
  else if is_empty a || endswith "/" a then a ++ b
  else a ++ "/" ++ b.

End Py.

(** ** Python floats: [float(s)] and the [.4f] format *)

Module PyFloat.

Local Open Scope Z_scope.

Definition digit_val (c : ascii) : Z := Z.of_nat (nat_of_ascii c) - 48.

(** Reads the longest run of decimal digits at the head of [s], continuing
    the number [acc]; returns the number, how many digits were read added to
    [n], and the rest of the string. *)
Fixpoint digits (s : string) (acc n : Z) : Z * Z * string :=
  match s with
  | EmptyString => (acc, n, s)
  | String c s' =>
      if Py.is_digit c then digits s' (10 * acc + digit_val c) (n + 1)
      else (acc, n, s)
  end.

Definition sign_of (s : string) : bool * string :=
  match s with
  | String "-" s' => (true, s')
  | String "+" s' => (false, s')
  | _ => (false, s)
  end.

(** The exponent part: nothing, or [e]/[E], an optional sign and at least
    one digit, up to the end of the string. *)
Definition exponent (s : string) : option Z :=
  match s with
  | EmptyString => Some 0
  | String c s' =>
      if Ascii.eqb (Py.lower_char c) "e"
      then let (neg, s1) := sign_of s' in
           let '(v, n, rest) := digits s1 0 0 in
           if (0 <? n) && Py.is_empty rest
           then Some (if neg then - v else v) else None
      else None
  end.

(** An unsigned decimal literal [ddd.ddd[e[+-]ddd]] with at least one digit
    before the exponent; the value is [m * 10 ^ e]. *)
Definition decimal (s : string) : option (Z * Z) :=
  let '(m1, n1, r1) := digits s 0 0 in
  let '(m2, n2, r2) :=
    match r1 with
    | String "." r => digits r m1 0
    | _ => (m1, 0, r1)
    end in
  if 0 <? n1 + n2
  then match exponent r2 with
       | Some e => Some (m2, e - n2)
       | None => None
       end
  else None.

(** The binary64 number nearest to [n / d] for [n, d > 0], ties to even:
    [q] is the quotient scaled into 53 bits (fewer in the subnormal range,
    where the scale stops at [2 ^ -1074]). *)
Definition round_ratio (n d : Z) : float :=
  let lg := Z.log2 n - Z.log2 d in
  let e0 := Z.max (lg - 53) (-1074) in
  let scaled (e : Z) := if 0 <=? e then (n, d * 2 ^ e) else (n * 2 ^ (- e), d) in
  let q0 := fst (scaled e0) / snd (scaled e0) in
  let e := if 2 ^ 53 <=? q0 then e0 + 1 else e0 in
  let (num, den) := scaled e in
  let q := num / den in
  let r := num mod den in
  let q' := if den <? 2 * r then q + 1
            else if (den =? 2 * r) && Z.odd q then q + 1
            else q in
  if (971 <? e) || ((e =? 971) && (2 ^ 53 <=? q')) then infinity
  else Z.ldexp (of_uint63 (Uint63.of_Z q')) e.

Definition of_decimal (neg : bool) (m e : Z) : float :=
  let f := if m =? 0 then zero
           else if 0 <=? e then round_ratio (m * 10 ^ e) 1
           else round_ratio m (10 ^ (- e)) in
  if neg then (- f)%float else f.

(** Underscores may only stand between two digits; they are removed before
    the literal is read.  [prev] is the character just passed. *)
Fixpoint drop_underscores (prev : ascii) (s : string) : option string :=
  match s with
  | EmptyString => if Ascii.eqb prev "_" then None else Some EmptyString
  | String c s' =>
      if Ascii.eqb c "_"
      then if Py.is_digit prev then drop_underscores c s' else None
      else if Ascii.eqb prev "_" && negb (Py.is_digit c) then None
      else option_map (String c) (drop_underscores c s')
  end.

(** [float(s)]: [None] stands for the [ValueError] of the builtin. *)
Definition parse (s : string) : option float :=
  match drop_underscores "000" (Py.strip s) with
  | None => None
  | Some t =>
      let (neg, body) := sign_of t in
      match decimal body with
      | Some (m, e) => Some (of_decimal neg m e)
      | None =>
          let l := Py.lower body in
          if String.eqb l "inf" || String.eqb l "infinity"
          then Some (if neg then neg_infinity else infinity)
          else if String.eqb l "nan" then Some nan
          else None
      end
  end.

Definition string_of_Z (n : Z) : string :=
  NilZero.string_of_uint (N.to_uint (Z.to_N n)).

(** [n / d] rounded to the nearest integer, ties to even ([n >= 0], [d > 0]). *)
Definition div_half_even (n d : Z) : Z :=
  let q := n / d in
  let r := n mod d in
  if d <? 2 * r then q + 1
  else if (d =? 2 * r) && Z.odd q then q + 1
  else q.

(** The digits of [n / 10000] with four decimals. *)
Definition fixed4 (n : Z) : string :=
  string_of_Z (n / 10000) ++ "." ++
  match string_of_Z (10000 + n mod 10000) with
  | String _ frac => frac
  | EmptyString => EmptyString
  end.

(** [format(f, '.4f')]: the exact value of [f] rounded to four decimals. *)
Definition format_4f (f : float) : string :=
  match Prim2SF f with
  | S754_nan => "nan"
  | S754_infinity s => if s then "-inf" else "inf"
  | S754_zero s => (if s then "-" else "") ++ "0.0000"
  | S754_finite s m e =>
      let n := if 0 <=? e then Z.pos m * 10000 * 2 ^ e
               else div_half_even (Z.pos m * 10000) (2 ^ (- e)) in
      (if s then "-" else "") ++ fixed4 n
  end.

End PyFloat.

(** ** Exceptions and [repr] *)

Inductive exn : Type :=
| ValueError (msg : string)
| IndexError (msg : string)
| OverflowError (msg : string)
| OSError (msg : string)
| KeyboardInterrupt.

(** [str(e)] *)
Definition exn_str (e : exn) : string :=
  match e with
  | ValueError m | IndexError m | OverflowError m | OSError m => m
  | KeyboardInterrupt => EmptyString
  end.

(** [isinstance(e, Exception)]: what an [except Exception] clause catches. *)
Definition is_Exception (e : exn) : bool :=
  match e with KeyboardInterrupt => false | _ => true end.

Module PyRepr.

Definition hex_digit (n : nat) : ascii :=
  if (n <? 10)%nat then ascii_of_nat (48 + n) else ascii_of_nat (87 + n).

Definition quote1 : ascii := ascii_of_nat 39.
Definition backslash : ascii := ascii_of_nat 92.

Fixpoint has_char (c : ascii) (s : string) : bool :=
  match s with
  | EmptyString => false
  | String c' s' => Ascii.eqb c c' || has_char c s'
  end.

Definition escape_char (q c : ascii) : string :=
  let n := nat_of_ascii c in
  if Ascii.eqb c q || Ascii.eqb c backslash then String backslash (String c "")
  else if (n =? 9)%nat then String backslash "t"
  else if (n =? 10)%nat then String backslash "n"
  else if (n =? 13)%nat then String backslash "r"
  else if ((n <? 32) || (n =? 127))%nat
  then String backslash (String "x" (String (hex_digit (n / 16))
                                       (String (hex_digit (n mod 16)) "")))
  else String c "".

Fixpoint escape (q : ascii) (s : string) : string :=
  match s with
  | EmptyString => EmptyString
  | String c s' => escape_char q c ++ escape q s'
  end.

(** [repr(s)]: single quotes, unless the text holds a single quote and no
    double quote. *)
Definition repr (s : string) : string :=
  let q := if has_char quote1 s && negb (has_char Py.dquote s)
           then Py.dquote else quote1 in
  String q (escape q s) ++ String q "".

End PyRepr.

(** ** The interpreter state *)

(** One test-case dictionary:
    [{"id", "title", "result", "expected", "actual", "note"}]. *)
Record test_data : Type := TestData {
  td_id : string;
  td_title : string;
  td_result : string;
  td_expected : list string;
  td_actual : list string;
  td_note : string
}.

#[export] Instance test_data_eq_dec : EqDecision test_data.
Proof. solve_decision. Defined.

(** The [TestRunner] object.  [heap] holds the test-case dictionaries ever
    created, [test_results] and [current_test_data] refer to them by index.
    A configuration key bound to [None] in the program is absent from
    [config].  [calls] is the list of argument vectors handed to
    [subprocess.Popen] so far and [clock] counts the readings taken from the
    [world]. *)
Record TestRunner : Type := mkRunner {
  variables : gmap string float;
  config : gmap string string;
  failed_tests : list string;
  heap : list test_data;
  test_results : list nat;
  current_test_data : option nat;
  current_test_id : string;
  current_test_title : string;
  calls : list (list string);
  clock : nat
}.

(** [TestRunner.__init__] *)
Definition init : TestRunner :=
  {| variables := ∅; config := ∅; failed_tests := [];
     heap := []; test_results := []; current_test_data := None;
     current_test_id := "N/A"; current_test_title := "";
     calls := []; clock := O |}.

Definition set_variables (v : gmap string float) (s : TestRunner) :=
  mkRunner v (config s) (failed_tests s) (heap s) (test_results s)
    (current_test_data s) (current_test_id s) (current_test_title s)
    (calls s) (clock s).

Definition set_config (c : gmap string string) (s : TestRunner) :=
  mkRunner (variables s) c (failed_tests s) (heap s) (test_results s)
    (current_test_data s) (current_test_id s) (current_test_title s)
    (calls s) (clock s).

Definition set_failed_tests (f : list string) (s : TestRunner) :=
  mkRunner (variables s) (config s) f (heap s) (test_results s)
    (current_test_data s) (current_test_id s) (current_test_title s)
    (calls s) (clock s).

Definition set_heap (h : list test_data) (s : TestRunner) :=
  mkRunner (variables s) (config s) (failed_tests s) h (test_results s)
    (current_test_data s) (current_test_id s) (current_test_title s)
    (calls s) (clock s).

Definition set_test_results (r : list nat) (s : TestRunner) :=
  mkRunner (variables s) (config s) (failed_tests s) (heap s) r
    (current_test_data s) (current_test_id s) (current_test_title s)
    (calls s) (clock s).

Definition set_current_test_data (c : option nat) (s : TestRunner) :=
  mkRunner (variables s) (config s) (failed_tests s) (heap s) (test_results s)
    c (current_test_id s) (current_test_title s) (calls s) (clock s).

Definition set_current_test_id (i : string) (s : TestRunner) :=
  mkRunner (variables s) (config s) (failed_tests s) (heap s) (test_results s)
    (current_test_data s) i (current_test_title s) (calls s) (clock s).

Definition set_current_test_title (t : string) (s : TestRunner) :=
  mkRunner (variables s) (config s) (failed_tests s) (heap s) (test_results s)
    (current_test_data s) (current_test_id s) t (calls s) (clock s).

Definition set_calls (c : list (list string)) (s : TestRunner) :=
  mkRunner (variables s) (config s) (failed_tests s) (heap s) (test_results s)
    (current_test_data s) (current_test_id s) (current_test_title s)
    c (clock s).

Definition set_clock (n : nat) (s : TestRunner) :=
  mkRunner (variables s) (config s) (failed_tests s) (heap s) (test_results s)
    (current_test_data s) (current_test_id s) (current_test_title s)
    (calls s) n.

(** The dictionary an index refers to. *)
Definition deref (s : TestRunner) (r : nat) : option test_data := heap s !! r.

(** ** The monad of methods: state and exceptions *)

Inductive res (A : Type) : Type :=
| Ret (a : A)
| Raise (e : exn).
Arguments Ret {A} a.
Arguments Raise {A} e.

Definition M (A : Type) : Type := TestRunner -> res A * TestRunner.

Definition ret {A} (a : A) : M A := fun s => (Ret a, s).
Definition raise {A} (e : exn) : M A := fun s => (Raise e, s).

Definition bind {A B} (m : M A) (k : A -> M B) : M B :=
  fun s =>
    match m s with
    | (Ret a, s') => k a s'
    | (Raise e, s') => (Raise e, s')
    end.

Definition get : M TestRunner := fun s => (Ret s, s).
Definition modify (f : TestRunner -> TestRunner) : M unit :=
  fun s => (Ret tt, f s).

(** [try: m  except Exception as e: h e] *)
Definition try_except {A} (m : M A) (h : exn -> M A) : M A :=
  fun s =>
    match m s with
    | (Raise e, s') => if is_Exception e then h e s' else (Raise e, s')
    | r => r
    end.

Notation "x <- m ;; k" := (bind m (fun x => k))
  (at level 100, m at next level, right associativity).
Notation "m ;; k" := (bind m (fun _ => k))
  (at level 100, right associativity).

(** [args[i]] *)
Definition item (args : list string) (i : nat) : M string :=
  match args !! i with
  | Some a => ret a
  | None => raise (IndexError "list index out of range")
  end.

(** [float(s)] with the builtin's error message. *)
Definition float_of_str (s : string) : M float :=
  match PyFloat.parse s with
  | Some f => ret f
  | None =>
      raise (ValueError ("could not convert string to float: " ++ PyRepr.repr s))
  end.

(** ** The world outside the process *)

Inductive tool_outcome : Type :=
| Exited (returncode : Z) (stdout stderr : string)
| Failed (msg : string)
| Interrupted.

(** [tool_at k], [interrupt_at k] and [time_at k] answer the [k]-th reading:
    how a spawned tool ends ([Failed m]: [Popen] or [communicate] raised an
    exception [e] with [str(e) = m]), whether Ctrl+C arrives during a
    [time.sleep], and [datetime.now().strftime("%H%M%S")]. *)
Record world : Type := World {
  python_exe : string;
  tool_at : nat -> tool_outcome;
  interrupt_at : nat -> bool;
  time_at : nat -> string
}.

(** ** The methods of [TestRunner] *)

Definition PATH_POWER_CTRL : string := Py.path_join "power_ctrl" "power_ctrl_cli.py".
Definition PATH_RES_CTRL : string := Py.path_join "res_ctrl" "resistance_cli.py".
Definition PATH_YOKOGAWA : string := Py.path_join "yokogawa" "yokogawa.py".

(** [Colors]: the ANSI escape sequences. *)
Definition esc : ascii := ascii_of_nat 27.
Definition GREEN : string := String esc "[92m".
Definition RED : string := String esc "[91m".
Definition RESET : string := String esc "[0m".

(** The assignments of [error] to the current test case: the verdict, and
    the message unless the note already holds it. *)
Definition mark_failed (msg : string) (td : test_data) : test_data :=
  TestData (td_id td) (td_title td) "FAIL" (td_expected td) (td_actual td)
    (if Py.contains msg (td_note td) then td_note td
     else td_note td ++ msg ++ "; ").

Definition add_row (e a : string) (td : test_data) : test_data :=
  TestData (td_id td) (td_title td) (td_result td)
    (td_expected td ++ [e]) (td_actual td ++ [a]) (td_note td).

Definition add_note (n : string) (td : test_data) : test_data :=
  TestData (td_id td) (td_title td) (td_result td)
    (td_expected td) (td_actual td) (td_note td ++ n).

(** [if self.current_test_data: <update the dictionary>] *)
Definition update_current (f : test_data -> test_data) : M unit :=
  modify (fun s =>
    match current_test_data s with
    | Some r => set_heap (alter f r (heap s)) s
    | None => s
    end).

Definition error (msg : string) : M unit :=
  modify (fun s =>
    if bool_decide (current_test_id s ∈ failed_tests s) then s
    else set_failed_tests
           (failed_tests s ++
              [current_test_id s ++ " (" ++ current_test_title s ++ ")"]) s) ;;
  update_current (mark_failed msg).

(** The option [flag value] is added to a tool's command line when the
    configuration key is set (to a non-empty text). *)
Definition with_config (s : TestRunner) (key flag : string)
    (cmd : list string) : list string :=
  match config s !! key with
  | Some v => if Py.is_empty v then cmd else cmd ++ [flag; v]
  | None => cmd
  end.

Section Interpreter.

Variable w : world.

Definition next_reading : M nat :=
  fun s => (Ret (clock s), set_clock (S (clock s)) s).

Definition run_external_tool (cmd_list : list string) (desc : string)
    : M (option string) :=
  modify (fun s => set_calls (calls s ++ [cmd_list]) s) ;;
  k <- next_reading ;;
  match tool_at w k with
  | Exited returncode stdout stderr =>
      if negb (returncode =? 0)
      then error ("工具执行失败 [" ++ desc ++ "]: " ++ Py.strip stderr) ;;
           ret None
      else ret (Some (Py.strip stdout))
  | Interrupted => raise KeyboardInterrupt
  | Failed m =>
      error ("系统异常 [" ++ desc ++ "]: " ++ m) ;;
      ret None
  end.

Definition parse_value (val_str : string) : M float :=
  let val_str := Py.strip val_str in
  if Py.startswith "$" val_str then
    s <- get ;;
    match variables s !! val_str with
    | Some v => ret v
    | None =>
        raise (ValueError ("使用了未定义的变量: " ++ val_str ++
                           " (请先使用 DEF_VAR 定义)"))
    end
  else if Py.endswith "%" val_str then
    x <- float_of_str (Py.drop_last val_str) ;;
    ret (x / 100)%float
  else
    let lower_s := Py.lower val_str in
    if Py.contains "ma" lower_s then
      x <- float_of_str (Py.replace "ma" "" lower_s) ;;
      ret (x / 1000)%float
    else if Py.contains "a" lower_s then
      float_of_str (Py.replace "a" "" lower_s)
    else float_of_str val_str.

Definition cmd_def_var (args : list string) : M unit :=
  match args with
  | [] => error "DEF_VAR指令缺少参数。格式: DEF_VAR <$VAR> [Value]"
  | var_name :: rest =>
      if negb (Py.startswith "$" var_name)
      then error ("变量名必须以 $ 开头: " ++ var_name)
      else
        initial_value <-
          try_except
            (match rest with
             | [] => ret (Some 0%float)
             | a1 :: _ => v <- parse_value a1 ;; ret (Some v)
             end)
            (fun e => error ("变量初始值解析失败: " ++ exn_str e) ;; ret None) ;;
        match initial_value with
        | Some v =>
            modify (fun s => set_variables (<[var_name := v]> (variables s)) s)
        | None => ret tt
        end
  end.

Definition cmd_config (args : list string) : M unit :=
  match args with
  | key :: value :: _ =>
      modify (fun s => set_config (<[Py.upper key := value]> (config s)) s)
  | _ => error "CONFIG 指令缺少参数"
  end.

Definition cmd_test (args : list string) : M unit :=
  modify (fun s =>
    match current_test_data s with
    | Some r => set_test_results (test_results s ++ [r]) s
    | None => s
    end) ;;
  a0 <- item args 0 ;;
  modify (set_current_test_id a0) ;;
  modify (set_current_test_title (Py.strip_quotes (Py.join " " (tail args)))) ;;
  modify (fun s =>
    set_current_test_data (Some (length (heap s)))
      (set_heap (heap s ++ [TestData (current_test_id s) (current_test_title s)
                              "PASS" [] [] ""]) s)).

Definition cmd_power_on (args : list string) : M unit :=
  let v := default "12.0" (args !! 0%nat) in
  let c := default "2.0" (args !! 1%nat) in
  s <- get ;;
  run_external_tool
    (with_config s "POWER_ADDR" "-a"
       [python_exe w; PATH_POWER_CTRL; "-v"; v; "-c"; c; "-o"; "on"])
    ("电源上电 " ++ v ++ "V " ++ c ++ "A") ;;
  ret tt.

Definition cmd_power_off (args : list string) : M unit :=
  s <- get ;;
  run_external_tool
    (with_config s "POWER_ADDR" "-a" [python_exe w; PATH_POWER_CTRL; "-o"; "off"])
    "电源下电" ;;
  ret tt.

(** [time.sleep(sec)]: the argument is checked as CPython does (not a
    number; out of the range of its nanosecond clock; negative), then the
    process sleeps unless the operator interrupts it. *)
Definition sleep (sec : float) : M unit :=
  let ns := (sec * 1000000000)%float in
  if is_nan sec then raise (ValueError "Invalid value NaN (not a number)")
  else if (ns <? -9223372036854775808)%float || (9223372036854775808 <=? ns)%float
  then raise (OverflowError "timestamp too large to convert to C _PyTime_t")
  else if (sec <? 0)%float
  then raise (ValueError "sleep length must be non-negative")
  else
    k <- next_reading ;;
    if interrupt_at w k then raise KeyboardInterrupt else ret tt.

Definition cmd_power_cycle (args : list string) : M unit :=
  cmd_power_off [] ;;
  sleep 1%float ;;
  s <- get ;;
  run_external_tool
    (with_config s "POWER_ADDR" "-a" [python_exe w; PATH_POWER_CTRL; "-o"; "on"])
    "电源上电 (恢复输出)" ;;
  ret tt.

Definition cmd_res_set (args : list string) : M unit :=
  val <- item args 0 ;;
  s <- get ;;
  run_external_tool
    (with_config s "RES_PORT" "-p"
       [python_exe w; PATH_RES_CTRL; "-v"; val; "--action"; "connect"])
    ("设置电阻 " ++ val) ;;
  ret tt.

Definition cmd_res_open (args : list string) : M unit :=
  s <- get ;;
  run_external_tool
    (with_config s "RES_PORT" "-p"
       [python_exe w; PATH_RES_CTRL; "--action"; "disconnect"])
    "断开电阻 (OPEN)" ;;
  ret tt.

Definition cmd_res_close (args : list string) : M unit :=
  s <- get ;;
  run_external_tool
    (with_config s "RES_PORT" "-p"
       [python_exe w; PATH_RES_CTRL; "--action"; "connect"])
    "闭合电阻 (CLOSE)" ;;
  ret tt.

Definition cmd_screenshot (args : list string) : M unit :=
  let label := default "snap" (args !! 0%nat) in
  let result_dir := Py.path_join "result" "screen_shot" in
  k <- next_reading ;;
  let timestamp := time_at w k in
  s <- get ;;
  let filename := current_test_id s ++ "_" ++ label ++ "_" ++ timestamp ++ ".png" in
  let filepath := Py.path_join result_dir filename in
  run_external_tool
    (with_config s "SCOPE_IP" "--ip"
       [python_exe w; PATH_YOKOGAWA; "shot"; "-o"; filepath])
    ("截图 " ++ filename) ;;
  update_current
    (add_note ("![" ++ label ++ "](screen_shot/" ++ filename ++ ") ")).

Definition cmd_wait (args : list string) : M unit :=
  a0 <- item args 0 ;;
  sec <- float_of_str a0 ;;
  sleep sec.

Definition cmd_read (args : list string) : M unit :=
  match args with
  | [a0; a1; var_name] =>
      if negb (String.eqb (Py.upper a1) "TO")
      then error "READ指令格式错误。正确格式: READ <CH> TO <$VAR>"
      else
        let channel := Py.replace "ch" "" (Py.replace "CH" "" a0) in
        if negb (Py.startswith "$" var_name)
        then error ("变量名必须以 $ 开头: " ++ var_name)
        else
          s <- get ;;
          match variables s !! var_name with
          | None =>
              error ("变量 " ++ var_name ++ " 未定义。请先使用 DEF_VAR " ++
                     var_name ++ " 进行定义。")
          | Some _ =>
              output <-
                run_external_tool
                  (with_config s "SCOPE_IP" "--ip"
                     [python_exe w; PATH_YOKOGAWA; "mean"; "-c"; channel; "--clean"])
                  ("读取通道 " ++ channel) ;;
              match output with
              | Some out =>
                  if Py.is_empty out then ret tt
                  else
                    try_except
                      (val <- float_of_str out ;;
                       modify (fun s =>
                         set_variables (<[var_name := val]> (variables s)) s))
                      (fun _ => error ("读取失败，返回值非数字: " ++ out))
              | None => ret tt
              end
          end
  | _ => error "READ指令格式错误。正确格式: READ <CH> TO <$VAR>"
  end.

Definition cmd_set_var (args : list string) : M unit :=
  match args with
  | [var_name; value_str] =>
      if negb (Py.startswith "$" var_name)
      then error ("变量名必须以 $ 开头: " ++ var_name)
      else
        s <- get ;;
        match variables s !! var_name with
        | None =>
            error ("变量 " ++ var_name ++ " 未定义。请先使用 DEF_VAR " ++
                   var_name ++ " 进行定义。")
        | Some _ =>
            try_except
              (val <- parse_value value_str ;;
               modify (fun s =>
                 set_variables (<[var_name := val]> (variables s)) s))
              (fun e => error ("变量设置失败: " ++ exn_str e))
        end
  | _ => error "SET_VAR指令格式错误。正确格式: SET_VAR <$VAR> <Value>"
  end.

Definition fmt := PyFloat.format_4f.

Definition cmd_check_range (args : list string) : M unit :=
  try_except
    (a0 <- item args 0 ;;
     real_val <- parse_value a0 ;;
     a1 <- item args 1 ;;
     expect_val <- parse_value a1 ;;
     tolerance_raw <- item args 2 ;;
     tol_abs <-
       (if Py.endswith "%" tolerance_raw
        then t <- parse_value tolerance_raw ;; ret (expect_val * t)%float
        else parse_value tolerance_raw) ;;
     let lower := (expect_val - tol_abs)%float in
     let upper := (expect_val + tol_abs)%float in
     update_current
       (add_row ("[" ++ fmt lower ++ ", " ++ fmt upper ++ "]") (fmt real_val)) ;;
     if ((lower <=? real_val) && (real_val <=? upper))%float
     then ret tt
     else error (RED ++ "FAIL" ++ RESET ++ ": " ++ a0 ++ "(" ++ fmt real_val ++
                 ") 超出范围 [" ++ fmt lower ++ ", " ++ fmt upper ++
                 "] (期望: " ++ a1 ++ " ±" ++ tolerance_raw ++ ")"))
    (fun e => error ("CHECK_RANGE 执行异常: " ++ exn_str e)).

Definition cmd_check_diff (args : list string) : M unit :=
  try_except
    (a0 <- item args 0 ;;
     val_a <- parse_value a0 ;;
     a1 <- item args 1 ;;
     val_b <- parse_value a1 ;;
     a2 <- item args 2 ;;
     max_diff <- parse_value a2 ;;
     let diff := abs (val_a - val_b)%float in
     update_current (add_row ("Diff <= " ++ fmt max_diff) (fmt diff)) ;;
     if (diff <=? max_diff)%float
     then ret tt
     else error (RED ++ "FAIL" ++ RESET ++ ": 差异 " ++ fmt diff ++
                 " > 允许值 " ++ fmt max_diff))
    (fun e => error ("CHECK_DIFF 执行异常: " ++ exn_str e)).

Definition execute_line (line : string) : M unit :=
  match Py.split line with
  | [] => ret tt
  | p0 :: args =>
      let cmd := Py.upper p0 in
      if String.eqb cmd "TEST" then cmd_test args
      else if String.eqb cmd "DEF_VAR" then cmd_def_var args
      else if String.eqb cmd "CONFIG" then cmd_config args
      else if String.eqb cmd "POWER_ON" then cmd_power_on args
      else if String.eqb cmd "POWER_OFF" then cmd_power_off args
      else if String.eqb cmd "POWER_CYCLE" then cmd_power_cycle args
      else if String.eqb cmd "RES_SET" then cmd_res_set args
      else if String.eqb cmd "RES_OPEN" then cmd_res_open args
      else if String.eqb cmd "RES_CLOSE" then cmd_res_close args
      else if String.eqb cmd "SCREENSHOT" then cmd_screenshot args
      else if String.eqb cmd "WAIT" then cmd_wait args
      else if String.eqb cmd "READ" then cmd_read args
      else if String.eqb cmd "SET_VAR" then cmd_set_var args
      else if String.eqb cmd "CHECK_RANGE" then cmd_check_range args
      else if String.eqb cmd "CHECK_DIFF" then cmd_check_diff args
      else error ("未知指令: " ++ cmd)
  end.

End Interpreter.

(** ** The report and the run loop *)

(** What [generate_report] writes: the counts, the overall verdict and one
    row per finalized test case (the Markdown around them is not modelled). *)
Record report : Type := Report {
  rep_total : nat;
  rep_passed : nat;
  rep_failed : nat;
  rep_overall : string;
  rep_rows : list test_data
}.

(** The dictionaries a list of references stands for. *)
Definition resolve (s : TestRunner) (rs : list nat) : list test_data :=
  omap (deref s) rs.

(** The finalized test cases. *)
Definition finalized (s : TestRunner) : list test_data :=
  resolve s (test_results s).

(** [x in l] for a list of dictionaries: some element is the same object as
    [x] or equal to it. *)
Definition dict_in (s : TestRunner) (r : nat) (rs : list nat) : bool :=
  existsb (fun r' => (r' =? r)%nat || bool_decide (deref s r' = deref s r)) rs.

Definition is_pass (td : test_data) : bool := String.eqb (td_result td) "PASS".

Definition make_report (rows : list test_data) : report :=
  let total := length rows in
  let passed := length (filter (fun td => is_pass td = true) rows) in
  let failed := (total - passed)%nat in
  Report total passed failed (if (failed =? 0)%nat then "PASS" else "FAIL") rows.

Definition generate_report : M (option report) :=
  modify (fun s =>
    match current_test_data s with
    | Some r =>
        if dict_in s r (test_results s) then s
        else set_test_results (test_results s ++ [r]) s
    | None => s
    end) ;;
  s <- get ;;
  match test_results s with
  | [] => ret None
  | _ => ret (Some (make_report (finalized s)))
  end.

Section RunLoop.

Variable w : world.

(** The body of the [for line in lines] loop of [run]. *)
Fixpoint run_lines (lines : list string) : M unit :=
  match lines with
  | [] => ret tt
  | line :: rest =>
      let line := Py.strip line in
      if Py.is_empty line || Py.startswith "#" line
      then run_lines rest
      else execute_line w line ;; run_lines rest
  end.

(** The script file named on the command line. *)
Inductive script_file : Type :=
| FileMissing
| FileUnreadable (msg : string)
| FileLines (lines : list string).

(** How the process ends: [sys.exit(code)], [run] returning (exit status
    0), or an exception that nothing catches. *)
Inductive exit : Type :=
| SysExit (code : Z)
| Returned
| Uncaught (e : exn).

Record run_result : Type := RunResult {
  status : exit;
  written : option report;
  printed_failures : list string;
  final : TestRunner
}.

(** The emergency path shared by the two [except] clauses of [run]. *)
Definition shutdown (code : Z) (s : TestRunner) : run_result :=
  match cmd_power_off w [] s with
  | (Raise e, s1) => RunResult (Uncaught e) None [] s1
  | (Ret _, s1) =>
      match generate_report s1 with
      | (Ret rep, s2) => RunResult (SysExit code) rep [] s2
      | (Raise e, s2) => RunResult (Uncaught e) None [] s2
      end
  end.

Definition run (f : script_file) : run_result :=
  match f with
  | FileMissing => RunResult Returned None [] init
  | _ =>
      let body :=
        match f with
        | FileLines lines => run_lines lines
        | FileUnreadable m => raise (OSError m)
        | FileMissing => ret tt
        end in
      match body init with
      | (Raise KeyboardInterrupt, s) => shutdown 130 s
      | (Raise _, s) => shutdown 1 s
      | (Ret _, s) =>
          match generate_report s with
          | (Raise e, s1) => RunResult (Uncaught e) None [] s1
          | (Ret rep, s1) =>
              match failed_tests s1 with
              | [] => RunResult (SysExit 0) rep [] s1
              | _ => RunResult (SysExit 1) rep (failed_tests s1) s1
              end
          end
      end
  end.

End RunLoop.

(** * The vocabulary of the properties *)

(** Every method changes the interpreter through a handful of assignments:
    to the stores and the bookkeeping of the world, through [error], through
    the two updates of the open test case, and, for [TEST] only, through
    [cmd_test].  [t] tells whether [TEST] may take part. *)
Inductive prim (t : bool) : relation TestRunner :=
| prim_variables v s : prim t s (set_variables v s)
| prim_config c s : prim t s (set_config c s)
| prim_calls c s : prim t s (set_calls c s)
| prim_clock n s : prim t s (set_clock n s)
| prim_error msg s : prim t s (snd (error msg s))
| prim_row e a s : prim t s (snd (update_current (add_row e a) s))
| prim_note n s : prim t s (snd (update_current (add_note n) s))
| prim_test args s : t = true -> prim t s (snd (cmd_test args s)).

(** A sequence of primitive changes. *)
Definition steps (t : bool) : relation TestRunner := rtc (prim t).

(** A method all of whose runs are such sequences. *)
Definition Steps {A} (t : bool) (m : M A) : Prop :=
  forall s, steps t s (snd (m s)).

(** The entry [error] adds to [failed_tests]. *)
Definition failed_entry (s : TestRunner) : string :=
  current_test_id s ++ " (" ++ current_test_title s ++ ")".

(** [TEST]: first the open case is moved to the finalized list, ... *)
Definition finalize_current (s : TestRunner) : TestRunner :=
  match current_test_data s with
  | Some r => set_test_results (test_results s ++ [r]) s
  | None => s
  end.

(** ... then a new dictionary becomes the open case. *)
Definition open_case (i ti : string) (s : TestRunner) : TestRunner :=
  mkRunner (variables s) (config s) (failed_tests s)
    (heap s ++ [TestData i ti "PASS" [] [] ""]) (test_results s)
    (Some (length (heap s))) i ti (calls s) (clock s).

(** The id and the title that [TEST] takes from its arguments. *)
Definition case_id (args : list string) : string := default "" (args !! 0%nat).
Definition case_title (args : list string) : string :=
  Py.strip_quotes (Py.join " " (tail args)).

(** A test-case dictionary keeps its id and title, and a FAIL verdict. *)
Definition td_le (td td' : test_data) : Prop :=
  td_id td' = td_id td /\ td_title td' = td_title td /\
  (td_result td = "FAIL" -> td_result td' = "FAIL") /\
  (td_result td' = td_result td \/ td_result td' = "FAIL").

(** What a command other than [TEST] leaves in place. *)
Record frame (s s' : TestRunner) : Prop := Frame {
  frame_heap : Forall2 td_le (heap s) (heap s');
  frame_results : test_results s' = test_results s;
  frame_current : current_test_data s' = current_test_data s;
  frame_id : current_test_id s' = current_test_id s;
  frame_title : current_test_title s' = current_test_title s
}.

(** The keyword (in upper case) and the arguments of a line. *)
Definition command_of (line : string) : option (string * list string) :=
  match Py.split line with
  | [] => None
  | p0 :: args => Some (Py.upper p0, args)
  end.

(** The lines the run loop passes over: blank lines and comments. *)
Definition skipped (line : string) : bool :=
  Py.is_empty (Py.strip line) || Py.startswith "#" (Py.strip line).

(** The arguments of a line that the run loop executes as a [TEST] command. *)
Definition test_args (line : string) : option (list string) :=
  if skipped line then None
  else match command_of (Py.strip line) with
       | Some (c, args) => if String.eqb c "TEST" then Some args else None
       | None => None
       end.

(** The [TEST] commands of a script, in order. *)
Definition test_commands (lines : list string) : list (list string) :=
  omap test_args lines.

(** Every dictionary of [s] is still there in [s'], with its id, its title
    and a FAIL verdict kept. *)
Definition keeps_cases (s s' : TestRunner) : Prop :=
  forall r td, deref s r = Some td ->
    exists td', deref s' r = Some td' /\ td_le td td'.

(** The test cases that were opened and are not finalized. *)
Definition open_cases (s : TestRunner) : list nat :=
  filter (fun r => r ∉ test_results s) (seq 0 (length (heap s))).

(** Every test case is finalized or is the current one. *)
Definition one_open (s : TestRunner) : Prop :=
  forall r, (r < length (heap s))%nat ->
    r ∈ test_results s \/ current_test_data s = Some r.

(** A world where every tool succeeds and prints [2.58], nobody presses
    Ctrl+C and the clock shows noon; used for the concrete runs below. *)
Definition w_ok : world :=
  World "python" (fun _ => Exited 0 "2.58" "") (fun _ => false) (fun _ => "120000").

(** The interpreter after a first test case failed a check. *)
Definition s_failed : TestRunner :=
  snd (run_lines w_ok ["TEST T1 a"; "CHECK_DIFF 1 2 0.5"] init).

(** The shape of the case bookkeeping between two commands: with [n + 1]
    cases opened, the first [n] are finalized, in order, and the last is
    the open one. *)
Definition shape (s : TestRunner) : Prop :=
  test_results s = seq 0 (pred (length (heap s))) /\
  current_test_data s =
    match length (heap s) with O => None | S n => Some n end.

(** [generate_report] first finalizes the open case, unless the finalized
    list already holds it or a dictionary equal to it. *)
Definition finalize_last (s : TestRunner) : TestRunner :=
  match current_test_data s with
  | Some r =>
      if dict_in s r (test_results s) then s
      else set_test_results (test_results s ++ [r]) s
  | None => s
  end.

(** ... and writes a report unless the finalized list is empty. *)
Definition report_of (s : TestRunner) : option report :=
  match test_results s with
  | [] => None
  | _ => Some (make_report (finalized s))
  end.

(** While no failure is recorded, every test case has the verdict PASS. *)
Definition pass_while_no_failure (s : TestRunner) : Prop :=
  failed_tests s = [] -> Forall (fun td => td_result td = "PASS") (heap s).

(** The interpreter before any [TEST] command was executed. *)
Definition no_case_yet (s : TestRunner) : Prop :=
  heap s = [] /\ test_results s = [] /\ current_test_data s = None /\
  current_test_id s = "N/A" /\ current_test_title s = "" /\
  Forall (fun e => e = "N/A ()") (failed_tests s).

(** The error of [parse_value] for a variable that is not defined. *)
Definition undefined_variable (name : string) : exn :=
  ValueError ("使用了未定义的变量: " ++ name ++ " (请先使用 DEF_VAR 定义)").

(** The interpreter with [$v] defined as 1.5. *)
Definition s_with_v : TestRunner :=
  snd (run_lines w_ok ["DEF_VAR $v 1.5"] init).

(** [m] raises nothing but what [except Exception] catches. *)
Definition Catchable {A} (m : M A) : Prop :=
  forall s, match fst (m s) with
            | Raise e => is_Exception e = true
            | Ret _ => True
            end.

(** [m] always returns. *)
Definition Returns {A} (m : M A) : Prop :=
  forall s, exists a, fst (m s) = Ret a.

(** The message of a failed [CHECK_DIFF]. *)
Definition diff_failure (diff max_diff : float) : string :=
  RED ++ "FAIL" ++ RESET ++ ": 差异 " ++ fmt diff ++ " > 允许值 " ++ fmt max_diff.

(** The interpreter with a test case open. *)
Definition s_open : TestRunner := snd (run_lines w_ok ["TEST T1 a"] init).

(** The report row and the failure message of [CHECK_RANGE]. *)
Definition range_row (lower upper : float) : string :=
  "[" ++ fmt lower ++ ", " ++ fmt upper ++ "]".

Definition range_failure (a0 a1 a2 : string) (real lower upper : float) : string :=
  RED ++ "FAIL" ++ RESET ++ ": " ++ a0 ++ "(" ++ fmt real ++ ") 超出范围 [" ++
  fmt lower ++ ", " ++ fmt upper ++ "] (期望: " ++ a1 ++ " ±" ++ a2 ++ ")".

(** The message of [SET_VAR] and [READ] for a target that is not defined. *)
Definition undefined_target (name : string) : string :=
  "变量 " ++ name ++ " 未定义。请先使用 DEF_VAR " ++ name ++ " 进行定义。".

(** A method that only reports [msg] through [error]. *)
Definition only_reports (m : M unit) (msg : string) (s : TestRunner) : Prop :=
  m s = error msg s.

(** A world whose tools succeed and print nothing but blanks. *)
Definition w_silent : world :=
  World "python" (fun _ => Exited 0 "  " "") (fun _ => false) (fun _ => "120000").

(** ** Footprints of the commands *)

(** What a method may touch besides the world's bookkeeping ([clock]), the
    list of failures and the contents of the open case: the variable store,
    the configuration store, the instruments (a tool is spawned), the list
    of test cases (a case is finalized or opened). *)
Record footprint : Type := Footprint {
  fp_variables : bool;
  fp_config : bool;
  fp_tools : bool;
  fp_cases : bool
}.

Inductive change (k : footprint) : relation TestRunner :=
| change_variables v s : fp_variables k = true -> change k s (set_variables v s)
| change_config c s : fp_config k = true -> change k s (set_config c s)
| change_calls c s : fp_tools k = true -> change k s (set_calls c s)
| change_clock n s : change k s (set_clock n s)
| change_error msg s : change k s (snd (error msg s))
| change_current f s : change k s (snd (update_current f s))
| change_test args s : fp_cases k = true -> change k s (snd (cmd_test args s)).

(** A method that stays within the footprint [k]. *)
Definition Changes {A} (k : footprint) (m : M A) : Prop :=
  forall s, rtc (change k) s (snd (m s)).

(** The footprint of each command keyword. *)
Definition footprint_of (cmd : string) : footprint :=
  if String.eqb cmd "TEST" then Footprint false false false true
  else if String.eqb cmd "DEF_VAR" then Footprint true false false false
  else if String.eqb cmd "SET_VAR" then Footprint true false false false
  else if String.eqb cmd "CONFIG" then Footprint false true false false
  else if String.eqb cmd "READ" then Footprint true false true false
  else if String.eqb cmd "POWER_ON" then Footprint false false true false
  else if String.eqb cmd "POWER_OFF" then Footprint false false true false
  else if String.eqb cmd "POWER_CYCLE" then Footprint false false true false
  else if String.eqb cmd "RES_SET" then Footprint false false true false
  else if String.eqb cmd "RES_OPEN" then Footprint false false true false
  else if String.eqb cmd "RES_CLOSE" then Footprint false false true false
  else if String.eqb cmd "SCREENSHOT" then Footprint false false true false
  else Footprint false false false false.

(** The keyword of a line, in upper case ([None] for a blank line). *)
Definition keyword (line : string) : option string :=
  option_map fst (command_of line).

(** ** Worlds and exits *)

(** A world in which the operator never presses Ctrl+C. *)
Definition quiet (w : world) : Prop :=
  (forall k, tool_at w k <> Interrupted) /\ (forall k, interrupt_at w k = false).

(** The command line of the emergency power-off in state [s]. *)
Definition power_off_call (w : world) (s : TestRunner) : list string :=
  with_config s "POWER_ADDR" "-a" [python_exe w; PATH_POWER_CTRL; "-o"; "off"].

(** The lines of a script that the run loop executes. *)
Definition executed_lines (lines : list string) : list string :=
  List.filter (fun l => negb (skipped l)) lines.

(** The state after a tool was spawned: the invocation is noted and one
    reading of the world is used. *)
Definition tool_called (cmd : list string) (s : TestRunner) : TestRunner :=
  set_clock (S (clock s)) (set_calls (calls s ++ [cmd]) s).

(** The interpreter with the power-supply address configured. *)
Definition s_configured : TestRunner :=
  snd (run_lines w_ok ["CONFIG power_addr USB0"; "DEF_VAR $v 1"] init).

(** A world in which the operator interrupts the second tool. *)
Definition w_interrupt : world :=
  World "python"
    (fun k => if (k =? 1)%nat then Interrupted else Exited 0 "2.58" "")
    (fun _ => false) (fun _ => "120000").

(** ** Identifiers and the list of failures *)

(** A string with a blank character in it. *)
Fixpoint has_blank (s : string) : bool :=
  match s with
  | EmptyString => false
  | String c s' => Py.is_space c || has_blank s'
  end.

(** The identifier of the current case holds no blank, every entry of the
    list of failures holds one. *)
Definition ids_ok (s : TestRunner) : Prop :=
  has_blank (current_test_id s) = false /\
  Forall (fun e => has_blank e = true) (failed_tests s).

(** ** Lines that raise *)

(** [m] raises nothing but the operator's interrupt. *)
Definition OnlyInterrupt {A} (m : M A) : Prop :=
  forall s, match fst (m s) with
            | Raise e => e = KeyboardInterrupt
            | Ret _ => True
            end.

(** The durations that [WAIT] accepts: texts that [float] reads as a number
    that [time.sleep] takes. *)
Definition duration_ok (a : string) : bool :=
  match PyFloat.parse a with
  | None => false
  | Some sec =>
      negb (is_nan sec) &&
      negb ((sec * 1000000000 <? -9223372036854775808)%float ||
            (9223372036854775808 <=? sec * 1000000000)%float) &&
      negb (sec <? 0)%float
  end.

(** ** Command lines of the tools *)

(** The file name, the report link and the command line of [SCREENSHOT]
    in state [s]. *)
Definition shot_file (w : world) (args : list string) (s : TestRunner) : string :=
  current_test_id s ++ "_" ++ default "snap" (args !! 0%nat) ++ "_" ++
  time_at w (clock s) ++ ".png".

Definition shot_link (w : world) (args : list string) (s : TestRunner) : string :=
  "![" ++ default "snap" (args !! 0%nat) ++ "](screen_shot/" ++
  shot_file w args s ++ ") ".

Definition shot_call (w : world) (args : list string) (s : TestRunner)
    : list string :=
  with_config s "SCOPE_IP" "--ip"
    [python_exe w; PATH_YOKOGAWA; "shot"; "-o";
     Py.path_join (Py.path_join "result" "screen_shot") (shot_file w args s)].

(** The command line with which [POWER_CYCLE] switches the supply on again. *)
Definition power_on_again_call (w : world) (s : TestRunner) : list string :=
  with_config s "POWER_ADDR" "-a" [python_exe w; PATH_POWER_CTRL; "-o"; "on"].

(** ** What a run only adds to *)

(** From [s] to [s'] nothing was taken away: the list of failures, the list
    of invocations and the finalized list were only extended, no test case
    disappeared, every variable and every configuration key that was
    defined still is, and the readings of the world went forward. *)
Record grows (s s' : TestRunner) : Prop := Grow {
  grows_failed : failed_tests s `prefix_of` failed_tests s';
  grows_calls : calls s `prefix_of` calls s';
  grows_results : test_results s `prefix_of` test_results s';
  grows_heap : (length (heap s) <= length (heap s'))%nat;
  grows_variables : dom (variables s) ⊆ dom (variables s');
  grows_config : dom (config s) ⊆ dom (config s');
  grows_clock : (clock s <= clock s')%nat
}.

(** A method that only adds. *)
Definition Grows {A} (m : M A) : Prop := forall s, grows s (snd (m s)).

(** ** Commands and the stores they do not look at *)

(** [m] neither reads nor writes the variable store: it does the same
    whatever the store holds, and leaves the store as it is. *)
Definition ignores_variables {A} (m : M A) : Prop :=
  forall s v, m (set_variables v s) = (fst (m s), set_variables v (snd (m s))).

(** [m] does not depend on the list of failures: with another list it
    does the same, up to that list. *)
Definition ignores_failures {A} (m : M A) : Prop :=
  forall s f, exists f',
    m (set_failed_tests f s) = (fst (m s), set_failed_tests f' (snd (m s))).

(** * Properties *)

(** ** Every method is a sequence of primitive changes *)

Lemma steps_weaken t s s' : steps false s s' -> steps t s s'.
Proof.
  apply rtc_subrel. intros x y H.
  destruct H; try discriminate; constructor.
Qed.

Section StepsOfMethods.

Context {t : bool}.

Lemma Steps_ret {A} (a : A) : Steps t (ret a).
Proof. intros s. apply rtc_refl. Qed.

Lemma Steps_raise {A} (e : exn) : Steps t (@raise A e).
Proof. intros s. apply rtc_refl. Qed.

Lemma Steps_get : Steps t get.
Proof. intros s. apply rtc_refl. Qed.

Lemma Steps_bind {A B} (m : M A) (k : A -> M B) :
  Steps t m -> (forall a, Steps t (k a)) -> Steps t (bind m k).
Proof.
  intros Hm Hk s. unfold bind.
  specialize (Hm s). destruct (m s) as [[a|e] s1]; simpl in *.
  - eapply rtc_trans; [exact Hm | apply Hk].
  - exact Hm.
Qed.

Lemma Steps_try {A} (m : M A) (h : exn -> M A) :
  Steps t m -> (forall e, Steps t (h e)) -> Steps t (try_except m h).
Proof.
  intros Hm Hh s. unfold try_except.
  specialize (Hm s). destruct (m s) as [[a|e] s1]; simpl in *.
  - exact Hm.
  - destruct (is_Exception e); simpl.
    + eapply rtc_trans; [exact Hm | apply Hh].
    + exact Hm.
Qed.

Lemma Steps_error msg : Steps t (error msg).
Proof. intros s. apply rtc_once, prim_error. Qed.

Lemma Steps_row e a : Steps t (update_current (add_row e a)).
Proof. intros s. apply rtc_once, prim_row. Qed.

Lemma Steps_note n : Steps t (update_current (add_note n)).
Proof. intros s. apply rtc_once, prim_note. Qed.

Lemma Steps_set_variables (f : TestRunner -> gmap string float) :
  Steps t (modify (fun s => set_variables (f s) s)).
Proof. intros s. apply rtc_once, prim_variables. Qed.

Lemma Steps_set_config (f : TestRunner -> gmap string string) :
  Steps t (modify (fun s => set_config (f s) s)).
Proof. intros s. apply rtc_once, prim_config. Qed.

Lemma Steps_set_calls (f : TestRunner -> list (list string)) :
  Steps t (modify (fun s => set_calls (f s) s)).
Proof. intros s. apply rtc_once, prim_calls. Qed.

Lemma Steps_next_reading : Steps t next_reading.
Proof. intros s. apply rtc_once, prim_clock. Qed.

Lemma Steps_item args i : Steps t (item args i).
Proof. unfold item. destruct (args !! i); [apply Steps_ret | apply Steps_raise]. Qed.

Lemma Steps_float_of_str x : Steps t (float_of_str x).
Proof.
  unfold float_of_str. destruct (PyFloat.parse x); [apply Steps_ret | apply Steps_raise].
Qed.

End StepsOfMethods.

Create HintDb steps_db.

(** Splits a method into its parts, down to the primitive changes. *)
Ltac steps_split :=
  repeat first
    [ apply Steps_ret | apply Steps_raise | apply Steps_get
    | apply Steps_error | apply Steps_row | apply Steps_note
    | apply Steps_set_variables | apply Steps_set_config
    | apply Steps_set_calls | apply Steps_next_reading
    | apply Steps_item | apply Steps_float_of_str
    | apply Steps_bind; [| intros ?]
    | apply Steps_try; [| intros ?]
    | match goal with
      | |- Steps _ (if ?b then _ else _) => destruct b
      | |- Steps _ (match ?x with _ => _ end) => destruct x
      end ].

Section StepsOfCommands.

Context {t : bool} (w : world).

Lemma Steps_run_external_tool cmd desc : Steps t (run_external_tool w cmd desc).
Proof. unfold run_external_tool. steps_split. Qed.

Lemma Steps_parse_value tok : Steps t (parse_value tok).
Proof. unfold parse_value. steps_split. Qed.

Lemma Steps_sleep sec : Steps t (sleep w sec).
Proof. unfold sleep. steps_split. Qed.

#[local] Hint Resolve Steps_run_external_tool Steps_parse_value Steps_sleep
  : steps_db.

Lemma Steps_cmd_def_var args : Steps t (cmd_def_var args).
Proof. unfold cmd_def_var. steps_split; auto with steps_db. Qed.

Lemma Steps_cmd_config args : Steps t (cmd_config args).
Proof. unfold cmd_config. steps_split; auto with steps_db. Qed.

Lemma Steps_cmd_power_on args : Steps t (cmd_power_on w args).
Proof. unfold cmd_power_on. steps_split; auto with steps_db. Qed.

Lemma Steps_cmd_power_off args : Steps t (cmd_power_off w args).
Proof. unfold cmd_power_off. steps_split; auto with steps_db. Qed.

Lemma Steps_cmd_power_cycle args : Steps t (cmd_power_cycle w args).
Proof.
  unfold cmd_power_cycle. steps_split; auto with steps_db.
Qed.

Lemma Steps_cmd_res_set args : Steps t (cmd_res_set w args).
Proof. unfold cmd_res_set. steps_split; auto with steps_db. Qed.

Lemma Steps_cmd_res_open args : Steps t (cmd_res_open w args).
Proof. unfold cmd_res_open. steps_split; auto with steps_db. Qed.

Lemma Steps_cmd_res_close args : Steps t (cmd_res_close w args).
Proof. unfold cmd_res_close. steps_split; auto with steps_db. Qed.

Lemma Steps_cmd_screenshot args : Steps t (cmd_screenshot w args).
Proof. unfold cmd_screenshot. steps_split; auto with steps_db. Qed.

Lemma Steps_cmd_wait args : Steps t (cmd_wait w args).
Proof. unfold cmd_wait. steps_split; auto with steps_db. Qed.

Lemma Steps_cmd_read args : Steps t (cmd_read w args).
Proof. unfold cmd_read. steps_split; auto with steps_db. Qed.

Lemma Steps_cmd_set_var args : Steps t (cmd_set_var args).
Proof. unfold cmd_set_var. steps_split; auto with steps_db. Qed.

Lemma Steps_cmd_check_range args : Steps t (cmd_check_range args).
Proof. unfold cmd_check_range. steps_split; auto with steps_db. Qed.

Lemma Steps_cmd_check_diff args : Steps t (cmd_check_diff args).
Proof. unfold cmd_check_diff. steps_split; auto with steps_db. Qed.

End StepsOfCommands.

(** ** What the primitive changes do *)

Lemma error_spec msg s :
  error msg s =
  (Ret tt,
   set_heap
     (match current_test_data s with
      | Some r => alter (mark_failed msg) r (heap s)
      | None => heap s
      end)
     (set_failed_tests
        (if bool_decide (current_test_id s ∈ failed_tests s)
         then failed_tests s else failed_tests s ++ [failed_entry s]) s)).
Proof.
  unfold error, bind, modify, update_current, failed_entry.
  destruct s as [v c f h tr cur i ti ca cl]; simpl.
  destruct (bool_decide (i ∈ f)); destruct cur; reflexivity.
Qed.

Lemma update_current_spec f s :
  update_current f s =
  (Ret tt,
   set_heap
     (match current_test_data s with
      | Some r => alter f r (heap s)
      | None => heap s
      end) s).
Proof.
  unfold update_current, modify.
  destruct s as [v c fl h tr cur i ti ca cl]; simpl.
  destruct cur; reflexivity.
Qed.

Lemma cmd_test_nil s :
  cmd_test [] s = (Raise (IndexError "list index out of range"), finalize_current s).
Proof. reflexivity. Qed.

Lemma cmd_test_cons a0 rest s :
  cmd_test (a0 :: rest) s =
  (Ret tt, open_case a0 (case_title (a0 :: rest)) (finalize_current s)).
Proof.
  unfold cmd_test, bind, modify, item, finalize_current, open_case; simpl.
  destruct s as [v c f h tr cur i ti ca cl]; simpl.
  destruct cur; reflexivity.
Qed.

(** ** What every step keeps *)

Lemma td_le_refl td : td_le td td.
Proof. unfold td_le; auto. Qed.

Lemma td_le_trans a b c : td_le a b -> td_le b c -> td_le a c.
Proof.
  unfold td_le. intros (?&?&?&?) (?&?&?&?).
  repeat split; try congruence; auto.
  destruct H2, H6; auto; left; congruence.
Qed.

Lemma td_le_mark_failed msg td : td_le td (mark_failed msg td).
Proof. unfold td_le; simpl; auto. Qed.

Lemma td_le_add_row e a td : td_le td (add_row e a td).
Proof. unfold td_le; simpl; auto. Qed.

Lemma td_le_add_note n td : td_le td (add_note n td).
Proof. unfold td_le; simpl; auto. Qed.

Lemma Forall2_td_le_refl (h : list test_data) : Forall2 td_le h h.
Proof. induction h; constructor; auto using td_le_refl. Qed.

Lemma Forall2_td_le_alter f r (h : list test_data) :
  (forall td, td_le td (f td)) -> Forall2 td_le h (alter f r h).
Proof.
  intros Hf. revert r. induction h as [|td h IH]; intros r.
  - constructor.
  - destruct r as [|r]; cbn; constructor;
      auto using td_le_refl, Forall2_td_le_refl.
Qed.

Lemma Forall2_td_le_trans (a b c : list test_data) :
  Forall2 td_le a b -> Forall2 td_le b c -> Forall2 td_le a c.
Proof.
  intros Hab. revert c. induction Hab; intros c Hbc; inversion Hbc; subst.
  - constructor.
  - constructor; eauto using td_le_trans.
Qed.

Lemma frame_refl s : frame s s.
Proof. constructor; auto using Forall2_td_le_refl. Qed.

Lemma frame_trans a b c : frame a b -> frame b c -> frame a c.
Proof.
  intros [] []. constructor; try congruence.
  eauto using Forall2_td_le_trans.
Qed.

Lemma prim_frame s s' : prim false s s' -> frame s s'.
Proof.
  intros H. inversion H; subst; try discriminate.
  - destruct s; constructor; simpl; auto using Forall2_td_le_refl.
  - destruct s; constructor; simpl; auto using Forall2_td_le_refl.
  - destruct s; constructor; simpl; auto using Forall2_td_le_refl.
  - destruct s; constructor; simpl; auto using Forall2_td_le_refl.
  - rewrite error_spec. destruct s as [v c f h tr cur i ti ca cl]; simpl.
    constructor; simpl; auto.
    destruct cur; auto using Forall2_td_le_refl, Forall2_td_le_alter, td_le_mark_failed.
  - rewrite update_current_spec. destruct s as [v c f h tr cur i ti ca cl]; simpl.
    constructor; simpl; auto.
    destruct cur; auto using Forall2_td_le_refl, Forall2_td_le_alter, td_le_add_row.
  - rewrite update_current_spec. destruct s as [v c f h tr cur i ti ca cl]; simpl.
    constructor; simpl; auto.
    destruct cur; auto using Forall2_td_le_refl, Forall2_td_le_alter, td_le_add_note.
Qed.

Lemma steps_frame s s' : steps false s s' -> frame s s'.
Proof.
  induction 1 as [|x y z Hxy _ IH].
  - apply frame_refl.
  - eapply frame_trans; [apply prim_frame; exact Hxy | exact IH].
Qed.

(** ** Script lines *)

#[export] Hint Resolve Steps_cmd_def_var Steps_cmd_config Steps_cmd_power_on
  Steps_cmd_power_off Steps_cmd_power_cycle Steps_cmd_res_set
  Steps_cmd_res_open Steps_cmd_res_close Steps_cmd_screenshot Steps_cmd_wait
  Steps_cmd_read Steps_cmd_set_var Steps_cmd_check_range Steps_cmd_check_diff
  Steps_error Steps_ret : steps_db.

Lemma run_lines_cons w line rest :
  run_lines w (line :: rest) =
  if skipped line then run_lines w rest
  else (execute_line w (Py.strip line) ;; run_lines w rest).
Proof. reflexivity. Qed.

Lemma execute_line_test w line args :
  command_of line = Some ("TEST", args) -> execute_line w line = cmd_test args.
Proof.
  unfold command_of, execute_line. destruct (Py.split line) as [|p0 l]; [discriminate|].
  intros [= -> ->]. reflexivity.
Qed.

Lemma Steps_execute_line_other w line :
  (forall args, command_of line <> Some ("TEST", args)) ->
  Steps false (execute_line w line).
Proof.
  unfold command_of, execute_line. intros H.
  destruct (Py.split line) as [|p0 args]; [apply Steps_ret|].
  destruct (String.eqb_spec (Py.upper p0) "TEST") as [E|_].
  { exfalso. apply (H args). rewrite E. reflexivity. }
  repeat match goal with
         | |- Steps _ (if ?b then _ else _) => destruct b
         end; auto with steps_db.
Qed.

Lemma Steps_execute_line w line : Steps true (execute_line w line).
Proof.
  unfold execute_line.
  destruct (Py.split line) as [|p0 args]; [apply Steps_ret|].
  destruct (String.eqb (Py.upper p0) "TEST").
  { intros s. apply rtc_once, prim_test. reflexivity. }
  repeat match goal with
         | |- Steps _ (if ?b then _ else _) => destruct b
         end; auto with steps_db.
Qed.

Lemma Steps_run_lines w lines : Steps true (run_lines w lines).
Proof.
  induction lines as [|line rest IH].
  - apply Steps_ret.
  - rewrite run_lines_cons. destruct (skipped line); [exact IH|].
    apply Steps_bind; [apply Steps_execute_line | intros _; exact IH].
Qed.

Lemma test_args_None_other line :
  skipped line = false -> test_args line = None ->
  forall args, command_of (Py.strip line) <> Some ("TEST", args).
Proof.
  unfold test_args. intros -> H args E. rewrite E in H. discriminate.
Qed.

Lemma Steps_run_lines_no_test w lines :
  test_commands lines = [] -> Steps false (run_lines w lines).
Proof.
  induction lines as [|line rest IH]; intros H.
  - apply Steps_ret.
  - unfold test_commands in H. simpl in H.
    destruct (test_args line) eqn:E; [discriminate|].
    rewrite run_lines_cons. destruct (skipped line) eqn:Sk; [exact (IH H)|].
    apply Steps_bind; [|intros _; exact (IH H)].
    apply Steps_execute_line_other. now apply test_args_None_other.
Qed.

(** ** Test cases along a run *)

Lemma prim_cases t s s' :
  prim t s s' -> frame s s' \/ exists args, s' = snd (cmd_test args s).
Proof.
  intros H. inversion H; subst;
    first [ right; eexists; reflexivity
          | left; apply prim_frame; constructor ].
Qed.

Lemma keeps_cases_refl s : keeps_cases s s.
Proof. intros r td H. exists td. auto using td_le_refl. Qed.

Lemma keeps_cases_trans a b c :
  keeps_cases a b -> keeps_cases b c -> keeps_cases a c.
Proof.
  intros Hab Hbc r td H.
  destruct (Hab r td H) as (td1 & H1 & L1).
  destruct (Hbc r td1 H1) as (td2 & H2 & L2).
  exists td2. eauto using td_le_trans.
Qed.

Lemma frame_keeps_cases s s' : frame s s' -> keeps_cases s s'.
Proof.
  intros [Hh _ _ _ _] r td H. unfold deref in *.
  destruct (Forall2_lookup_l _ _ _ _ _ Hh H) as (td' & ? & ?). eauto.
Qed.

Lemma heap_finalize_current s : heap (finalize_current s) = heap s.
Proof. unfold finalize_current. destruct s, current_test_data0; reflexivity. Qed.

Lemma cmd_test_keeps_cases args s : keeps_cases s (snd (cmd_test args s)).
Proof.
  intros r td H. exists td. split; [|apply td_le_refl].
  unfold deref in *. destruct args as [|a0 rest].
  - rewrite cmd_test_nil. simpl. now rewrite heap_finalize_current.
  - rewrite cmd_test_cons. simpl. rewrite heap_finalize_current.
    now apply lookup_app_l_Some.
Qed.

Lemma steps_keeps_cases t s s' : steps t s s' -> keeps_cases s s'.
Proof.
  induction 1 as [|x y z Hxy _ IH].
  - apply keeps_cases_refl.
  - eapply keeps_cases_trans; [|exact IH].
    destruct (prim_cases _ _ _ Hxy) as [F|[args ->]];
      auto using frame_keeps_cases, cmd_test_keeps_cases.
Qed.

Lemma frame_one_open s s' : frame s s' -> one_open s -> one_open s'.
Proof.
  intros [Hh Hr Hc _ _] H r Hlt. rewrite Hr, Hc. apply H.
  now rewrite (Forall2_length _ _ _ Hh).
Qed.

Lemma finalize_current_one_open s :
  one_open s ->
  forall r, (r < length (heap s))%nat -> r ∈ test_results (finalize_current s).
Proof.
  intros H r Hlt. unfold finalize_current.
  destruct (H r Hlt) as [Hin|Hc].
  - destruct (current_test_data s); destruct s; simpl in *; set_solver.
  - rewrite Hc. destruct s; simpl in *. set_solver.
Qed.

Lemma cmd_test_one_open args s : one_open s -> one_open (snd (cmd_test args s)).
Proof.
  intros H r. destruct args as [|a0 rest].
  - rewrite cmd_test_nil. simpl. rewrite heap_finalize_current. intros Hlt.
    left. now apply finalize_current_one_open.
  - rewrite cmd_test_cons. simpl. rewrite length_app, heap_finalize_current.
    simpl. intros Hlt.
    destruct (decide (r = length (heap s))) as [->|Hne]; [now right|].
    left. apply finalize_current_one_open; [exact H | lia].
Qed.

Lemma steps_one_open t s s' : steps t s s' -> one_open s -> one_open s'.
Proof.
  induction 1 as [|x y z Hxy _ IH]; [auto|].
  intros H. apply IH.
  destruct (prim_cases _ _ _ Hxy) as [F|[args ->]];
    eauto using frame_one_open, cmd_test_one_open.
Qed.

Lemma one_open_init : one_open init.
Proof. intros r Hlt. simpl in Hlt. lia. Qed.

Lemma NoDup_all_equal_length (l : list nat) (c : nat) :
  NoDup l -> (forall x, x ∈ l -> x = c) -> (length l <= 1)%nat.
Proof.
  intros Hnd Hall. destruct l as [|a [|b l]]; simpl; try lia.
  exfalso. assert (a = c) by (apply Hall; set_solver).
  assert (b = c) by (apply Hall; set_solver). subst.
  inversion Hnd; subst. set_solver.
Qed.

Lemma one_open_open_cases s :
  one_open s ->
  (forall r, r ∈ open_cases s -> current_test_data s = Some r) /\
  (length (open_cases s) <= 1)%nat.
Proof.
  intros H.
  assert (Hall : forall r, r ∈ open_cases s -> current_test_data s = Some r).
  { intros r Hin. unfold open_cases in Hin.
    apply list_elem_of_filter in Hin as [Hnot Hseq].
    apply elem_of_seq in Hseq.
    destruct (H r) as [?|?]; [lia | contradiction | assumption]. }
  split; [exact Hall|].
  destruct (current_test_data s) as [c|] eqn:E.
  - apply (NoDup_all_equal_length _ c).
    + apply NoDup_filter, NoDup_seq.
    + intros x Hx. specialize (Hall x Hx). congruence.
  - destruct (open_cases s) as [|a l]; simpl; [lia|].
    specialize (Hall a). discriminate Hall. set_solver.
Qed.

(** C6: once the verdict of a test case is FAIL, no later command of the
    script sets it back to PASS (the case keeps the verdict FAIL, whether
    it is still the open case or has been finalized); and at every point
    of a run at most one opened case is not yet finalized, and that case is
    [current_test_data]. *)
Theorem C6_fail_is_kept_and_one_case_open (w : world) (lines : list string)
    (s : TestRunner) :
  let s' := snd (run_lines w lines s) in
  (forall r td, deref s r = Some td -> td_result td = "FAIL" ->
     exists td', deref s' r = Some td' /\ td_result td' = "FAIL" /\
                 td_result td' <> "PASS") /\
  (one_open s ->
     (forall r, r ∈ open_cases s' -> current_test_data s' = Some r) /\
     (length (open_cases s') <= 1)%nat) /\
  (length (open_cases (snd (run_lines w lines init))) <= 1)%nat.
Proof.
  intros s'. split; [|split].
  - intros r td Hd Hf.
    destruct (steps_keeps_cases _ _ _ (Steps_run_lines w lines s) r td Hd)
      as (td' & Hd' & _ & _ & Hk & _).
    exists td'. split; [exact Hd'|]. rewrite (Hk Hf). split; [reflexivity|discriminate].
  - intros H. apply one_open_open_cases.
    exact (steps_one_open _ _ _ (Steps_run_lines w lines s) H).
  - apply one_open_open_cases.
    exact (steps_one_open _ _ _ (Steps_run_lines w lines init) one_open_init).
Qed.

Lemma C6_fail_is_kept_and_one_case_open_witness :
  (exists td',
     deref (snd (run_lines w_ok ["CHECK_DIFF 1 1 1"; "TEST T2 b"] s_failed)) 0
       = Some td' /\ td_result td' = "FAIL" /\ td_result td' <> "PASS") /\
  (length (open_cases
             (snd (run_lines w_ok ["CHECK_DIFF 1 1 1"; "TEST T2 b"] s_failed)))
     <= 1)%nat.
Proof.
  destruct (C6_fail_is_kept_and_one_case_open w_ok
              ["CHECK_DIFF 1 1 1"; "TEST T2 b"] s_failed) as (H1 & H2 & _).
  split.
  - apply (H1 0%nat (TestData "T1" "a" "FAIL" ["Diff <= 0.5000"] ["1.0000"]
                       (RED ++ "FAIL" ++ RESET ++ ": 差异 1.0000 > 允许值 0.5000; ")));
      vm_compute; reflexivity.
  - apply H2. intros r Hlt.
    assert (r = 0%nat) as -> by (vm_compute in Hlt; lia).
    right. vm_compute. reflexivity.
Defined.

(** ** The finalized list of a completed run *)

Lemma rev_onto_nonempty s acc : acc <> "" -> Py.rev_onto s acc <> "".
Proof.
  revert acc. induction s as [|c s IH]; intros acc H; simpl; [exact H|].
  apply IH. discriminate.
Qed.

Lemma split_from_nonempty s cur :
  Forall (fun tok => tok <> "") (Py.split_from cur s).
Proof.
  revert cur. induction s as [|c s IH]; intros cur; simpl.
  - destruct cur as [|c cur]; [constructor|]. constructor; [|constructor].
    unfold Py.rev; simpl. apply rev_onto_nonempty. discriminate.
  - destruct (Py.is_space c); [|apply IH].
    destruct cur as [|c' cur]; [apply IH|]. constructor; [|apply IH].
    unfold Py.rev; simpl. apply rev_onto_nonempty. discriminate.
Qed.

Lemma command_of_args_nonempty line c a0 rest :
  command_of line = Some (c, a0 :: rest) -> a0 <> "".
Proof.
  unfold command_of. pose proof (split_from_nonempty line "") as H.
  fold (Py.split line) in H. destruct (Py.split line) as [|p0 l]; [discriminate|].
  intros [= <- ->]. inversion H as [|? ? _ Hl]; subst.
  inversion Hl; subst. assumption.
Qed.

Lemma test_args_Some line args :
  test_args line = Some args ->
  skipped line = false /\ command_of (Py.strip line) = Some ("TEST", args).
Proof.
  unfold test_args. destruct (skipped line); [discriminate|].
  destruct (command_of (Py.strip line)) as [[c a]|]; [|discriminate].
  destruct (String.eqb_spec c "TEST"); [|discriminate].
  intros [= ->]. subst. auto.
Qed.

Lemma shape_init : shape init.
Proof. split; reflexivity. Qed.

Lemma frame_shape s s' : frame s s' -> shape s -> shape s'.
Proof.
  intros [Hh Hr Hc _ _] [H1 H2]. unfold shape.
  rewrite Hr, Hc, <- (Forall2_length _ _ _ Hh). auto.
Qed.

Lemma frame_ids s s' :
  frame s s' ->
  map td_id (heap s') = map td_id (heap s) /\
  map td_title (heap s') = map td_title (heap s).
Proof.
  intros [Hh _ _ _ _]. induction Hh as [|x y l l' (Hi & Ht & _) _ [IH1 IH2]]; simpl.
  - auto.
  - rewrite Hi, Ht, IH1, IH2. auto.
Qed.

Lemma test_results_finalize_current s :
  test_results (finalize_current s) =
  (test_results s ++
     match current_test_data s with Some r => [r] | None => [] end)%list.
Proof.
  unfold finalize_current. destruct s as [v c f h tr cur i ti ca cl]; simpl.
  destruct cur; simpl; [reflexivity | now rewrite app_nil_r].
Qed.

Lemma shape_open_case a0 ti s :
  shape s -> shape (open_case a0 ti (finalize_current s)).
Proof.
  intros [H1 H2]. unfold shape. simpl.
  rewrite test_results_finalize_current, heap_finalize_current, length_app.
  simpl. rewrite H1, H2. replace (length (heap s) + 1)%nat with (S (length (heap s))) by lia.
  simpl. split; [|reflexivity].
  destruct (length (heap s)) as [|n]; simpl; [reflexivity|].
  exact (eq_sym (seq_S n 0)).
Qed.

Lemma run_lines_cases w lines :
  forall s s', run_lines w lines s = (Ret tt, s') -> shape s ->
    shape s' /\
    map td_id (heap s') =
      (map td_id (heap s) ++ map case_id (test_commands lines))%list /\
    map td_title (heap s') =
      (map td_title (heap s) ++ map case_title (test_commands lines))%list /\
    Forall (fun a => case_id a <> "") (test_commands lines).
Proof.
  induction lines as [|line rest IH]; intros s s' Hrun Hs.
  - injection Hrun as <-. simpl. rewrite !app_nil_r. auto.
  - rewrite run_lines_cons in Hrun. unfold test_commands in *. simpl.
    destruct (test_args line) as [args|] eqn:E.
    + apply test_args_Some in E as [Sk E]. rewrite Sk in Hrun.
      unfold bind in Hrun.
      rewrite (execute_line_test _ _ _ E) in Hrun.
      destruct args as [|a0 args].
      { rewrite cmd_test_nil in Hrun. discriminate. }
      rewrite cmd_test_cons in Hrun.
      destruct (IH _ _ Hrun (shape_open_case _ _ _ Hs)) as (S' & Hi & Ht & Hne).
      split; [exact S'|]. simpl in Hi, Ht. rewrite heap_finalize_current in Hi, Ht.
      rewrite map_app in Hi, Ht. simpl in Hi, Ht.
      rewrite <- !app_assoc in Hi, Ht. simpl in Hi, Ht.
      repeat split; [exact Hi | exact Ht |].
      constructor; [|exact Hne]. simpl.
      eapply command_of_args_nonempty; exact E.
    + destruct (skipped line) eqn:Sk; [exact (IH _ _ Hrun Hs)|].
      unfold bind in Hrun.
      pose proof (Steps_execute_line_other w (Py.strip line)
                    (test_args_None_other _ Sk E) s) as St.
      apply steps_frame in St.
      destruct (execute_line w (Py.strip line) s) as [[[]|e] s1]; [|discriminate].
      simpl in St.
      destruct (IH _ _ Hrun (frame_shape _ _ St Hs)) as (S' & Hi & Ht & Hne).
      destruct (frame_ids _ _ St) as [Ei Et]. rewrite Ei in Hi. rewrite Et in Ht.
      auto.
Qed.

Lemma generate_report_spec s :
  generate_report s = (Ret (report_of (finalize_last s)), finalize_last s).
Proof.
  unfold generate_report, bind, modify, get, finalize_last, report_of.
  destruct (test_results
              match current_test_data s with
              | Some r =>
                  if dict_in s r (test_results s) then s
                  else set_test_results (test_results s ++ [r]) s
              | None => s
              end); reflexivity.
Qed.

Lemma failed_tests_finalize_last s :
  failed_tests (finalize_last s) = failed_tests s.
Proof.
  unfold finalize_last. destruct (current_test_data s); [|reflexivity].
  destruct (dict_in s n (test_results s)); destruct s; reflexivity.
Qed.

Lemma heap_finalize_last s : heap (finalize_last s) = heap s.
Proof.
  unfold finalize_last. destruct (current_test_data s); [|reflexivity].
  destruct (dict_in s n (test_results s)); destruct s; reflexivity.
Qed.

(** The exit status and the report of a run whose loop completed. *)
Lemma run_completed w lines s :
  run_lines w lines init = (Ret tt, s) ->
  run w (FileLines lines) =
  RunResult (SysExit (match failed_tests s with [] => 0 | _ => 1 end))
    (report_of (finalize_last s)) (failed_tests s) (finalize_last s).
Proof.
  intros H. unfold run. rewrite H, generate_report_spec.
  rewrite failed_tests_finalize_last. destruct (failed_tests s); reflexivity.
Qed.

Lemma resolve_all_from (pre h : list test_data) :
  omap (fun r => (pre ++ h)%list !! r) (seq (length pre) (length h)) = h.
Proof.
  revert pre. induction h as [|x h IH]; intros pre; [reflexivity|].
  simpl. rewrite list_lookup_middle by reflexivity. f_equal.
  specialize (IH (pre ++ [x])%list).
  rewrite <- app_assoc, length_app in IH. simpl in IH.
  replace (length pre + 1)%nat with (S (length pre)) in IH by lia. exact IH.
Qed.

Lemma resolve_all (h : list test_data) :
  omap (fun r => h !! r) (seq 0 (length h)) = h.
Proof. exact (resolve_all_from [] h). Qed.

Lemma shape_finalize_last s :
  shape s ->
  (forall r, current_test_data s = Some r -> dict_in s r (test_results s) = false) ->
  test_results (finalize_last s) = seq 0 (length (heap s)) /\
  finalized (finalize_last s) = heap s.
Proof.
  intros [H1 H2] Hd.
  assert (E : test_results (finalize_last s) = seq 0 (length (heap s))).
  { unfold finalize_last. destruct (current_test_data s) as [r|] eqn:Ec.
    - rewrite (Hd r eq_refl). destruct (length (heap s)) as [|n]; [discriminate|].
      injection H2 as ->. destruct s; simpl in *. subst.
      exact (eq_sym (seq_S n 0)).
    - destruct (length (heap s)); [exact H1 | discriminate]. }
  split; [exact E|].
  unfold finalized, resolve, deref. rewrite E, heap_finalize_last.
  apply resolve_all.
Qed.

(** C2 (as amended): a script with N [TEST] commands whose loop reaches
    the end of the script, and whose last case is not equal to a case
    finalized before, ends with exactly N finalized cases, in script order,
    each listed once and each with the non-empty id and the title (possibly
    empty) of its [TEST] line; and a [TEST] command moves exactly the open
    case, if there is one, to the finalized list before it opens the new
    one. *)
Theorem C2_finalized_cases_of_a_completed_run (w : world) (lines : list string)
    (s : TestRunner) :
  run_lines w lines init = (Ret tt, s) ->
  (forall r, current_test_data s = Some r -> dict_in s r (test_results s) = false) ->
  let cases := test_commands lines in
  let rows := finalized (final (run w (FileLines lines))) in
  length rows = length cases /\
  map td_id rows = map case_id cases /\
  map td_title rows = map case_title cases /\
  Forall (fun td => td_id td <> "") rows /\
  test_results (final (run w (FileLines lines))) = seq 0 (length cases) /\
  NoDup (test_results (final (run w (FileLines lines)))) /\
  (forall args s0,
     test_results (snd (cmd_test args s0)) =
     (test_results s0 ++
        match current_test_data s0 with Some r => [r] | None => [] end)%list /\
     (forall a0 rest, args = a0 :: rest ->
        current_test_data (snd (cmd_test args s0)) = Some (length (heap s0)) /\
        heap (snd (cmd_test args s0)) =
          (heap s0 ++ [TestData a0 (case_title args) "PASS" [] [] ""])%list)).
Proof.
  intros Hrun Hd cases rows.
  destruct (run_lines_cases w lines init s Hrun shape_init) as (Hs & Hi & Ht & Hne).
  destruct (shape_finalize_last s Hs Hd) as [Er Ef].
  simpl in Hi, Ht. fold cases in Hi, Ht, Hne.
  assert (Hrows : rows = heap s).
  { unfold rows. rewrite (run_completed w lines s Hrun). exact Ef. }
  assert (Hlen : length (heap s) = length cases).
  { pose proof (f_equal (@length string) Hi) as Hl.
    now rewrite !List.length_map in Hl. }
  rewrite (run_completed w lines s Hrun). simpl. rewrite Hrows, Er, Hlen.
  repeat split; auto.
  - apply (proj1 (List.Forall_map td_id (fun i => i <> "") (heap s))).
    rewrite Hi.
    apply (proj2 (List.Forall_map case_id (fun i => i <> "") cases)). exact Hne.
  - apply NoDup_seq.
  - destruct args as [|a0 rest].
    + rewrite cmd_test_nil. apply test_results_finalize_current.
    + rewrite cmd_test_cons. apply test_results_finalize_current.
  - subst args. rewrite cmd_test_cons. simpl. now rewrite heap_finalize_current.
  - subst args. rewrite cmd_test_cons. simpl. now rewrite heap_finalize_current.
Qed.

Lemma C2_finalized_cases_of_a_completed_run_witness :
  map td_id (finalized (final (run w_ok
       (FileLines ["TEST T1 a"; "CHECK_DIFF 1 2 0.5"; "# note"; "test T2"]))))
    = ["T1"; "T2"] /\
  map td_title (finalized (final (run w_ok
       (FileLines ["TEST T1 a"; "CHECK_DIFF 1 2 0.5"; "# note"; "test T2"]))))
    = ["a"; ""].
Proof.
  destruct (C2_finalized_cases_of_a_completed_run w_ok
              ["TEST T1 a"; "CHECK_DIFF 1 2 0.5"; "# note"; "test T2"]
              (snd (run_lines w_ok
                 ["TEST T1 a"; "CHECK_DIFF 1 2 0.5"; "# note"; "test T2"] init)))
    as (_ & Hi & Ht & _).
  - vm_compute. reflexivity.
  - intros r Hr. vm_compute in Hr. injection Hr as <-. vm_compute. reflexivity.
  - split; [exact Hi | exact Ht].
Defined.

(** C2 as the claim states it fails: a [TEST] line with an id only gives a
    finalized case with an empty title. *)
Lemma C2_counterexample_empty_title :
  status (run w_ok (FileLines ["TEST T1"])) = SysExit 0 /\
  ~ Forall (fun td => td_id td <> "" /\ td_title td <> "")
      (finalized (final (run w_ok (FileLines ["TEST T1"])))).
Proof.
  split; [vm_compute; reflexivity|].
  intros H. vm_compute in H. inversion H as [|? ? [_ Ht] _]; subst.
  apply Ht. reflexivity.
Qed.

(** The guard of [generate_report] compares dictionaries by value: a last
    case equal to an earlier one is not added, so two [TEST] commands leave
    one finalized case. *)
Lemma last_case_equal_to_an_earlier_one_is_dropped :
  length (test_commands ["TEST T1 a"; "TEST T1 a"]) = 2%nat /\
  status (run w_ok (FileLines ["TEST T1 a"; "TEST T1 a"])) = SysExit 0 /\
  finalized (final (run w_ok (FileLines ["TEST T1 a"; "TEST T1 a"]))) =
    [TestData "T1" "a" "PASS" [] [] ""].
Proof. vm_compute. auto. Qed.

(** ** Verdicts and the list of failures *)

Lemma error_records msg s : failed_tests (snd (error msg s)) <> [].
Proof.
  rewrite error_spec. destruct s as [v c f h tr cur i ti ca cl]; simpl.
  destruct (bool_decide_reflect (i ∈ f)) as [Hin|_].
  - intros ->. set_solver.
  - destruct f; discriminate.
Qed.

Lemma Forall_alter_result (f : test_data -> test_data) r (h : list test_data) :
  (forall td, td_result (f td) = td_result td) ->
  Forall (fun td => td_result td = "PASS") h ->
  Forall (fun td => td_result td = "PASS") (alter f r h).
Proof.
  intros Hf H. revert r. induction H as [|td h Htd Hh IH]; intros r.
  - constructor.
  - destruct r as [|r]; cbn; constructor; auto;
      first [now rewrite Hf | apply IH].
Qed.

Lemma update_current_pass f s :
  (forall td, td_result (f td) = td_result td) ->
  pass_while_no_failure s ->
  pass_while_no_failure (snd (update_current f s)).
Proof.
  intros Hf H. rewrite update_current_spec. unfold pass_while_no_failure in *.
  destruct s as [v c fl h tr cur i ti ca cl]; simpl in *. intros E.
  destruct cur; auto using Forall_alter_result.
Qed.

Lemma prim_pass t s s' :
  prim t s s' -> pass_while_no_failure s -> pass_while_no_failure s'.
Proof.
  intros H Hs. inversion H; subst.
  - destruct s; exact Hs.
  - destruct s; exact Hs.
  - destruct s; exact Hs.
  - destruct s; exact Hs.
  - intros E. destruct (error_records _ _ E).
  - apply update_current_pass; auto.
  - apply update_current_pass; auto.
  - unfold pass_while_no_failure in *. destruct args as [|a0 rest].
    + rewrite cmd_test_nil. simpl. rewrite heap_finalize_current.
      unfold finalize_current. destruct s, current_test_data0; exact Hs.
    + rewrite cmd_test_cons. simpl. rewrite heap_finalize_current.
      intros E. apply Forall_app. split; [|repeat constructor].
      apply Hs. unfold finalize_current in E.
      destruct s, current_test_data0; exact E.
Qed.

Lemma steps_pass t s s' :
  steps t s s' -> pass_while_no_failure s -> pass_while_no_failure s'.
Proof. induction 1; eauto using prim_pass. Qed.

Lemma Forall_resolve (P : test_data -> Prop) (s : TestRunner) (rs : list nat) :
  Forall P (heap s) -> Forall P (resolve s rs).
Proof.
  intros H. unfold resolve, deref. induction rs as [|r rs IH]; simpl.
  - constructor.
  - destruct (heap s !! r) as [td|] eqn:E; simpl; [|exact IH].
    constructor; [|exact IH]. eapply Forall_lookup_1; [exact H | exact E].
Qed.

(** The emergency power-off only ends early when it is interrupted. *)
Lemma cmd_power_off_result w s :
  fst (cmd_power_off w [] s) =
  match tool_at w (clock s) with
  | Interrupted => Raise KeyboardInterrupt
  | _ => Ret tt
  end.
Proof.
  unfold cmd_power_off, run_external_tool, bind, get, modify, next_reading.
  destruct s as [v c f h tr cur i ti ca cl]; simpl.
  destruct (tool_at w cl) as [rc out err|m|]; [|reflexivity..].
  destruct (rc =? 0); reflexivity.
Qed.

Lemma shutdown_status w code s :
  status (shutdown w code s) =
  match tool_at w (clock s) with
  | Interrupted => Uncaught KeyboardInterrupt
  | _ => SysExit code
  end.
Proof.
  unfold shutdown. pose proof (cmd_power_off_result w s) as H.
  destruct (cmd_power_off w [] s) as [[[]|e] s1]; simpl in H.
  - rewrite generate_report_spec.
    destruct (tool_at w (clock s)); [reflexivity | reflexivity | discriminate].
  - destruct (tool_at w (clock s)); try discriminate. injection H as ->. reflexivity.
Qed.

(** C3 (as amended): the exit status is 0 when the run completes and no
    failure was recorded (every finalized case then has the verdict PASS),
    1 when the run completes and some failure was recorded, 130 when the
    operator interrupted the run, and 1 again when a fatal error ended it;
    the last two hold when the emergency power-off is not itself
    interrupted, otherwise the interrupt goes uncaught.  So the interrupt
    has a code of its own, but the crash and the normal failure share
    code 1. *)
Theorem C3_exit_status (w : world) (lines : list string) :
  match run_lines w lines init with
  | (Ret _, s) =>
      match failed_tests s with
      | [] => status (run w (FileLines lines)) = SysExit 0 /\
              Forall (fun td => td_result td = "PASS")
                (finalized (final (run w (FileLines lines))))
      | _ => status (run w (FileLines lines)) = SysExit 1
      end
  | (Raise e, s) =>
      status (run w (FileLines lines)) =
      match tool_at w (clock s) with
      | Interrupted => Uncaught KeyboardInterrupt
      | _ => SysExit (if is_Exception e then 1 else 130)
      end
  end.
Proof.
  pose proof (Steps_run_lines w lines init) as St.
  destruct (run_lines w lines init) as [[[]|e] s] eqn:Hrun; simpl in St.
  - rewrite (run_completed w lines s Hrun). simpl.
    destruct (failed_tests s) eqn:E; [|reflexivity].
    split; [reflexivity|].
    apply Forall_resolve. rewrite heap_finalize_last.
    apply (steps_pass _ _ _ St); [|exact E]. intros _. constructor.
  - unfold run. rewrite Hrun.
    destruct e; simpl; apply shutdown_status.
Qed.

(** C3 as the claim states it fails: a run ended by a fatal error and a run
    that completes with a failed case end with the same exit status. *)
Lemma C3_counterexample_crash_and_failure_share_a_code :
  (exists e s, run_lines w_ok ["TEST T1 a"; "WAIT soon"] init = (Raise e, s) /\
               is_Exception e = true) /\
  (exists s, run_lines w_ok ["TEST T1 a"; "CHECK_DIFF 1 2 0.5"] init = (Ret tt, s) /\
             failed_tests s <> []) /\
  status (run w_ok (FileLines ["TEST T1 a"; "WAIT soon"])) = SysExit 1 /\
  status (run w_ok (FileLines ["TEST T1 a"; "CHECK_DIFF 1 2 0.5"])) = SysExit 1.
Proof.
  split; [|split; [|split]].
  - eexists _, _. split; [vm_compute; reflexivity | reflexivity].
  - eexists. split; [vm_compute; reflexivity | discriminate].
  - vm_compute. reflexivity.
  - vm_compute. reflexivity.
Qed.

(** ** Errors before the first test case *)

Lemma no_case_yet_init : no_case_yet init.
Proof. repeat split; constructor. Qed.

Lemma error_before_first_case msg s :
  no_case_yet s ->
  error msg s = (Ret tt, set_failed_tests (failed_tests s ++ ["N/A ()"]) s).
Proof.
  intros (Hh & Hr & Hc & Hi & Ht & Hf). rewrite error_spec. unfold failed_entry.
  destruct s as [v c f h tr cur i ti ca cl]; simpl in *; subst.
  destruct (bool_decide_reflect ("N/A" ∈ f)) as [Hin|_]; [|reflexivity].
  exfalso. rewrite Forall_forall in Hf. specialize (Hf _ Hin). discriminate.
Qed.

Lemma prim_no_case_yet s s' : prim false s s' -> no_case_yet s -> no_case_yet s'.
Proof.
  intros H Hs. inversion H; subst; try discriminate.
  - destruct s; exact Hs.
  - destruct s; exact Hs.
  - destruct s; exact Hs.
  - destruct s; exact Hs.
  - rewrite (error_before_first_case _ _ Hs).
    destruct Hs as (Hh & Hr & Hc & Hi & Ht & Hf).
    destruct s; simpl in *. repeat split; auto.
    apply Forall_app. split; [exact Hf | repeat constructor].
  - rewrite update_current_spec. destruct Hs as (Hh & Hr & Hc & Hi & Ht & Hf).
    destruct s; simpl in *; subst. repeat split; auto.
  - rewrite update_current_spec. destruct Hs as (Hh & Hr & Hc & Hi & Ht & Hf).
    destruct s; simpl in *; subst. repeat split; auto.
Qed.

Lemma steps_no_case_yet s s' : steps false s s' -> no_case_yet s -> no_case_yet s'.
Proof. induction 1; eauto using prim_no_case_yet. Qed.


(** ** The value parser *)

(** C4: [parse_value] resolves a token, blanks stripped, by the first rule
    that applies: a token starting with [$] is looked up in the variable
    store; else a token ending in [%] is its number divided by 100; else a
    token containing [ma] in any case is its number (the token in lower
    case without [ma]) divided by 1000; else a token containing [a] in any
    case is its number (without [a]); else it is read as a float.  So
    [2560mA] is 2.56 and [5%] is 0.05. *)
Theorem C4_parse_value_precedence (tok : string) (s : TestRunner) :
  let t := Py.strip tok in
  (Py.startswith "$" t = true ->
     parse_value tok s =
     (match variables s !! t with
      | Some v => Ret v
      | None => Raise (undefined_variable t)
      end, s)) /\
  (Py.startswith "$" t = false -> Py.endswith "%" t = true ->
     parse_value tok s =
     (x <- float_of_str (Py.drop_last t) ;; ret (x / 100)%float) s) /\
  (Py.startswith "$" t = false -> Py.endswith "%" t = false ->
   Py.contains "ma" (Py.lower t) = true ->
     parse_value tok s =
     (x <- float_of_str (Py.replace "ma" "" (Py.lower t)) ;;
      ret (x / 1000)%float) s) /\
  (Py.startswith "$" t = false -> Py.endswith "%" t = false ->
   Py.contains "ma" (Py.lower t) = false -> Py.contains "a" (Py.lower t) = true ->
     parse_value tok s = float_of_str (Py.replace "a" "" (Py.lower t)) s) /\
  (Py.startswith "$" t = false -> Py.endswith "%" t = false ->
   Py.contains "ma" (Py.lower t) = false -> Py.contains "a" (Py.lower t) = false ->
     parse_value tok s = float_of_str t s) /\
  parse_value "2560mA" s = (Ret 2.56%float, s) /\
  parse_value "5%" s = (Ret 0.05%float, s).
Proof.
  intros t. unfold parse_value. fold t.
  split; [|split; [|split; [|split; [|split; [|split]]]]].
  - intros ->. unfold bind, get. destruct (variables s !! t); reflexivity.
  - intros -> ->. reflexivity.
  - intros -> -> ->. reflexivity.
  - intros -> -> -> ->. reflexivity.
  - intros -> -> -> ->. reflexivity.
  - vm_compute. reflexivity.
  - vm_compute. reflexivity.
Qed.

Lemma C4_parse_value_precedence_witness :
  parse_value " $v " s_with_v = (Ret 1.5%float, s_with_v) /\
  parse_value "$w" s_with_v = (Raise (undefined_variable "$w"), s_with_v) /\
  parse_value "250%" init = (Ret 2.5%float, init) /\
  parse_value "1500Ma" init = (Ret 1.5%float, init) /\
  parse_value "2A" init = (Ret 2%float, init) /\
  parse_value "1e3" init = (Ret 1000%float, init).
Proof.
  split; [|split; [|split; [|split; [|split]]]].
  - destruct (C4_parse_value_precedence " $v " s_with_v) as (H & _).
    rewrite H by reflexivity. vm_compute. reflexivity.
  - destruct (C4_parse_value_precedence "$w" s_with_v) as (H & _).
    rewrite H by reflexivity. vm_compute. reflexivity.
  - destruct (C4_parse_value_precedence "250%" init) as (_ & H & _).
    rewrite H by reflexivity. vm_compute. reflexivity.
  - destruct (C4_parse_value_precedence "1500Ma" init) as (_ & _ & H & _).
    rewrite H by reflexivity. vm_compute. reflexivity.
  - destruct (C4_parse_value_precedence "2A" init) as (_ & _ & _ & H & _).
    rewrite H by reflexivity. vm_compute. reflexivity.
  - destruct (C4_parse_value_precedence "1e3" init) as (_ & _ & _ & _ & H & _).
    rewrite H by reflexivity. vm_compute. reflexivity.
Defined.

(** ** Methods that return *)

Lemma Returns_Catchable {A} (m : M A) : Returns m -> Catchable m.
Proof. intros H s. destruct (H s) as [a ->]. exact I. Qed.

Lemma Catchable_ret {A} (a : A) : Catchable (ret a).
Proof. intros s. exact I. Qed.

Lemma Catchable_raise {A} (e : exn) : is_Exception e = true -> Catchable (@raise A e).
Proof. intros H s. exact H. Qed.

Lemma Catchable_bind {A B} (m : M A) (k : A -> M B) :
  Catchable m -> (forall a, Catchable (k a)) -> Catchable (bind m k).
Proof.
  intros Hm Hk s. unfold bind. specialize (Hm s).
  destruct (m s) as [[a|e] s1]; simpl in *; [apply Hk | exact Hm].
Qed.

Lemma Returns_error msg : Returns (error msg).
Proof. intros s. rewrite error_spec. eauto. Qed.

Lemma Returns_update_current f : Returns (update_current f).
Proof. intros s. rewrite update_current_spec. eauto. Qed.

Lemma Catchable_item args i : Catchable (item args i).
Proof. intros s. unfold item. destruct (args !! i); simpl; auto. Qed.

Lemma Catchable_float_of_str x : Catchable (float_of_str x).
Proof. intros s. unfold float_of_str. destruct (PyFloat.parse x); simpl; auto. Qed.

Lemma Catchable_get : Catchable get.
Proof. intros s. exact I. Qed.

Create HintDb catch_db.
#[export] Hint Resolve Catchable_ret Catchable_item Catchable_float_of_str
  Catchable_get Returns_error Returns_update_current Returns_Catchable
  : catch_db.

Ltac catch_split :=
  repeat first
    [ apply Catchable_bind; [| intros ?]
    | apply Catchable_raise; reflexivity
    | solve [auto with catch_db]
    | match goal with
      | |- Catchable (if ?b then _ else _) => destruct b
      | |- Catchable (match ?x with _ => _ end) => destruct x
      end ].

Lemma Catchable_parse_value tok : Catchable (parse_value tok).
Proof. unfold parse_value. catch_split. Qed.

#[export] Hint Resolve Catchable_parse_value : catch_db.

Lemma Returns_try_except {A} (m : M A) (h : exn -> M A) :
  Catchable m -> (forall e, Returns (h e)) -> Returns (try_except m h).
Proof.
  intros Hm Hh s. unfold try_except. specialize (Hm s).
  destruct (m s) as [[a|e] s1]; simpl in *; [eauto|].
  rewrite Hm. apply Hh.
Qed.

Lemma Returns_cmd_check_diff args : Returns (cmd_check_diff args).
Proof.
  unfold cmd_check_diff. apply Returns_try_except; [catch_split|].
  intros e. apply Returns_error.
Qed.

Lemma Returns_cmd_check_range args : Returns (cmd_check_range args).
Proof.
  unfold cmd_check_range. apply Returns_try_except; [catch_split|].
  intros e. apply Returns_error.
Qed.

(** The open case after it was updated. *)
Lemma update_current_deref f s r td :
  current_test_data s = Some r -> deref s r = Some td ->
  deref (snd (update_current f s)) r = Some (f td) /\
  current_test_data (snd (update_current f s)) = Some r.
Proof.
  intros Hc Hd. rewrite update_current_spec. unfold deref in *.
  destruct s as [v c fl h tr cur i ti ca cl]; simpl in *. subst cur.
  rewrite list_lookup_alter_eq, Hd. auto.
Qed.

Lemma error_deref msg s r td :
  current_test_data s = Some r -> deref s r = Some td ->
  deref (snd (error msg s)) r = Some (mark_failed msg td).
Proof.
  intros Hc Hd. rewrite error_spec. unfold deref in *.
  destruct s as [v c fl h tr cur i ti ca cl]; simpl in *. subst cur.
  rewrite list_lookup_alter_eq, Hd. auto.
Qed.

Lemma execute_line_check_diff w line args :
  command_of line = Some ("CHECK_DIFF", args) ->
  execute_line w line = cmd_check_diff args.
Proof.
  unfold command_of, execute_line. destruct (Py.split line) as [|p0 l]; [discriminate|].
  intros [= -> ->]. reflexivity.
Qed.

Lemma execute_line_check_range w line args :
  command_of line = Some ("CHECK_RANGE", args) ->
  execute_line w line = cmd_check_range args.
Proof.
  unfold command_of, execute_line. destruct (Py.split line) as [|p0 l]; [discriminate|].
  intros [= -> ->]. reflexivity.
Qed.

(** Running a method whose first part returns. *)
Lemma bind_ret {A B} (m : M A) (k : A -> M B) s a s1 :
  m s = (Ret a, s1) -> bind m k s = k a s1.
Proof. intros H. unfold bind. now rewrite H. Qed.

Lemma try_except_ret {A} (m : M A) (h : exn -> M A) s a s1 :
  m s = (Ret a, s1) -> try_except m h s = (Ret a, s1).
Proof. intros H. unfold try_except. now rewrite H. Qed.

Lemma try_except_raise {A} (m : M A) (h : exn -> M A) s e s1 :
  m s = (Raise e, s1) -> is_Exception e = true -> try_except m h s = h e s1.
Proof. intros H He. unfold try_except. now rewrite H, He. Qed.

Lemma bind_raise {A B} (m : M A) (k : A -> M B) s e s1 :
  m s = (Raise e, s1) -> bind m k s = (Raise e, s1).
Proof. intros H. unfold bind. now rewrite H. Qed.

Lemma error_ret msg s : error msg s = (Ret tt, snd (error msg s)).
Proof. rewrite error_spec. reflexivity. Qed.

Lemma update_current_ret f s :
  update_current f s = (Ret tt, snd (update_current f s)).
Proof. rewrite update_current_spec. reflexivity. Qed.

Ltac step_bind H := rewrite (bind_ret _ _ _ _ _ H); cbv beta zeta.
Ltac step_raise H := rewrite (bind_raise _ _ _ _ _ H).

(** ** The assertions *)

(** C1: when the three tokens of a [CHECK_DIFF] parse to [a], [b] and
    [maxdiff], the check passes exactly when [abs (a - b) <= maxdiff] (in
    the floating-point arithmetic of the program): then it only adds its
    report row; otherwise it also calls [error], which sets the verdict of
    the open case to FAIL.  Whatever its arguments, [CHECK_DIFF] returns
    without an exception, so the run loop goes on with the rest of the
    script from the state the check left. *)
Theorem C1_check_diff (w : world) (a0 a1 a2 : string) (more : list string)
    (s : TestRunner) (va vb vm : float) :
  parse_value a0 s = (Ret va, s) ->
  parse_value a1 s = (Ret vb, s) ->
  parse_value a2 s = (Ret vm, s) ->
  let diff := abs (va - vb) in
  let args := a0 :: a1 :: a2 :: more in
  let s_row :=
    snd (update_current (add_row ("Diff <= " ++ fmt vm) (fmt diff)) s) in
  ((diff <=? vm)%float = true -> cmd_check_diff args s = (Ret tt, s_row)) /\
  ((diff <=? vm)%float = false ->
     cmd_check_diff args s = error (diff_failure diff vm) s_row /\
     failed_tests (snd (cmd_check_diff args s)) <> [] /\
     forall r td, current_test_data s = Some r -> deref s r = Some td ->
       exists td', deref (snd (cmd_check_diff args s)) r = Some td' /\
                   td_result td' = "FAIL") /\
  (forall args' s', exists s'', cmd_check_diff args' s' = (Ret tt, s'')) /\
  (forall line rest,
     skipped line = false ->
     command_of (Py.strip line) = Some ("CHECK_DIFF", args) ->
     run_lines w (line :: rest) s =
     run_lines w rest (snd (cmd_check_diff args s))).
Proof.
  intros H0 H1 H2 diff args s_row.
  assert (Hret : forall args' s', exists s'', cmd_check_diff args' s' = (Ret tt, s'')).
  { intros args' s'. destruct (Returns_cmd_check_diff args' s') as [[] E].
    destruct (cmd_check_diff args' s') as [r s'']. simpl in E. subst r. eauto. }
  assert (Hbody : forall k : M unit,
            try_except
              (a0' <- item args 0 ;; val_a <- parse_value a0' ;;
               a1' <- item args 1 ;; val_b <- parse_value a1' ;;
               a2' <- item args 2 ;; max_diff <- parse_value a2' ;;
               update_current
                 (add_row ("Diff <= " ++ fmt max_diff) (fmt (abs (val_a - val_b)))) ;;
               if (abs (val_a - val_b) <=? max_diff)%float then ret tt
               else error (diff_failure (abs (val_a - val_b)) max_diff))
              (fun e => error ("CHECK_DIFF 执行异常: " ++ exn_str e)) s =
            cmd_check_diff args s) by reflexivity.
  assert (Hpass : (diff <=? vm)%float = true -> cmd_check_diff args s = (Ret tt, s_row)).
  { intros Hp. rewrite <- (Hbody (ret tt)). apply try_except_ret.
    step_bind (eq_refl : item args 0 s = (Ret a0, s)). step_bind H0.
    step_bind (eq_refl : item args 1 s = (Ret a1, s)). step_bind H1.
    step_bind (eq_refl : item args 2 s = (Ret a2, s)). step_bind H2.
    step_bind (update_current_ret
                 (add_row ("Diff <= " ++ fmt vm) (fmt (abs (va - vb)))) s).
    fold diff s_row. rewrite Hp. reflexivity. }
  assert (Hfail : (diff <=? vm)%float = false ->
            cmd_check_diff args s = error (diff_failure diff vm) s_row).
  { intros Hp. rewrite <- (Hbody (ret tt)). rewrite (error_ret _ s_row).
    apply try_except_ret.
    step_bind (eq_refl : item args 0 s = (Ret a0, s)). step_bind H0.
    step_bind (eq_refl : item args 1 s = (Ret a1, s)). step_bind H1.
    step_bind (eq_refl : item args 2 s = (Ret a2, s)). step_bind H2.
    step_bind (update_current_ret
                 (add_row ("Diff <= " ++ fmt vm) (fmt (abs (va - vb)))) s).
    fold diff s_row. rewrite Hp. apply error_ret. }
  split; [exact Hpass|]. split; [|split; [exact Hret|]].
  - intros Hp. split; [exact (Hfail Hp)|]. rewrite (Hfail Hp). split.
    + apply error_records.
    + intros r td Hc Hd.
      destruct (update_current_deref
                  (add_row ("Diff <= " ++ fmt vm) (fmt diff)) s r td Hc Hd)
        as [Hd' Hc'].
      fold s_row in Hd', Hc'.
      eexists. split; [exact (error_deref _ _ _ _ Hc' Hd') | reflexivity].
  - intros line rest Hsk Hcmd. rewrite run_lines_cons, Hsk.
    rewrite (execute_line_check_diff w _ _ Hcmd). unfold bind.
    destruct (Hret args s) as [s'' ->]. reflexivity.
Qed.

Lemma C1_check_diff_witness :
  cmd_check_diff ["1"; "1.4"; "0.5"] s_open =
    (Ret tt,
     snd (update_current (add_row "Diff <= 0.5000" "0.4000") s_open)) /\
  (exists td',
     deref (snd (cmd_check_diff ["1"; "2"; "0.5"] s_open)) 0 = Some td' /\
     td_result td' = "FAIL") /\
  run_lines w_ok ["CHECK_DIFF 1 2 0.5"; "CHECK_RANGE 1 1 0"] s_open =
    run_lines w_ok ["CHECK_RANGE 1 1 0"]
      (snd (cmd_check_diff ["1"; "2"; "0.5"] s_open)).
Proof.
  split; [|split].
  - destruct (C1_check_diff w_ok "1" "1.4" "0.5" [] s_open 1 1.4 0.5)
      as (H & _); [reflexivity..|].
    exact (H eq_refl).
  - destruct (C1_check_diff w_ok "1" "2" "0.5" [] s_open 1 2 0.5)
      as (_ & H & _); [reflexivity..|].
    destruct (H eq_refl) as (_ & _ & Hr).
    apply (Hr 0%nat (TestData "T1" "a" "PASS" [] [] "")); reflexivity.
  - destruct (C1_check_diff w_ok "1" "2" "0.5" [] s_open 1 2 0.5)
      as (_ & _ & _ & H); [reflexivity..|].
    apply H; reflexivity.
Defined.

(** C5 (as amended): when the three tokens of a [CHECK_RANGE] parse to
    [real], [expected] and [tol], and the tolerance token ends in [%], the
    bounds are [expected - expected * tol] and [expected + expected * tol],
    computed in binary64 in this form, and the check passes exactly when
    [real] lies between them: then it only adds its report row, otherwise
    it also calls [error].  Either way the open case gets the row with the
    range and the actual value.  (Over the reals the bounds are
    [expected * (1 - tol)] and [expected * (1 + tol)]; in binary64 the two
    forms can round differently, and the verdict follows the program's.)
    [CHECK_RANGE 2580 2560 5%] passes with the range [2432, 2688], and
    [CHECK_RANGE 2800 2560 5%] fails. *)
Theorem C5_check_range (a0 a1 a2 : string) (more : list string)
    (s : TestRunner) (real expected tol : float) :
  parse_value a0 s = (Ret real, s) ->
  parse_value a1 s = (Ret expected, s) ->
  Py.endswith "%" a2 = true ->
  parse_value a2 s = (Ret tol, s) ->
  let lower := (expected - expected * tol)%float in
  let upper := (expected + expected * tol)%float in
  let args := a0 :: a1 :: a2 :: more in
  let s_row := snd (update_current (add_row (range_row lower upper) (fmt real)) s) in
  (((lower <=? real) && (real <=? upper))%float = true ->
     cmd_check_range args s = (Ret tt, s_row)) /\
  (((lower <=? real) && (real <=? upper))%float = false ->
     cmd_check_range args s =
       error (range_failure a0 a1 a2 real lower upper) s_row /\
     failed_tests (snd (cmd_check_range args s)) <> []) /\
  (forall r td, current_test_data s = Some r -> deref s r = Some td ->
     exists td', deref (snd (cmd_check_range args s)) r = Some td' /\
       td_expected td' = (td_expected td ++ [range_row lower upper])%list /\
       td_actual td' = (td_actual td ++ [fmt real])%list) /\
  (deref (snd (cmd_check_range ["2580"; "2560"; "5%"] s_open)) 0 =
     Some (TestData "T1" "a" "PASS" ["[2432.0000, 2688.0000]"] ["2580.0000"] "") /\
   (2560 * (1 - 0.05) = 2432 /\ 2560 * (1 + 0.05) = 2688)%float /\
   option_map td_result
     (deref (snd (cmd_check_range ["2800"; "2560"; "5%"] s_open)) 0) = Some "FAIL" /\
   option_map td_expected
     (deref (snd (cmd_check_range ["2800"; "2560"; "5%"] s_open)) 0) =
     Some ["[2432.0000, 2688.0000]"]).
Proof.
  intros H0 H1 Hpc H2 lower upper args s_row.
  assert (Hbody : forall k : M unit,
            try_except
              (a0' <- item args 0 ;; real_val <- parse_value a0' ;;
               a1' <- item args 1 ;; expect_val <- parse_value a1' ;;
               tolerance_raw <- item args 2 ;;
               tol_abs <-
                 (if Py.endswith "%" tolerance_raw
                  then t <- parse_value tolerance_raw ;; ret (expect_val * t)%float
                  else parse_value tolerance_raw) ;;
               update_current
                 (add_row (range_row (expect_val - tol_abs) (expect_val + tol_abs))
                    (fmt real_val)) ;;
               if ((expect_val - tol_abs <=? real_val) &&
                   (real_val <=? expect_val + tol_abs))%float
               then ret tt
               else error (range_failure a0' a1' tolerance_raw real_val
                             (expect_val - tol_abs) (expect_val + tol_abs)))
              (fun e => error ("CHECK_RANGE 执行异常: " ++ exn_str e)) s =
            cmd_check_range args s) by reflexivity.
  assert (Htol : (if Py.endswith "%" a2
                  then t <- parse_value a2 ;; ret (expected * t)%float
                  else parse_value a2) s = (Ret (expected * tol)%float, s)).
  { rewrite Hpc. step_bind H2. reflexivity. }
  assert (Hpass : ((lower <=? real) && (real <=? upper))%float = true ->
            cmd_check_range args s = (Ret tt, s_row)).
  { intros Hp. rewrite <- (Hbody (ret tt)). apply try_except_ret.
    step_bind (eq_refl : item args 0 s = (Ret a0, s)). step_bind H0.
    step_bind (eq_refl : item args 1 s = (Ret a1, s)). step_bind H1.
    step_bind (eq_refl : item args 2 s = (Ret a2, s)). step_bind Htol.
    step_bind (update_current_ret
                 (add_row (range_row lower upper) (fmt real)) s).
    fold lower upper s_row. rewrite Hp. reflexivity. }
  assert (Hfail : ((lower <=? real) && (real <=? upper))%float = false ->
            cmd_check_range args s =
            error (range_failure a0 a1 a2 real lower upper) s_row).
  { intros Hp. rewrite <- (Hbody (ret tt)). rewrite (error_ret _ s_row).
    apply try_except_ret.
    step_bind (eq_refl : item args 0 s = (Ret a0, s)). step_bind H0.
    step_bind (eq_refl : item args 1 s = (Ret a1, s)). step_bind H1.
    step_bind (eq_refl : item args 2 s = (Ret a2, s)). step_bind Htol.
    step_bind (update_current_ret
                 (add_row (range_row lower upper) (fmt real)) s).
    fold lower upper s_row. rewrite Hp. apply error_ret. }
  split; [exact Hpass|]. split; [|split].
  - intros Hp. split; [exact (Hfail Hp)|]. rewrite (Hfail Hp). apply error_records.
  - intros r td Hc Hd.
    destruct (update_current_deref
                (add_row (range_row lower upper) (fmt real)) s r td Hc Hd)
      as [Hd' Hc'].
    fold s_row in Hd', Hc'.
    destruct ((lower <=? real) && (real <=? upper))%float eqn:Hp.
    + rewrite (Hpass eq_refl). simpl. eexists. split; [exact Hd'|]. auto.
    + rewrite (Hfail eq_refl). eexists.
      split; [exact (error_deref _ _ _ _ Hc' Hd')|]. auto.
  - vm_compute. auto.
Qed.

Lemma C5_check_range_witness :
  cmd_check_range ["2580"; "2560mA"; "5%"] s_open =
    error (range_failure "2580" "2560mA" "5%" 2580 2.432 2.688)
      (snd (update_current (add_row "[2.4320, 2.6880]" "2580.0000") s_open)) /\
  cmd_check_range ["2.58"; "2560mA"; "5%"] s_open =
    (Ret tt, snd (update_current (add_row "[2.4320, 2.6880]" "2.5800") s_open)).
Proof.
  split.
  - destruct (C5_check_range "2580" "2560mA" "5%" [] s_open 2580 2.56 0.05)
      as (_ & H & _); [reflexivity..|].
    destruct (H eq_refl) as [E _]. exact E.
  - destruct (C5_check_range "2.58" "2560mA" "5%" [] s_open 2.58 2.56 0.05)
      as (H & _); [reflexivity..|].
    exact (H eq_refl).
Defined.

(** The two ways of writing the lower bound are equal over the reals but
    may round differently in binary64: the program's form is the one the
    theorem above is about. *)
Remark range_bounds_are_rounded_as_the_program_writes_them :
  ((0.1 - 0.1 * 0.1 <=? 0.09) = true /\ (0.1 * (1 - 0.1) <=? 0.09) = false)%float.
Proof. vm_compute. auto. Qed.

(** C5 as the claim states it fails: with the bounds written as
    [expected * (1 - tol)] and [expected * (1 + tol)] the condition and the
    verdict of the program differ.  [CHECK_RANGE 99mA 90mA 10%] fails,
    with the row [0.0810, 0.0990] / 0.0990, although the condition of the
    claim holds of the three values; [CHECK_RANGE 90mA 100mA 10%] passes
    although the condition of the claim does not hold. *)
Lemma C5_counterexample_bounds_written_as_products :
  (parse_value "99mA" s_open = (Ret 0.099%float, s_open) /\
   parse_value "90mA" s_open = (Ret 0.09%float, s_open) /\
   parse_value "10%" s_open = (Ret 0.1%float, s_open) /\
   ((0.09 * (1 - 0.1) <=? 0.099) && (0.099 <=? 0.09 * (1 + 0.1)))%float = true /\
   option_map td_result
     (deref (snd (cmd_check_range ["99mA"; "90mA"; "10%"] s_open)) 0%nat) =
     Some "FAIL" /\
   option_map td_expected
     (deref (snd (cmd_check_range ["99mA"; "90mA"; "10%"] s_open)) 0%nat) =
     Some ["[0.0810, 0.0990]"] /\
   option_map td_actual
     (deref (snd (cmd_check_range ["99mA"; "90mA"; "10%"] s_open)) 0%nat) =
     Some ["0.0990"] /\
   failed_tests (snd (cmd_check_range ["99mA"; "90mA"; "10%"] s_open)) =
     ["T1 (a)"]) /\
  (parse_value "100mA" s_open = (Ret 0.1%float, s_open) /\
   ((0.1 * (1 - 0.1) <=? 0.09) && (0.09 <=? 0.1 * (1 + 0.1)))%float = false /\
   option_map td_result
     (deref (snd (cmd_check_range ["90mA"; "100mA"; "10%"] s_open)) 0%nat) =
     Some "PASS" /\
   option_map td_expected
     (deref (snd (cmd_check_range ["90mA"; "100mA"; "10%"] s_open)) 0%nat) =
     Some ["[0.0900, 0.1100]"] /\
   failed_tests (snd (cmd_check_range ["90mA"; "100mA"; "10%"] s_open)) = []).
Proof. vm_compute. auto 20. Qed.

(** ** Undefined variables *)

Lemma variables_error msg s : variables (snd (error msg s)) = variables s.
Proof. rewrite error_spec. destruct s; reflexivity. Qed.

Lemma parse_value_undefined x s :
  Py.startswith "$" (Py.strip x) = true -> variables s !! Py.strip x = None ->
  parse_value x s = (Raise (undefined_variable (Py.strip x)), s).
Proof.
  intros Hp Hu. unfold parse_value. rewrite Hp. unfold bind, get. now rewrite Hu.
Qed.

(** ** Reading from the oscilloscope *)

(** [READ] when the tool exits with status 0 and empty output: the guard
    [if output:] skips the conversion, so nothing is recorded. *)
Lemma cmd_read_empty_output w s ch to var v out err :
  Py.upper to = "TO" -> Py.startswith "$" var = true ->
  variables s !! var = Some v ->
  tool_at w (clock s) = Exited 0 out err -> Py.strip out = "" ->
  variables (snd (cmd_read w [ch; to; var] s)) = variables s /\
  failed_tests (snd (cmd_read w [ch; to; var] s)) = failed_tests s /\
  heap (snd (cmd_read w [ch; to; var] s)) = heap s.
Proof.
  intros Hto Hp Hv Ht Ho. unfold cmd_read. rewrite Hto, Hp.
  change (String.eqb "TO" "TO") with true. cbn [negb].
  unfold bind, get. rewrite Hv.
  unfold run_external_tool, bind, modify, next_reading.
  destruct s as [vs c f h tr cur i ti ca cl]; simpl in *.
  rewrite Ht. simpl. rewrite Ho. simpl. auto.
Qed.

(** [READ] when the tool prints something that is not a number: the error
    is recorded and the variable keeps its value. *)
Lemma cmd_read_unparseable_output w s ch to var v out err :
  Py.upper to = "TO" -> Py.startswith "$" var = true ->
  variables s !! var = Some v ->
  tool_at w (clock s) = Exited 0 out err ->
  Py.strip out <> "" -> PyFloat.parse (Py.strip out) = None ->
  variables (snd (cmd_read w [ch; to; var] s)) = variables s /\
  failed_tests (snd (cmd_read w [ch; to; var] s)) <> [].
Proof.
  intros Hto Hp Hv Ht Hne Ho.
  assert (E : exists cmd,
            cmd_read w [ch; to; var] s =
            error ("读取失败，返回值非数字: " ++ Py.strip out)
              (set_clock (S (clock s)) (set_calls (calls s ++ [cmd]) s))).
  { unfold cmd_read. rewrite Hto, Hp.
    change (String.eqb "TO" "TO") with true. cbn [negb].
    unfold bind at 1. unfold get. rewrite Hv.
    set (cmd := with_config s _ _ _). set (desc := ("读取通道 " ++ _)%string).
    exists cmd.
    set (s1 := set_clock (S (clock s)) (set_calls (calls s ++ [cmd]) s)).
    assert (E : run_external_tool w cmd desc s = (Ret (Some (Py.strip out)), s1)).
    { unfold run_external_tool, bind, modify, next_reading, s1.
      destruct s as [vs c f h tr cur i ti ca cl]; simpl in *. now rewrite Ht. }
    step_bind E.
    destruct (Py.strip out) as [|c0 o] eqn:Eo; [contradiction|]. cbn [Py.is_empty].
    rewrite (try_except_raise _ _ s1
               (ValueError ("could not convert string to float: "
                            ++ PyRepr.repr (String c0 o))) s1).
    - reflexivity.
    - apply bind_raise. unfold float_of_str. rewrite Ho. reflexivity.
    - reflexivity. }
  destruct E as [cmd ->]. rewrite variables_error.
  split; [destruct s; reflexivity | apply error_records].
Qed.

(** [READ] when the tool exits with another status: [run_external_tool]
    records the failure and the variable keeps its value. *)
Lemma cmd_read_tool_failure w s ch to var v rc out err :
  Py.upper to = "TO" -> Py.startswith "$" var = true ->
  variables s !! var = Some v ->
  tool_at w (clock s) = Exited rc out err -> rc <> 0 ->
  variables (snd (cmd_read w [ch; to; var] s)) = variables s /\
  failed_tests (snd (cmd_read w [ch; to; var] s)) <> [].
Proof.
  intros Hto Hp Hv Ht Hrc.
  assert (E : exists cmd desc,
            cmd_read w [ch; to; var] s =
            error ("工具执行失败 [" ++ desc ++ "]: " ++ Py.strip err)
              (set_clock (S (clock s)) (set_calls (calls s ++ [cmd]) s))).
  { unfold cmd_read. rewrite Hto, Hp.
    change (String.eqb "TO" "TO") with true. cbn [negb].
    unfold bind at 1. unfold get. rewrite Hv.
    set (cmd := with_config s _ _ _). set (desc := ("读取通道 " ++ _)%string).
    exists cmd, desc.
    set (s1 := set_clock (S (clock s)) (set_calls (calls s ++ [cmd]) s)).
    assert (E : run_external_tool w cmd desc s =
                (Ret None,
                 snd (error ("工具执行失败 [" ++ desc ++ "]: " ++ Py.strip err) s1))).
    { unfold run_external_tool.
      step_bind (eq_refl : modify (fun s => set_calls (calls s ++ [cmd]) s) s =
                           (Ret tt, set_calls (calls s ++ [cmd]) s)).
      step_bind (eq_refl : next_reading (set_calls (calls s ++ [cmd]) s) =
                           (Ret (clock s), s1)).
      rewrite Ht. destruct (Z.eqb_spec rc 0) as [|_]; [contradiction|]. cbn [negb].
      step_bind (error_ret ("工具执行失败 [" ++ desc ++ "]: " ++ Py.strip err) s1).
      reflexivity. }
    step_bind E. symmetry. apply error_ret. }
  destruct E as (cmd & desc & ->). rewrite variables_error.
  split; [destruct s; reflexivity | apply error_records].
Qed.

(** C8 fails on the program: with [$x] defined as 1 and a test case open,
    a [READ] whose tool exits with status 0 and prints only blanks leaves
    no trace: no failure is recorded, the case keeps the verdict PASS with
    an empty note, the run exits with status 0, and [$x] is still 1. *)
Theorem C8_read_with_empty_output_records_nothing :
  status (run w_silent (FileLines ["DEF_VAR $x 1"; "TEST T1 a"; "READ CH4 TO $x"]))
    = SysExit 0 /\
  printed_failures
    (run w_silent (FileLines ["DEF_VAR $x 1"; "TEST T1 a"; "READ CH4 TO $x"])) = [] /\
  finalized
    (final (run w_silent (FileLines ["DEF_VAR $x 1"; "TEST T1 a"; "READ CH4 TO $x"])))
    = [TestData "T1" "a" "PASS" [] [] ""] /\
  variables
    (final (run w_silent (FileLines ["DEF_VAR $x 1"; "TEST T1 a"; "READ CH4 TO $x"])))
    !! "$x" = Some 1%float /\
  calls
    (final (run w_silent (FileLines ["DEF_VAR $x 1"; "TEST T1 a"; "READ CH4 TO $x"])))
    = [["python"; "yokogawa/yokogawa.py"; "mean"; "-c"; "4"; "--clean"]].
Proof. vm_compute. auto 10. Qed.

(** ** Commands with missing arguments *)

(** C9 fails on the program: [TEST], [RES_SET] and [WAIT] index their
    argument list without a check, so a line with the keyword alone raises
    [IndexError], which ends the run with status 1, and the lines after it
    are not executed (here [T2] is never opened).  The other commands do
    as the claim says: they report the missing argument and return. *)
Theorem C9_missing_argument_ends_the_run (w : world) (s : TestRunner) :
  fst (cmd_test [] s) = Raise (IndexError "list index out of range") /\
  fst (cmd_res_set w [] s) = Raise (IndexError "list index out of range") /\
  fst (cmd_wait w [] s) = Raise (IndexError "list index out of range") /\
  fst (execute_line w "TEST" s) = Raise (IndexError "list index out of range") /\
  (status (run w_ok (FileLines ["TEST T1 a"; "TEST"; "TEST T2 b"])) = SysExit 1 /\
   map td_id (finalized (final (run w_ok
       (FileLines ["TEST T1 a"; "TEST"; "TEST T2 b"])))) = ["T1"]) /\
  (cmd_def_var [] s = error "DEF_VAR指令缺少参数。格式: DEF_VAR <$VAR> [Value]" s /\
   cmd_config [] s = error "CONFIG 指令缺少参数" s /\
   cmd_read w [] s = error "READ指令格式错误。正确格式: READ <CH> TO <$VAR>" s /\
   cmd_set_var [] s = error "SET_VAR指令格式错误。正确格式: SET_VAR <$VAR> <Value>" s /\
   cmd_check_range [] s = error "CHECK_RANGE 执行异常: list index out of range" s /\
   cmd_check_diff [] s = error "CHECK_DIFF 执行异常: list index out of range" s).
Proof.
  split; [reflexivity|]. split; [reflexivity|]. split; [reflexivity|].
  split; [reflexivity|]. split; [vm_compute; auto|].
  repeat split; reflexivity.
Qed.

(** * Further properties of the interpreter *)

(** ** The footprint of every command *)

Section ChangesOfMethods.

Context {k : footprint}.

Lemma Changes_ret {A} (a : A) : Changes k (ret a).
Proof. intros s. apply rtc_refl. Qed.

Lemma Changes_raise {A} (e : exn) : Changes k (@raise A e).
Proof. intros s. apply rtc_refl. Qed.

Lemma Changes_get : Changes k get.
Proof. intros s. apply rtc_refl. Qed.

Lemma Changes_bind {A B} (m : M A) (f : A -> M B) :
  Changes k m -> (forall a, Changes k (f a)) -> Changes k (bind m f).
Proof.
  intros Hm Hf s. unfold bind.
  specialize (Hm s). destruct (m s) as [[a|e] s1]; simpl in *.
  - eapply rtc_trans; [exact Hm | apply Hf].
  - exact Hm.
Qed.

Lemma Changes_try {A} (m : M A) (h : exn -> M A) :
  Changes k m -> (forall e, Changes k (h e)) -> Changes k (try_except m h).
Proof.
  intros Hm Hh s. unfold try_except.
  specialize (Hm s). destruct (m s) as [[a|e] s1]; simpl in *.
  - exact Hm.
  - destruct (is_Exception e); simpl.
    + eapply rtc_trans; [exact Hm | apply Hh].
    + exact Hm.
Qed.

Lemma Changes_error msg : Changes k (error msg).
Proof. intros s. apply rtc_once, change_error. Qed.

Lemma Changes_update_current f : Changes k (update_current f).
Proof. intros s. apply rtc_once, change_current. Qed.

Lemma Changes_next_reading : Changes k next_reading.
Proof. intros s. apply rtc_once, change_clock. Qed.

Lemma Changes_set_variables (f : TestRunner -> gmap string float) :
  fp_variables k = true -> Changes k (modify (fun s => set_variables (f s) s)).
Proof. intros H s. apply rtc_once, change_variables, H. Qed.

Lemma Changes_set_config (f : TestRunner -> gmap string string) :
  fp_config k = true -> Changes k (modify (fun s => set_config (f s) s)).
Proof. intros H s. apply rtc_once, change_config, H. Qed.

Lemma Changes_set_calls (f : TestRunner -> list (list string)) :
  fp_tools k = true -> Changes k (modify (fun s => set_calls (f s) s)).
Proof. intros H s. apply rtc_once, change_calls, H. Qed.

Lemma Changes_item args i : Changes k (item args i).
Proof. unfold item. destruct (args !! i); [apply Changes_ret | apply Changes_raise]. Qed.

Lemma Changes_float_of_str x : Changes k (float_of_str x).
Proof.
  unfold float_of_str.
  destruct (PyFloat.parse x); [apply Changes_ret | apply Changes_raise].
Qed.

End ChangesOfMethods.

Create HintDb changes_db.

Ltac changes_split :=
  repeat first
    [ apply Changes_ret | apply Changes_raise | apply Changes_get
    | apply Changes_error | apply Changes_update_current
    | apply Changes_next_reading
    | apply Changes_item | apply Changes_float_of_str
    | apply Changes_set_variables; assumption
    | apply Changes_set_config; assumption
    | apply Changes_set_calls; assumption
    | apply Changes_bind; [| intros ?]
    | apply Changes_try; [| intros ?]
    | match goal with
      | |- Changes _ (if ?b then _ else _) => destruct b
      | |- Changes _ (match ?x with _ => _ end) => destruct x
      end ].

Section ChangesOfCommands.

Context {k : footprint} (w : world).

Lemma Changes_parse_value tok : Changes k (parse_value tok).
Proof. unfold parse_value. changes_split. Qed.

Lemma Changes_sleep sec : Changes k (sleep w sec).
Proof. unfold sleep. changes_split. Qed.

Lemma Changes_run_external_tool cmd desc :
  fp_tools k = true -> Changes k (run_external_tool w cmd desc).
Proof. intros H. unfold run_external_tool. changes_split. Qed.

#[local] Hint Resolve Changes_parse_value Changes_sleep
  Changes_run_external_tool : changes_db.

Lemma Changes_cmd_def_var args :
  fp_variables k = true -> Changes k (cmd_def_var args).
Proof. intros H. unfold cmd_def_var. changes_split; auto with changes_db. Qed.

Lemma Changes_cmd_set_var args :
  fp_variables k = true -> Changes k (cmd_set_var args).
Proof. intros H. unfold cmd_set_var. changes_split; auto with changes_db. Qed.

Lemma Changes_cmd_config args : fp_config k = true -> Changes k (cmd_config args).
Proof. intros H. unfold cmd_config. changes_split. Qed.

Lemma Changes_cmd_read args :
  fp_variables k = true -> fp_tools k = true -> Changes k (cmd_read w args).
Proof. intros H1 H2. unfold cmd_read. changes_split; auto with changes_db. Qed.

Lemma Changes_cmd_power_on args : fp_tools k = true -> Changes k (cmd_power_on w args).
Proof. intros H. unfold cmd_power_on. changes_split; auto with changes_db. Qed.

Lemma Changes_cmd_power_off args : fp_tools k = true -> Changes k (cmd_power_off w args).
Proof. intros H. unfold cmd_power_off. changes_split; auto with changes_db. Qed.

Lemma Changes_cmd_power_cycle args :
  fp_tools k = true -> Changes k (cmd_power_cycle w args).
Proof.
  intros H. unfold cmd_power_cycle.
  apply Changes_bind; [now apply Changes_cmd_power_off | intros _].
  apply Changes_bind; [apply Changes_sleep | intros _].
  changes_split; auto with changes_db.
Qed.

Lemma Changes_cmd_res_set args : fp_tools k = true -> Changes k (cmd_res_set w args).
Proof. intros H. unfold cmd_res_set. changes_split; auto with changes_db. Qed.

Lemma Changes_cmd_res_open args : fp_tools k = true -> Changes k (cmd_res_open w args).
Proof. intros H. unfold cmd_res_open. changes_split; auto with changes_db. Qed.

Lemma Changes_cmd_res_close args : fp_tools k = true -> Changes k (cmd_res_close w args).
Proof. intros H. unfold cmd_res_close. changes_split; auto with changes_db. Qed.

Lemma Changes_cmd_screenshot args :
  fp_tools k = true -> Changes k (cmd_screenshot w args).
Proof. intros H. unfold cmd_screenshot. changes_split; auto with changes_db. Qed.

Lemma Changes_cmd_wait args : Changes k (cmd_wait w args).
Proof. unfold cmd_wait. changes_split; auto with changes_db. Qed.

Lemma Changes_cmd_check_range args : Changes k (cmd_check_range args).
Proof. unfold cmd_check_range. changes_split; auto with changes_db. Qed.

Lemma Changes_cmd_check_diff args : Changes k (cmd_check_diff args).
Proof. unfold cmd_check_diff. changes_split; auto with changes_db. Qed.

Lemma Changes_cmd_test args : fp_cases k = true -> Changes k (cmd_test args).
Proof. intros H s. apply rtc_once, change_test, H. Qed.

End ChangesOfCommands.

#[export] Hint Resolve Changes_cmd_def_var Changes_cmd_set_var Changes_cmd_config
  Changes_cmd_read Changes_cmd_power_on Changes_cmd_power_off
  Changes_cmd_power_cycle Changes_cmd_res_set Changes_cmd_res_open
  Changes_cmd_res_close Changes_cmd_screenshot Changes_cmd_wait
  Changes_cmd_check_range Changes_cmd_check_diff Changes_cmd_test
  Changes_error Changes_ret : changes_db.

Lemma Changes_execute_line w line :
  Changes
    (match keyword line with
     | Some c => footprint_of c
     | None => Footprint false false false false
     end) (execute_line w line).
Proof.
  unfold keyword, command_of, execute_line.
  destruct (Py.split line) as [|p0 args]; simpl; [apply Changes_ret|].
  generalize (Py.upper p0) as c. intros c.
  repeat match goal with
         | |- Changes _ (if String.eqb ?c ?x then _ else _) =>
             destruct (String.eqb_spec c x) as [->|?]
         end; auto with changes_db.
Qed.

Lemma keyword_footprint w line c s :
  keyword line = Some c ->
  rtc (change (footprint_of c)) s (snd (execute_line w line s)).
Proof.
  intros H. pose proof (Changes_execute_line w line s) as Hc.
  now rewrite H in Hc.
Qed.

(** What [error], an update of the open case and [TEST] leave alone. *)
Lemma stores_error msg s :
  variables (snd (error msg s)) = variables s /\
  config (snd (error msg s)) = config s /\
  calls (snd (error msg s)) = calls s /\
  clock (snd (error msg s)) = clock s.
Proof. rewrite error_spec. destruct s; auto. Qed.

Lemma stores_update_current f s :
  variables (snd (update_current f s)) = variables s /\
  config (snd (update_current f s)) = config s /\
  calls (snd (update_current f s)) = calls s /\
  clock (snd (update_current f s)) = clock s /\
  failed_tests (snd (update_current f s)) = failed_tests s.
Proof. rewrite update_current_spec. destruct s; auto. Qed.

Lemma stores_cmd_test args s :
  variables (snd (cmd_test args s)) = variables s /\
  config (snd (cmd_test args s)) = config s /\
  calls (snd (cmd_test args s)) = calls s /\
  clock (snd (cmd_test args s)) = clock s /\
  failed_tests (snd (cmd_test args s)) = failed_tests s.
Proof.
  destruct args as [|a0 rest]; [rewrite cmd_test_nil | rewrite cmd_test_cons];
    simpl; unfold finalize_current;
    destruct s as [v c f h tr cur i ti ca cl]; destruct cur; auto.
Qed.

Lemma change_config_kept k s s' :
  fp_config k = false -> rtc (change k) s s' -> config s' = config s.
Proof.
  intros Hk. induction 1 as [|x y z Hxy _ IH]; [reflexivity|].
  rewrite IH. inversion Hxy; subst; try congruence; try (destruct x; reflexivity).
  - apply stores_error.
  - apply stores_update_current.
  - apply stores_cmd_test.
Qed.

Lemma change_variables_kept k s s' :
  fp_variables k = false -> rtc (change k) s s' -> variables s' = variables s.
Proof.
  intros Hk. induction 1 as [|x y z Hxy _ IH]; [reflexivity|].
  rewrite IH. inversion Hxy; subst; try congruence; try (destruct x; reflexivity).
  - apply stores_error.
  - apply stores_update_current.
  - apply stores_cmd_test.
Qed.

Lemma change_calls_kept k s s' :
  fp_tools k = false -> rtc (change k) s s' -> calls s' = calls s.
Proof.
  intros Hk. induction 1 as [|x y z Hxy _ IH]; [reflexivity|].
  rewrite IH. inversion Hxy; subst; try congruence; try (destruct x; reflexivity).
  - apply stores_error.
  - apply stores_update_current.
  - apply stores_cmd_test.
Qed.

Lemma footprint_config c : fp_config (footprint_of c) = true -> c = "CONFIG".
Proof.
  unfold footprint_of.
  repeat match goal with
         | |- context [String.eqb ?c ?x] =>
             destruct (String.eqb_spec c x) as [->|?]
         end; simpl; intros; congruence.
Qed.

Lemma footprint_variables c :
  fp_variables (footprint_of c) = true ->
  c = "DEF_VAR" \/ c = "SET_VAR" \/ c = "READ".
Proof.
  unfold footprint_of.
  repeat match goal with
         | |- context [String.eqb ?c ?x] =>
             destruct (String.eqb_spec c x) as [->|?]
         end; simpl; intros; auto; congruence.
Qed.

Lemma footprint_tools c :
  fp_tools (footprint_of c) = true ->
  c ∈ ["READ"; "POWER_ON"; "POWER_OFF"; "POWER_CYCLE"; "RES_SET"; "RES_OPEN";
       "RES_CLOSE"; "SCREENSHOT"].
Proof.
  unfold footprint_of.
  repeat match goal with
         | |- context [String.eqb ?c ?x] =>
             destruct (String.eqb_spec c x) as [->|?]
         end; simpl; intros; try congruence; set_solver.
Qed.

(** X1: only [CONFIG] writes to the configuration store: a line with any
    other keyword (an unknown one included) leaves it as it was, whatever
    the arguments, the state and the world. *)
Theorem config_is_written_by_CONFIG_only (w : world) (line c : string)
    (s : TestRunner) :
  keyword line = Some c -> c <> "CONFIG" ->
  config (snd (execute_line w line s)) = config s.
Proof.
  intros Hk Hc. eapply change_config_kept; [|exact (keyword_footprint w _ _ s Hk)].
  destruct (fp_config (footprint_of c)) eqn:E; [|reflexivity].
  destruct (Hc (footprint_config _ E)).
Qed.

Lemma config_is_written_by_CONFIG_only_witness :
  config (snd (execute_line w_ok "SET_VAR $v 2" s_configured)) !! "POWER_ADDR"
    = Some "USB0".
Proof.
  rewrite (config_is_written_by_CONFIG_only w_ok "SET_VAR $v 2" "SET_VAR" s_configured).
  - reflexivity.
  - reflexivity.
  - discriminate.
Defined.

(** X2: only [DEF_VAR], [SET_VAR] and [READ] write to the variable store:
    a line with any other keyword leaves every variable as it was; the
    assertions in particular never change what they check. *)
Theorem variables_are_written_by_three_commands_only (w : world)
    (line c : string) (s : TestRunner) :
  keyword line = Some c -> c <> "DEF_VAR" -> c <> "SET_VAR" -> c <> "READ" ->
  variables (snd (execute_line w line s)) = variables s.
Proof.
  intros Hk H1 H2 H3.
  eapply change_variables_kept; [|exact (keyword_footprint w _ _ s Hk)].
  destruct (fp_variables (footprint_of c)) eqn:E; [|reflexivity].
  destruct (footprint_variables _ E) as [?|[?|?]]; contradiction.
Qed.

Lemma variables_are_written_by_three_commands_only_witness :
  variables (snd (execute_line w_ok "CHECK_RANGE $v 2 1%" s_configured)) !! "$v"
    = Some 1%float.
Proof.
  rewrite (variables_are_written_by_three_commands_only w_ok
             "CHECK_RANGE $v 2 1%" "CHECK_RANGE" s_configured).
  - reflexivity.
  - reflexivity.
  - discriminate.
  - discriminate.
  - discriminate.
Defined.

(** X3: a tool is spawned only by [READ], the [POWER_] and [RES_] commands
    and [SCREENSHOT]: the other lines ([TEST], the variable commands,
    [CONFIG], [WAIT], the assertions, unknown keywords) add nothing to the
    list of invocations. *)
Theorem tools_are_spawned_by_instrument_commands_only (w : world)
    (line c : string) (s : TestRunner) :
  keyword line = Some c ->
  c ∉ ["READ"; "POWER_ON"; "POWER_OFF"; "POWER_CYCLE"; "RES_SET"; "RES_OPEN";
       "RES_CLOSE"; "SCREENSHOT"] ->
  calls (snd (execute_line w line s)) = calls s.
Proof.
  intros Hk Hc. eapply change_calls_kept; [|exact (keyword_footprint w _ _ s Hk)].
  destruct (fp_tools (footprint_of c)) eqn:E; [|reflexivity].
  destruct (Hc (footprint_tools _ E)).
Qed.

Lemma tools_are_spawned_by_instrument_commands_only_witness :
  calls (snd (execute_line w_ok "CHECK_DIFF $v 2 0.1" s_configured)) = [].
Proof.
  rewrite (tools_are_spawned_by_instrument_commands_only w_ok
             "CHECK_DIFF $v 2 0.1" "CHECK_DIFF" s_configured).
  - reflexivity.
  - reflexivity.
  - intros H. repeat (inversion H as [|? ? ? H']; subst; clear H; rename H' into H).
Defined.

(** ** Runs without an interrupt *)

Lemma Catchable_modify f : Catchable (modify f).
Proof. intros s. exact I. Qed.

Lemma Catchable_try {A} (m : M A) (h : exn -> M A) :
  Catchable m -> (forall e, Catchable (h e)) -> Catchable (try_except m h).
Proof.
  intros Hm Hh s. unfold try_except. specialize (Hm s).
  destruct (m s) as [[a|e] s1]; simpl in *; [exact I|].
  rewrite Hm. apply Hh.
Qed.

Lemma Catchable_next_reading : Catchable next_reading.
Proof. intros s. exact I. Qed.

#[export] Hint Resolve Catchable_modify Catchable_next_reading : catch_db.

Ltac catch_all :=
  repeat first
    [ solve [auto with catch_db]
    | apply Catchable_bind; [| intros ?]
    | apply Catchable_try; [| intros ?]
    | apply Catchable_raise; reflexivity
    | match goal with
      | |- Catchable (if ?b then _ else _) => destruct b
      | |- Catchable (match ?x with _ => _ end) => destruct x
      end ].

Section QuietWorld.

Context (w : world) (Hq : quiet w).

Lemma Catchable_run_external_tool cmd desc : Catchable (run_external_tool w cmd desc).
Proof.
  unfold run_external_tool.
  apply Catchable_bind; [auto with catch_db | intros _].
  apply Catchable_bind; [auto with catch_db | intros n].
  destruct (tool_at w n) eqn:E; [catch_all..|].
  destruct (proj1 Hq n E).
Qed.

Lemma Catchable_sleep sec : Catchable (sleep w sec).
Proof.
  unfold sleep.
  destruct (is_nan sec); [apply Catchable_raise; reflexivity|].
  destruct (_ || _); [apply Catchable_raise; reflexivity|].
  destruct (_ <? _)%float; [apply Catchable_raise; reflexivity|].
  apply Catchable_bind; [auto with catch_db | intros n].
  rewrite (proj2 Hq n). auto with catch_db.
Qed.

#[local] Hint Resolve Catchable_run_external_tool Catchable_sleep : catch_db.

Lemma Catchable_cmd_test args : Catchable (cmd_test args).
Proof. unfold cmd_test. catch_all. Qed.

Lemma Catchable_cmd_def_var args : Catchable (cmd_def_var args).
Proof. unfold cmd_def_var. catch_all. Qed.

Lemma Catchable_cmd_config args : Catchable (cmd_config args).
Proof. unfold cmd_config. catch_all. Qed.

Lemma Catchable_cmd_power_on args : Catchable (cmd_power_on w args).
Proof. unfold cmd_power_on. catch_all. Qed.

Lemma Catchable_cmd_power_off args : Catchable (cmd_power_off w args).
Proof. unfold cmd_power_off. catch_all. Qed.

Lemma Catchable_cmd_power_cycle args : Catchable (cmd_power_cycle w args).
Proof.
  unfold cmd_power_cycle.
  apply Catchable_bind; [apply Catchable_cmd_power_off | intros _].
  apply Catchable_bind; [apply Catchable_sleep | intros _].
  catch_all.
Qed.

Lemma Catchable_cmd_res_set args : Catchable (cmd_res_set w args).
Proof. unfold cmd_res_set. catch_all. Qed.

Lemma Catchable_cmd_res_open args : Catchable (cmd_res_open w args).
Proof. unfold cmd_res_open. catch_all. Qed.

Lemma Catchable_cmd_res_close args : Catchable (cmd_res_close w args).
Proof. unfold cmd_res_close. catch_all. Qed.

Lemma Catchable_cmd_screenshot args : Catchable (cmd_screenshot w args).
Proof. unfold cmd_screenshot. catch_all. Qed.

Lemma Catchable_cmd_wait args : Catchable (cmd_wait w args).
Proof. unfold cmd_wait. catch_all. Qed.

Lemma Catchable_cmd_read args : Catchable (cmd_read w args).
Proof. unfold cmd_read. catch_all. Qed.

Lemma Catchable_cmd_set_var args : Catchable (cmd_set_var args).
Proof. unfold cmd_set_var. catch_all. Qed.

Lemma Catchable_execute_line line : Catchable (execute_line w line).
Proof.
  unfold execute_line. destruct (Py.split line) as [|p0 args]; [auto with catch_db|].
  repeat match goal with
         | |- Catchable (if ?b then _ else _) => destruct b
         end;
    auto using Catchable_cmd_test, Catchable_cmd_def_var, Catchable_cmd_config,
      Catchable_cmd_power_on, Catchable_cmd_power_off, Catchable_cmd_power_cycle,
      Catchable_cmd_res_set, Catchable_cmd_res_open, Catchable_cmd_res_close,
      Catchable_cmd_screenshot, Catchable_cmd_wait, Catchable_cmd_read,
      Catchable_cmd_set_var, Returns_Catchable, Returns_cmd_check_range,
      Returns_cmd_check_diff, Returns_error.
Qed.

Lemma Catchable_run_lines lines : Catchable (run_lines w lines).
Proof.
  induction lines as [|line rest IH]; [auto with catch_db|].
  rewrite run_lines_cons. destruct (skipped line); [exact IH|].
  apply Catchable_bind; [apply Catchable_execute_line | intros _; exact IH].
Qed.

End QuietWorld.

(** X4: when the operator never interrupts, every run of a script that
    could be read ends through [sys.exit] with status 0 or 1, never with
    130 and never with an uncaught exception: 0 exactly when the loop
    completed with no failure recorded, 1 when a failure was recorded or a
    command raised. *)
Theorem run_without_interrupt_exits_with_0_or_1 (w : world) (lines : list string) :
  quiet w ->
  status (run w (FileLines lines)) =
  match run_lines w lines init with
  | (Ret _, s) => match failed_tests s with [] => SysExit 0 | _ => SysExit 1 end
  | (Raise _, _) => SysExit 1
  end.
Proof.
  intros Hq. pose proof (Catchable_run_lines w Hq lines init) as Hc.
  destruct (run_lines w lines init) as [[[]|e] s] eqn:Hrun; simpl in Hc.
  - rewrite (run_completed w lines s Hrun). simpl.
    destruct (failed_tests s); reflexivity.
  - unfold run. rewrite Hrun.
    assert (E : status (shutdown w 1 s) = SysExit 1).
    { rewrite shutdown_status. pose proof (proj1 Hq (clock s)) as Hn.
      destruct (tool_at w (clock s)); [reflexivity | reflexivity | contradiction]. }
    destruct e; try exact E. discriminate Hc.
Qed.

Lemma quiet_w_ok : quiet w_ok.
Proof. split; intros k; [discriminate | reflexivity]. Qed.

Lemma run_without_interrupt_exits_with_0_or_1_witness :
  status (run w_ok (FileLines ["TEST T1 a"; "RES_SET"; "TEST T2 b"])) = SysExit 1.
Proof.
  rewrite (run_without_interrupt_exits_with_0_or_1 w_ok
             ["TEST T1 a"; "RES_SET"; "TEST T2 b"] quiet_w_ok).
  reflexivity.
Defined.

(** ** The report *)

Lemma deref_set_test_results r s : deref (set_test_results r s) = deref s.
Proof. destruct s; reflexivity. Qed.

Lemma dict_in_self s r rs : dict_in s r (rs ++ [r]) = true.
Proof.
  unfold dict_in. rewrite existsb_app. simpl.
  rewrite Nat.eqb_refl. simpl. apply orb_true_r.
Qed.

Lemma finalize_last_idem s : finalize_last (finalize_last s) = finalize_last s.
Proof.
  destruct (current_test_data s) as [r|] eqn:Ec.
  - destruct (dict_in s r (test_results s)) eqn:Ed.
    + assert (E : finalize_last s = s)
        by (unfold finalize_last; now rewrite Ec, Ed).
      now rewrite !E.
    + assert (E : finalize_last s = set_test_results (test_results s ++ [r]) s)
        by (unfold finalize_last; now rewrite Ec, Ed).
      rewrite E. unfold finalize_last.
      assert (Hc : current_test_data (set_test_results (test_results s ++ [r]) s)
                   = Some r) by (destruct s; exact Ec).
      rewrite Hc.
      assert (Hd : dict_in (set_test_results (test_results s ++ [r]) s) r
                     (test_results (set_test_results (test_results s ++ [r]) s))
                   = true).
      { destruct s as [v c f h tr cur i ti ca cl]; simpl.
        exact (dict_in_self (mkRunner v c f h tr cur i ti ca cl) r tr). }
      now rewrite Hd.
  - assert (E : finalize_last s = s) by (unfold finalize_last; now rewrite Ec).
    now rewrite !E.
Qed.

(** X5: [generate_report] is idempotent: called again on the state it
    left, it returns the same report and changes nothing, so the open case
    is never added to the finalized list a second time. *)
Theorem generate_report_twice (s : TestRunner) :
  generate_report (snd (generate_report s)) = generate_report s.
Proof.
  rewrite !generate_report_spec. simpl. now rewrite finalize_last_idem.
Qed.

Lemma shape_NoDup s : shape s -> NoDup (test_results s).
Proof. intros [H _]. rewrite H. apply NoDup_seq. Qed.

Lemma finalize_current_shape_NoDup s :
  shape s -> NoDup (test_results (finalize_current s)).
Proof.
  intros [H1 H2]. rewrite test_results_finalize_current, H1, H2.
  destruct (length (heap s)) as [|n]; simpl.
  - constructor.
  - rewrite (eq_sym (seq_S n 0) : (seq 0 n ++ [n])%list = seq 0 (S n)).
    apply NoDup_seq.
Qed.

(** Whatever way the loop ends, the finalized list has no duplicate; when
    the loop completes, the bookkeeping has its regular shape. *)
Lemma run_lines_NoDup w lines :
  forall s, shape s ->
    NoDup (test_results (snd (run_lines w lines s))) /\
    (forall s', run_lines w lines s = (Ret tt, s') -> shape s').
Proof.
  induction lines as [|line rest IH]; intros s Hs.
  - split; [now apply shape_NoDup | now intros s' [= <-]].
  - rewrite run_lines_cons. destruct (skipped line) eqn:Sk; [exact (IH s Hs)|].
    destruct (test_args line) as [args|] eqn:E.
    + apply test_args_Some in E as [_ E]. unfold bind.
      rewrite (execute_line_test _ _ _ E). destruct args as [|a0 args].
      * rewrite cmd_test_nil. simpl.
        split; [now apply finalize_current_shape_NoDup | discriminate].
      * rewrite cmd_test_cons. apply IH. now apply shape_open_case.
    + pose proof (Steps_execute_line_other w (Py.strip line)
                    (test_args_None_other _ Sk E) s) as St.
      apply steps_frame in St. unfold bind.
      destruct (execute_line w (Py.strip line) s) as [[[]|e] s1]; simpl in St.
      * apply IH. exact (frame_shape _ _ St Hs).
      * simpl. split; [|discriminate].
        apply shape_NoDup. exact (frame_shape _ _ St Hs).
Qed.

Lemma dict_in_false_not_in s r rs : dict_in s r rs = false -> r ∉ rs.
Proof.
  unfold dict_in. intros H Hin.
  assert (Ht : existsb (fun r' => (r' =? r)%nat || bool_decide (deref s r' = deref s r)) rs
               = true).
  { apply existsb_exists. exists r. split; [now apply list_elem_of_In|].
    now rewrite Nat.eqb_refl. }
  congruence.
Qed.

Lemma finalize_last_NoDup s :
  NoDup (test_results s) -> NoDup (test_results (finalize_last s)).
Proof.
  intros H. unfold finalize_last. destruct (current_test_data s) as [r|]; [|exact H].
  destruct (dict_in s r (test_results s)) eqn:Ed; [exact H|].
  apply dict_in_false_not_in in Ed.
  destruct s as [v c f h tr cur i ti ca cl]; simpl in *.
  apply NoDup_app. repeat split; auto.
  - intros x Hx Hx'. apply list_elem_of_singleton in Hx'. now subst.
  - apply NoDup_singleton.
Qed.

Lemma final_shutdown w code s :
  final (shutdown w code s) =
  match cmd_power_off w [] s with
  | (Ret _, s1) => finalize_last s1
  | (Raise _, s1) => s1
  end.
Proof.
  unfold shutdown. destruct (cmd_power_off w [] s) as [[[]|e] s1]; [|reflexivity].
  now rewrite generate_report_spec.
Qed.

Lemma cmd_power_off_frame w s : frame s (snd (cmd_power_off w [] s)).
Proof. apply steps_frame. apply (Steps_cmd_power_off w []). Qed.

(** X6: on every exit path (completed loop, fatal error, interrupt, even
    an interrupted emergency power-off, missing or unreadable file) the
    finalized list holds no test case twice. *)
Theorem finalized_list_has_no_duplicate (w : world) (f : script_file) :
  NoDup (test_results (final (run w f))).
Proof.
  assert (Hsd : forall code s, NoDup (test_results s) ->
            NoDup (test_results (final (shutdown w code s)))).
  { intros code s H. rewrite final_shutdown.
    pose proof (cmd_power_off_frame w s) as [_ Hr _ _ _].
    destruct (cmd_power_off w [] s) as [[[]|e] s1]; simpl in *.
    - apply finalize_last_NoDup. now rewrite Hr.
    - now rewrite Hr. }
  destruct f as [|m|lines]; simpl.
  - constructor.
  - apply Hsd. constructor.
  - destruct (run_lines_NoDup w lines init shape_init) as [Hn _].
    destruct (run_lines w lines init) as [[[]|e] s] eqn:Hrun; simpl in Hn.
    + rewrite generate_report_spec.
      assert (Hf : NoDup (test_results (finalize_last s)))
        by now apply finalize_last_NoDup.
      destruct (failed_tests (finalize_last s)); exact Hf.
    + destruct e; now apply Hsd.
Qed.

Lemma filter_pass_length (rows : list test_data) :
  (length (filter (fun td => is_pass td = true) rows) <= length rows)%nat /\
  (length (filter (fun td => is_pass td = true) rows) = length rows <->
   Forall (fun td => td_result td = "PASS") rows).
Proof.
  induction rows as [|td rows [IH1 IH2]]; simpl.
  - split; [lia|]. split; [constructor | reflexivity].
  - rewrite filter_cons. destruct (decide (is_pass td = true)) as [Hp|Hp]; simpl.
    + apply String.eqb_eq in Hp. split; [lia|]. split.
      * intros H. constructor; [exact Hp|]. apply IH2. lia.
      * intros H. inversion H; subst. f_equal. now apply IH2.
    + split; [lia|]. split; [lia|].
      intros H. inversion H as [|? ? Hr Hrest]; subst.
      destruct Hp. unfold is_pass. now apply String.eqb_eq.
Qed.

(** X7: the figures of a report agree with its rows: the total is the
    number of finalized cases, passed and failed add up to it, and the
    overall verdict is PASS exactly when every row has the verdict PASS
    (FAIL otherwise); no report is written exactly when no case was
    finalized. *)
Theorem report_figures (s : TestRunner) :
  match fst (generate_report s) with
  | Ret (Some rep) =>
      test_results (snd (generate_report s)) <> [] /\
      rep_rows rep = finalized (snd (generate_report s)) /\
      rep_total rep = length (rep_rows rep) /\
      (rep_passed rep + rep_failed rep = rep_total rep)%nat /\
      (rep_overall rep = "PASS" <->
       Forall (fun td => td_result td = "PASS") (rep_rows rep)) /\
      (rep_overall rep = "PASS" \/ rep_overall rep = "FAIL")
  | Ret None => test_results (snd (generate_report s)) = []
  | Raise _ => False
  end.
Proof.
  rewrite generate_report_spec. simpl. unfold report_of.
  set (s1 := finalize_last s).
  destruct (test_results s1) as [|r rs] eqn:E; [reflexivity|].
  unfold make_report. simpl.
  destruct (filter_pass_length (finalized s1)) as [Hle Hall].
  set (p := length (filter (fun td => is_pass td = true) (finalized s1))) in *.
  split; [discriminate|]. split; [reflexivity|].
  split; [reflexivity|]. split; [lia|]. split.
  - destruct (Nat.eqb_spec (length (finalized s1) - p) 0) as [H0|H0].
    + split; [intros _; apply Hall; lia | reflexivity].
    + split; [discriminate|]. intros H. apply Hall in H. lia.
  - destruct (length (finalized s1) - p =? 0)%nat; auto.
Qed.

(** ** The run loop *)

Lemma run_lines_app w a b :
  forall s, run_lines w (a ++ b) s = (run_lines w a ;; run_lines w b) s.
Proof.
  induction a as [|line a IH]; intros s; [reflexivity|].
  change ((line :: a) ++ b)%list with (line :: (a ++ b))%list.
  rewrite !run_lines_cons. destruct (skipped line); [apply IH|].
  unfold bind.
  destruct (execute_line w (Py.strip line) s) as [[[]|e] s1];
    [rewrite IH; reflexivity | reflexivity].
Qed.

Lemma run_lines_executed w lines :
  forall s, run_lines w lines s = run_lines w (executed_lines lines) s.
Proof.
  induction lines as [|line rest IH]; intros s; [reflexivity|].
  assert (E : executed_lines (line :: rest) =
              if skipped line then executed_lines rest
              else line :: executed_lines rest)
    by (unfold executed_lines; simpl; destruct (skipped line); reflexivity).
  rewrite E, run_lines_cons. destruct (skipped line) eqn:Sk; [apply IH|].
  rewrite run_lines_cons, Sk. unfold bind.
  destruct (execute_line w (Py.strip line) s) as [[[]|e] s1]; [apply IH | reflexivity].
Qed.

(** X8: the run loop composes: running a script made of two parts is
    running the first part and, if it did not raise, the second part from
    the state it left; and blank lines and comment lines do not count: a
    script runs like the script without them. *)
Theorem run_loop_composes (w : world) (a b : list string) (s : TestRunner) :
  run_lines w (a ++ b) s =
    match run_lines w a s with
    | (Ret _, s1) => run_lines w b s1
    | (Raise e, s1) => (Raise e, s1)
    end /\
  run_lines w a s = run_lines w (executed_lines a) s /\
  Forall (fun l => skipped l = false) (executed_lines a).
Proof.
  split; [exact (run_lines_app w a b s)|]. split; [apply run_lines_executed|].
  unfold executed_lines. apply List.Forall_forall. intros l Hl.
  apply filter_In in Hl as [_ Hl]. now destruct (skipped l).
Qed.

(** ** The emergency path *)

(** What [run_external_tool] does, by the outcome of the tool. *)
Lemma run_external_tool_spec w cmd desc s :
  run_external_tool w cmd desc s =
  match tool_at w (clock s) with
  | Exited rc out err =>
      if rc =? 0
      then (Ret (Some (Py.strip out)), tool_called cmd s)
      else (Ret None,
            snd (error ("工具执行失败 [" ++ desc ++ "]: " ++ Py.strip err)
                   (tool_called cmd s)))
  | Failed m =>
      (Ret None, snd (error ("系统异常 [" ++ desc ++ "]: " ++ m) (tool_called cmd s)))
  | Interrupted => (Raise KeyboardInterrupt, tool_called cmd s)
  end.
Proof.
  unfold run_external_tool.
  step_bind (eq_refl : modify (fun s => set_calls (calls s ++ [cmd]) s) s =
                       (Ret tt, set_calls (calls s ++ [cmd]) s)).
  step_bind (eq_refl : next_reading (set_calls (calls s ++ [cmd]) s) =
                       (Ret (clock s), tool_called cmd s)).
  destruct (tool_at w (clock s)) as [rc out err|m|]; [| |reflexivity].
  - destruct (rc =? 0); cbn [negb]; [reflexivity|].
    step_bind (error_ret ("工具执行失败 [" ++ desc ++ "]: " ++ Py.strip err)
                 (tool_called cmd s)).
    reflexivity.
  - step_bind (error_ret ("系统异常 [" ++ desc ++ "]: " ++ m) (tool_called cmd s)).
    reflexivity.
Qed.

Lemma calls_run_external_tool w cmd desc s :
  calls (snd (run_external_tool w cmd desc s)) = (calls s ++ [cmd])%list /\
  clock (snd (run_external_tool w cmd desc s)) = S (clock s).
Proof.
  rewrite run_external_tool_spec.
  assert (H0 : calls (tool_called cmd s) = (calls s ++ [cmd])%list /\
               clock (tool_called cmd s) = S (clock s))
    by (destruct s; auto).
  assert (He : forall msg,
            calls (snd (error msg (tool_called cmd s))) = (calls s ++ [cmd])%list /\
            clock (snd (error msg (tool_called cmd s))) = S (clock s)).
  { intros msg. destruct (stores_error msg (tool_called cmd s)) as (_ & _ & -> & ->).
    exact H0. }
  destruct (tool_at w (clock s)) as [rc out err|m|]; [destruct (rc =? 0)| |];
    cbn [snd]; first [exact H0 | apply He].
Qed.

Lemma calls_cmd_power_off w s :
  calls (snd (cmd_power_off w [] s)) = (calls s ++ [power_off_call w s])%list.
Proof.
  unfold cmd_power_off. step_bind (eq_refl : get s = (Ret s, s)).
  unfold bind, power_off_call.
  pose proof (calls_run_external_tool w
                (with_config s "POWER_ADDR" "-a"
                   [python_exe w; PATH_POWER_CTRL; "-o"; "off"]) "电源下电" s) as [H _].
  destruct (run_external_tool w _ _ s) as [[o|e] s1]; exact H.
Qed.

Lemma finalize_last_keeps s :
  calls (finalize_last s) = calls s /\ heap (finalize_last s) = heap s /\
  (forall r, r ∈ test_results s -> r ∈ test_results (finalize_last s)) /\
  (forall r, current_test_data s = Some r ->
     dict_in (finalize_last s) r (test_results (finalize_last s)) = true).
Proof.
  unfold finalize_last. destruct (current_test_data s) as [r|] eqn:Ec.
  - destruct (dict_in s r (test_results s)) eqn:Ed.
    + repeat split; auto. intros r' [= <-]. exact Ed.
    + destruct s as [v c f h tr cur i ti ca cl]; simpl in *.
      repeat split; auto.
      * intros r' Hr. apply elem_of_app. now left.
      * intros r' [= <-].
        exact (dict_in_self (mkRunner v c f h (tr ++ [r]) cur i ti ca cl) r tr).
  - repeat split; auto. discriminate.
Qed.

Lemma written_shutdown w code s :
  written (shutdown w code s) =
  match tool_at w (clock s) with
  | Interrupted => None
  | _ => report_of (final (shutdown w code s))
  end.
Proof.
  rewrite final_shutdown. unfold shutdown.
  pose proof (cmd_power_off_result w s) as H.
  destruct (cmd_power_off w [] s) as [[[]|e] s1]; simpl in H.
  - rewrite generate_report_spec.
    destruct (tool_at w (clock s)); [reflexivity | reflexivity | discriminate].
  - destruct (tool_at w (clock s)); try discriminate. reflexivity.
Qed.

(** X9: when a command raises (a fatal error or an interrupt), [run]
    invokes the power-off tool exactly once more, as the last invocation
    and with the configured address; every test case finalized before is
    still in the finalized list, with its id and title and a FAIL verdict
    kept.  Unless that power-off is itself interrupted, the report is
    written from the finalized list, which then also holds the open case
    (or a case equal to it), and the status is 1 for an error and 130 for
    an interrupt; if it is interrupted, nothing is written and the
    interrupt goes uncaught. *)
Theorem emergency_shutdown (w : world) (lines : list string) (e : exn)
    (s : TestRunner) :
  run_lines w lines init = (Raise e, s) ->
  calls (final (run w (FileLines lines))) = (calls s ++ [power_off_call w s])%list /\
  (forall r td, r ∈ test_results s -> deref s r = Some td ->
     r ∈ test_results (final (run w (FileLines lines))) /\
     exists td', deref (final (run w (FileLines lines))) r = Some td' /\
       td_id td' = td_id td /\ td_title td' = td_title td /\
       (td_result td = "FAIL" -> td_result td' = "FAIL")) /\
  match tool_at w (clock s) with
  | Interrupted =>
      status (run w (FileLines lines)) = Uncaught KeyboardInterrupt /\
      written (run w (FileLines lines)) = None
  | _ =>
      status (run w (FileLines lines)) = SysExit (if is_Exception e then 1 else 130) /\
      written (run w (FileLines lines)) = report_of (final (run w (FileLines lines))) /\
      (forall r, current_test_data s = Some r ->
         dict_in (final (run w (FileLines lines))) r
           (test_results (final (run w (FileLines lines)))) = true)
  end.
Proof.
  intros Hrun.
  assert (Er : run w (FileLines lines) =
               shutdown w (if is_Exception e then 1 else 130) s).
  { unfold run. rewrite Hrun. destruct e; reflexivity. }
  rewrite Er. set (code := if is_Exception e then 1 else 130).
  pose proof (calls_cmd_power_off w s) as Hcalls.
  pose proof (cmd_power_off_frame w s) as [Hh Hr Hc _ _].
  pose proof (cmd_power_off_result w s) as Hres.
  rewrite shutdown_status, written_shutdown, final_shutdown.
  destruct (cmd_power_off w [] s) as [[[]|e'] s1]; simpl in *.
  - destruct (finalize_last_keeps s1) as (Kc & Kh & Kr & Kd).
    split; [now rewrite Kc|]. split.
    + intros r td Hin Hd. split; [apply Kr; now rewrite Hr|].
      unfold deref in *. rewrite Kh.
      destruct (Forall2_lookup_l _ _ _ _ _ Hh Hd) as (td' & Hd' & Hi & Ht & Hf & _).
      eauto.
    + destruct (tool_at w (clock s)); try discriminate;
        (split; [reflexivity|]; split; [reflexivity|]);
        intros r Hcur; apply Kd; now rewrite Hc.
  - split; [exact Hcalls|]. split.
    + intros r td Hin Hd. split; [now rewrite Hr|].
      unfold deref in *.
      destruct (Forall2_lookup_l _ _ _ _ _ Hh Hd) as (td' & Hd' & Hi & Ht & Hf & _).
      eauto.
    + destruct (tool_at w (clock s)); try discriminate. auto.
Qed.

Lemma emergency_shutdown_witness :
  status (run w_interrupt
            (FileLines ["TEST T1 a"; "POWER_ON"; "TEST T2 b"; "RES_SET 100"; "TEST T3 c"]))
    = SysExit 130 /\
  calls (final (run w_interrupt
            (FileLines ["TEST T1 a"; "POWER_ON"; "TEST T2 b"; "RES_SET 100"; "TEST T3 c"])))
    = [["python"; "power_ctrl/power_ctrl_cli.py"; "-v"; "12.0"; "-c"; "2.0"; "-o"; "on"];
       ["python"; "res_ctrl/resistance_cli.py"; "-v"; "100"; "--action"; "connect"];
       ["python"; "power_ctrl/power_ctrl_cli.py"; "-o"; "off"]].
Proof.
  destruct (emergency_shutdown w_interrupt
              ["TEST T1 a"; "POWER_ON"; "TEST T2 b"; "RES_SET 100"; "TEST T3 c"]
              KeyboardInterrupt
              (snd (run_lines w_interrupt
                 ["TEST T1 a"; "POWER_ON"; "TEST T2 b"; "RES_SET 100"; "TEST T3 c"]
                 init))) as (Hc & _ & Hs).
  - vm_compute. reflexivity.
  - split; [exact (proj1 Hs) | exact Hc].
Defined.

(** ** Tool invocations *)

Lemma tool_called_keeps cmd s :
  current_test_data (tool_called cmd s) = current_test_data s /\
  deref (tool_called cmd s) = deref s /\
  failed_tests (tool_called cmd s) = failed_tests s /\
  heap (tool_called cmd s) = heap s /\
  variables (tool_called cmd s) = variables s.
Proof. destruct s; auto. Qed.

(** X10: [run_external_tool] never drops a failure silently.  It notes
    the invocation and uses one reading of the world; it returns the
    stripped output only when the tool exited with status 0, and then
    records nothing; it returns nothing only after [error] recorded the
    failure (non-zero exit status, or an exception when spawning), which
    sets the open case to FAIL; and it raises only the operator's
    interrupt, recording nothing. *)
Theorem tool_failure_is_always_recorded (w : world) (cmd : list string)
    (desc : string) (s : TestRunner) :
  calls (snd (run_external_tool w cmd desc s)) = (calls s ++ [cmd])%list /\
  clock (snd (run_external_tool w cmd desc s)) = S (clock s) /\
  match fst (run_external_tool w cmd desc s) with
  | Ret (Some out) =>
      (exists o e, tool_at w (clock s) = Exited 0 o e /\ out = Py.strip o) /\
      failed_tests (snd (run_external_tool w cmd desc s)) = failed_tests s /\
      heap (snd (run_external_tool w cmd desc s)) = heap s
  | Ret None =>
      tool_at w (clock s) <> Interrupted /\
      (forall o e, tool_at w (clock s) <> Exited 0 o e) /\
      failed_tests (snd (run_external_tool w cmd desc s)) <> [] /\
      (forall r td, current_test_data s = Some r -> deref s r = Some td ->
         exists td', deref (snd (run_external_tool w cmd desc s)) r = Some td' /\
                     td_result td' = "FAIL")
  | Raise e =>
      e = KeyboardInterrupt /\ tool_at w (clock s) = Interrupted /\
      failed_tests (snd (run_external_tool w cmd desc s)) = failed_tests s /\
      heap (snd (run_external_tool w cmd desc s)) = heap s
  end.
Proof.
  destruct (calls_run_external_tool w cmd desc s) as [Hc Hk].
  split; [exact Hc|]. split; [exact Hk|]. clear Hc Hk.
  rewrite run_external_tool_spec.
  destruct (tool_called_keeps cmd s) as (Kc & Kd & Kf & Kh & _).
  assert (Hfail : forall msg r td,
            current_test_data s = Some r -> deref s r = Some td ->
            exists td', deref (snd (error msg (tool_called cmd s))) r = Some td' /\
                        td_result td' = "FAIL").
  { intros msg r td Hcur Hd. exists (mark_failed msg td). split; [|reflexivity].
    apply error_deref; [now rewrite Kc | now rewrite Kd]. }
  destruct (tool_at w (clock s)) as [rc out err|m|] eqn:E.
  - destruct (Z.eqb_spec rc 0) as [->|Hrc]; cbn [fst snd].
    + split; [eauto|]. auto.
    + split; [discriminate|]. split; [intros o e [= ? _ _]; contradiction|].
      split; [apply error_records | apply Hfail].
  - cbn [fst snd]. split; [discriminate|]. split; [discriminate|].
    split; [apply error_records | apply Hfail].
  - cbn [fst snd]. auto.
Qed.

(** ** The variable commands *)

Lemma parse_value_cases tok s :
  (exists v, parse_value tok s = (Ret v, s)) \/
  (exists m, parse_value tok s = (Raise (ValueError m), s)).
Proof.
  unfold parse_value, bind, get, float_of_str, ret, raise, undefined_variable.
  destruct (Py.startswith "$" (Py.strip tok)).
  { destruct (variables s !! Py.strip tok); eauto. }
  destruct (Py.endswith "%" (Py.strip tok)).
  { destruct (PyFloat.parse (Py.drop_last (Py.strip tok))); eauto. }
  destruct (Py.contains "ma" (Py.lower (Py.strip tok))).
  { destruct (PyFloat.parse (Py.replace "ma" "" (Py.lower (Py.strip tok)))); eauto. }
  destruct (Py.contains "a" (Py.lower (Py.strip tok))).
  { destruct (PyFloat.parse (Py.replace "a" "" (Py.lower (Py.strip tok)))); eauto. }
  destruct (PyFloat.parse (Py.strip tok)); eauto.
Qed.

Lemma set_variables_keeps v s :
  variables (set_variables v s) = v /\
  failed_tests (set_variables v s) = failed_tests s /\
  heap (set_variables v s) = heap s.
Proof. destruct s; auto. Qed.

(** X11: [DEF_VAR] either defines exactly one variable and records
    nothing, or records an error and defines nothing; it always returns.
    It defines the name given first, when that starts with [$], with the
    value of the second argument or 0.0 without one, whether or not the
    name was defined before (a second definition overwrites the first).
    With a name that lacks the [$], no name at all, or an initial value
    that does not parse, the store stays as it was: the variable is not
    defined with a default. *)
Theorem def_var_defines_or_reports (args : list string) (s : TestRunner) :
  fst (cmd_def_var args s) = Ret tt /\
  ((exists n v,
      args !! 0%nat = Some n /\ Py.startswith "$" n = true /\
      match args !! 1%nat with
      | None => v = 0%float
      | Some a => parse_value a s = (Ret v, s)
      end /\
      variables (snd (cmd_def_var args s)) = <[n := v]> (variables s) /\
      failed_tests (snd (cmd_def_var args s)) = failed_tests s /\
      heap (snd (cmd_def_var args s)) = heap s) \/
   (variables (snd (cmd_def_var args s)) = variables s /\
    failed_tests (snd (cmd_def_var args s)) <> [] /\
    (args = [] \/ (exists n, args !! 0%nat = Some n /\ Py.startswith "$" n = false) \/
     (exists a m, args !! 1%nat = Some a /\
                  parse_value a s = (Raise (ValueError m), s))))).
Proof.
  assert (Herr : forall msg,
            fst (error msg s) = Ret tt /\
            variables (snd (error msg s)) = variables s /\
            failed_tests (snd (error msg s)) <> []).
  { intros msg. rewrite (error_ret msg s). cbn [fst snd].
    split; [reflexivity|]. split; [apply variables_error | apply error_records]. }
  unfold cmd_def_var. destruct args as [|n rest].
  { destruct (Herr "DEF_VAR指令缺少参数。格式: DEF_VAR <$VAR> [Value]") as (H1 & H2 & H3).
    split; [exact H1|]. right. auto. }
  destruct (Py.startswith "$" n) eqn:Hn; cbn [negb].
  2:{ destruct (Herr ("变量名必须以 $ 开头: " ++ n)) as (H1 & H2 & H3).
      split; [exact H1|]. right. split; [exact H2|]. split; [exact H3|].
      right. left. exists n. auto. }
  destruct rest as [|a more].
  - rewrite (bind_ret _ _ s (Some 0%float) s) by reflexivity.
    split; [reflexivity|]. left. exists n, 0%float.
    cbn [fst snd modify]. destruct (set_variables_keeps (<[n:=0%float]> (variables s)) s)
      as (K1 & K2 & K3).
    split; [reflexivity|]. split; [exact Hn|]. split; [reflexivity|]. auto.
  - destruct (parse_value_cases a s) as [[v Hv]|[m Hm]].
    + assert (E : try_except (v0 <- parse_value a ;; ret (Some v0))
                    (fun e => error ("变量初始值解析失败: " ++ exn_str e) ;; ret None) s
                  = (Ret (Some v), s)).
      { apply try_except_ret. step_bind Hv. reflexivity. }
      step_bind E. split; [reflexivity|]. left. exists n, v.
      cbn [fst snd modify]. destruct (set_variables_keeps (<[n:=v]> (variables s)) s)
        as (K1 & K2 & K3).
      split; [reflexivity|]. split; [exact Hn|]. split; [exact Hv|]. auto.
    + set (msg := ("变量初始值解析失败: " ++ m)%string).
      assert (E : try_except (v0 <- parse_value a ;; ret (Some v0))
                    (fun e => error ("变量初始值解析失败: " ++ exn_str e) ;; ret None) s
                  = (Ret None, snd (error msg s))).
      { rewrite (try_except_raise _ _ s (ValueError m) s);
          [| now step_raise Hm | reflexivity].
        cbn [exn_str]. fold msg. step_bind (error_ret msg s). reflexivity. }
      step_bind E. destruct (Herr msg) as (H1 & H2 & H3).
      split; [reflexivity|]. right. cbn [fst snd ret].
      split; [exact H2|]. split; [exact H3|]. right. right. exists a, m. auto.
Qed.

Lemma error_keeps_variables msg s0 s :
  variables s0 = variables s ->
  variables (snd (error msg s0)) = variables s /\
  failed_tests (snd (error msg s0)) <> [].
Proof. intros H. rewrite variables_error. split; [exact H | apply error_records]. Qed.

(** X12: [SET_VAR] never creates a variable: the set of defined names is
    the same before and after, whatever its arguments.  It always returns,
    and either it records an error and leaves the store as it was, or it
    was given a defined name and a value that parses, records nothing and
    stores that value under that name (only there), so that the name then
    reads back as that value. *)
Theorem set_var_updates_or_reports (args : list string) (s : TestRunner) :
  fst (cmd_set_var args s) = Ret tt /\
  dom (variables (snd (cmd_set_var args s))) = dom (variables s) /\
  ((exists n tok v,
      args = [n; tok] /\ is_Some (variables s !! n) /\
      parse_value tok s = (Ret v, s) /\
      variables (snd (cmd_set_var args s)) = <[n := v]> (variables s) /\
      failed_tests (snd (cmd_set_var args s)) = failed_tests s /\
      (Py.strip n = n ->
       parse_value n (snd (cmd_set_var args s)) =
         (Ret v, snd (cmd_set_var args s)))) \/
   (variables (snd (cmd_set_var args s)) = variables s /\
    failed_tests (snd (cmd_set_var args s)) <> [])).
Proof.
  assert (Herr : forall msg,
            cmd_set_var args s = error msg s ->
            fst (cmd_set_var args s) = Ret tt /\
            dom (variables (snd (cmd_set_var args s))) = dom (variables s) /\
            (variables (snd (cmd_set_var args s)) = variables s /\
             failed_tests (snd (cmd_set_var args s)) <> [])).
  { intros msg ->. rewrite (error_ret msg s). cbn [fst snd].
    destruct (error_keeps_variables msg s s eq_refl) as [H1 H2].
    rewrite H1. auto. }
  assert (Hgo : forall msg,
            cmd_set_var args s = error msg s ->
            fst (cmd_set_var args s) = Ret tt /\
            dom (variables (snd (cmd_set_var args s))) = dom (variables s) /\
            ((exists n tok v,
                args = [n; tok] /\ is_Some (variables s !! n) /\
                parse_value tok s = (Ret v, s) /\
                variables (snd (cmd_set_var args s)) = <[n := v]> (variables s) /\
                failed_tests (snd (cmd_set_var args s)) = failed_tests s /\
                (Py.strip n = n ->
                 parse_value n (snd (cmd_set_var args s)) =
                   (Ret v, snd (cmd_set_var args s)))) \/
             (variables (snd (cmd_set_var args s)) = variables s /\
              failed_tests (snd (cmd_set_var args s)) <> []))).
  { intros msg E. destruct (Herr msg E) as (H1 & H2 & H3). auto. }
  destruct args as [|n [|tok [|x more]]]; try (eapply Hgo; reflexivity).
  destruct (Py.startswith "$" n) eqn:Hn.
  2:{ eapply Hgo. unfold cmd_set_var. rewrite Hn. reflexivity. }
  destruct (variables s !! n) as [v0|] eqn:Hl.
  2:{ eapply Hgo. unfold cmd_set_var. rewrite Hn. cbn [negb].
      step_bind (eq_refl : get s = (Ret s, s)). rewrite Hl. reflexivity. }
  destruct (parse_value_cases tok s) as [[v Hv]|[m Hm]].
  - assert (E : cmd_set_var [n; tok] s =
                (Ret tt, set_variables (<[n := v]> (variables s)) s)).
    { unfold cmd_set_var. rewrite Hn. cbn [negb].
      step_bind (eq_refl : get s = (Ret s, s)). rewrite Hl.
      apply try_except_ret. step_bind Hv. reflexivity. }
    rewrite E. cbn [fst snd].
    destruct (set_variables_keeps (<[n := v]> (variables s)) s) as (K1 & K2 & K3).
    rewrite K1. split; [reflexivity|]. split.
    + apply dom_insert_lookup_L. rewrite Hl. eauto.
    + left. exists n, tok, v. split; [reflexivity|]. split; [rewrite Hl; eauto|].
      split; [exact Hv|]. split; [reflexivity|]. split; [exact K2|].
      intros Hs. unfold parse_value. rewrite Hs, Hn. unfold bind, get.
      rewrite K1, lookup_insert_eq. reflexivity.
  - eapply Hgo. unfold cmd_set_var. rewrite Hn. cbn [negb].
    step_bind (eq_refl : get s = (Ret s, s)). rewrite Hl.
    rewrite (try_except_raise _ _ s (ValueError m) s);
      [reflexivity | now step_raise Hm | reflexivity].
Qed.

Lemma cmd_read_cases w args s :
  (exists msg s0, cmd_read w args s = error msg s0 /\ variables s0 = variables s) \/
  (exists r s0, cmd_read w args s = (r, s0) /\ variables s0 = variables s /\
                failed_tests s0 = failed_tests s /\ heap s0 = heap s) \/
  (exists ch to n out err v s0,
     args = [ch; to; n] /\ is_Some (variables s !! n) /\
     tool_at w (clock s) = Exited 0 out err /\
     PyFloat.parse (Py.strip out) = Some v /\
     cmd_read w args s = (Ret tt, s0) /\
     variables s0 = <[n := v]> (variables s) /\
     failed_tests s0 = failed_tests s /\ heap s0 = heap s).
Proof.
  assert (Hsyn : forall msg, cmd_read w args s = error msg s ->
            exists msg s0, cmd_read w args s = error msg s0 /\
                           variables s0 = variables s) by eauto.
  destruct args as [|ch [|to [|n [|x more]]]]; try (left; eapply Hsyn; reflexivity).
  destruct (String.eqb (Py.upper to) "TO") eqn:Hto.
  2:{ left. eapply Hsyn. unfold cmd_read. rewrite Hto. reflexivity. }
  destruct (Py.startswith "$" n) eqn:Hn.
  2:{ left. eapply Hsyn. unfold cmd_read. rewrite Hto, Hn. reflexivity. }
  destruct (variables s !! n) as [v0|] eqn:Hl.
  2:{ left. eapply Hsyn. unfold cmd_read. rewrite Hto, Hn. cbn [negb].
      step_bind (eq_refl : get s = (Ret s, s)). rewrite Hl. reflexivity. }
  unfold cmd_read. rewrite Hto, Hn. cbn [negb].
  step_bind (eq_refl : get s = (Ret s, s)). rewrite Hl.
  set (cmd := with_config s _ _ _). set (desc := ("读取通道 " ++ _)%string).
  destruct (tool_called_keeps cmd s) as (_ & _ & Kf & Kh & Kv).
  pose proof (run_external_tool_spec w cmd desc s) as Hspec.
  destruct (tool_at w (clock s)) as [rc out err|m|] eqn:Ht.
  - destruct (Z.eqb_spec rc 0) as [->|Hrc].
    + step_bind Hspec. destruct (Py.strip out) as [|c0 o] eqn:Eo.
      * right. left. cbn [Py.is_empty]. eexists _, _. split; [reflexivity|]. auto.
      * cbn [Py.is_empty]. rewrite <- Eo.
        destruct (PyFloat.parse (Py.strip out)) as [v|] eqn:Ep.
        -- right. right. exists ch, to, n, out, err, v.
           exists (set_variables (<[n := v]> (variables (tool_called cmd s)))
                     (tool_called cmd s)).
           split; [reflexivity|]. split; [rewrite Hl; eauto|].
           split; [reflexivity|]. split; [exact Ep|]. split.
           ++ apply try_except_ret.
              assert (Ef : float_of_str (Py.strip out) (tool_called cmd s) =
                           (Ret v, tool_called cmd s))
                by (unfold float_of_str; now rewrite Ep).
              step_bind Ef. reflexivity.
           ++ destruct (set_variables_keeps
                          (<[n := v]> (variables (tool_called cmd s)))
                          (tool_called cmd s)) as (K1 & K2 & K3).
              rewrite K1, K2, K3, Kv. auto.
        -- left. exists ("读取失败，返回值非数字: " ++ Py.strip out)%string,
             (tool_called cmd s).
           split; [|exact Kv].
           rewrite (try_except_raise _ _ (tool_called cmd s)
                      (ValueError ("could not convert string to float: "
                                   ++ PyRepr.repr (Py.strip out)))
                      (tool_called cmd s)); [reflexivity | | reflexivity].
           apply bind_raise. unfold float_of_str. now rewrite Ep.
    + step_bind Hspec. left.
      exists ("工具执行失败 [" ++ desc ++ "]: " ++ Py.strip err)%string,
        (tool_called cmd s).
      split; [symmetry; apply error_ret | exact Kv].
  - step_bind Hspec. left.
    exists ("系统异常 [" ++ desc ++ "]: " ++ m)%string, (tool_called cmd s).
    split; [symmetry; apply error_ret | exact Kv].
  - step_raise Hspec. right. left. eexists _, _. split; [reflexivity|]. auto.
Qed.

(** X13: [READ] writes a variable only after the tool exited with status
    0 and printed something that [float] accepts, and then stores exactly
    that number under the target, which was already defined, recording
    nothing; in every other case the variable store is left as it was.
    So [READ] never creates a variable either. *)
Theorem read_writes_a_number_or_nothing (w : world) (args : list string)
    (s : TestRunner) :
  dom (variables (snd (cmd_read w args s))) = dom (variables s) /\
  (variables (snd (cmd_read w args s)) = variables s \/
   exists ch to n out err v,
     args = [ch; to; n] /\ is_Some (variables s !! n) /\
     tool_at w (clock s) = Exited 0 out err /\
     PyFloat.parse (Py.strip out) = Some v /\
     fst (cmd_read w args s) = Ret tt /\
     variables (snd (cmd_read w args s)) = <[n := v]> (variables s) /\
     failed_tests (snd (cmd_read w args s)) = failed_tests s).
Proof.
  destruct (cmd_read_cases w args s)
    as [(msg & s0 & -> & Hv)|[(r & s0 & -> & Hv & _)|
        (ch & to & n & out & err & v & s0 & -> & Hs & Ht & Hp & -> & Hv & Hf & _)]];
    cbn [fst snd].
  - rewrite variables_error, Hv. auto.
  - rewrite Hv. auto.
  - rewrite Hv. split; [now apply dom_insert_lookup_L|].
    right. exists ch, to, n, out, err, v. auto 10.
Qed.

(** ** The list of failures *)

Lemma has_blank_app a b : has_blank (a ++ b) = has_blank a || has_blank b.
Proof. induction a as [|c a IH]; simpl; [reflexivity|]. now rewrite IH, orb_assoc. Qed.

Lemma has_blank_rev_onto s acc :
  has_blank (Py.rev_onto s acc) = has_blank s || has_blank acc.
Proof.
  revert acc. induction s as [|c s IH]; intros acc; simpl; [reflexivity|].
  rewrite IH. simpl. destruct (Py.is_space c), (has_blank s), (has_blank acc); reflexivity.
Qed.

Lemma split_from_no_blank s cur :
  has_blank cur = false ->
  Forall (fun tok => has_blank tok = false) (Py.split_from cur s).
Proof.
  revert cur. induction s as [|c s IH]; intros cur H; simpl.
  - destruct cur as [|c' cur]; [constructor|]. constructor; [|constructor].
    unfold Py.rev. now rewrite has_blank_rev_onto, H.
  - destruct (Py.is_space c) eqn:E.
    + destruct cur as [|c' cur]; [now apply IH|]. constructor; [|now apply IH].
      unfold Py.rev. now rewrite has_blank_rev_onto, H.
    + apply IH. simpl. now rewrite E, H.
Qed.

Lemma command_of_no_blank line c args :
  command_of line = Some (c, args) -> Forall (fun tok => has_blank tok = false) args.
Proof.
  unfold command_of. pose proof (split_from_no_blank line "" eq_refl) as H.
  fold (Py.split line) in H. destruct (Py.split line) as [|p0 l]; [discriminate|].
  intros [= <- <-]. now inversion H.
Qed.

Lemma failed_entry_blank s : has_blank (failed_entry s) = true.
Proof. unfold failed_entry. rewrite has_blank_app. apply orb_true_r. Qed.

Lemma ids_ok_not_in s : ids_ok s -> current_test_id s ∉ failed_tests s.
Proof.
  intros [Hi Hf] Hin. rewrite Forall_forall in Hf. specialize (Hf _ Hin). congruence.
Qed.

Lemma error_ids_ok msg s :
  ids_ok s ->
  failed_tests (snd (error msg s)) = (failed_tests s ++ [failed_entry s])%list /\
  ids_ok (snd (error msg s)).
Proof.
  intros H. pose proof (ids_ok_not_in s H) as Hn. destruct H as [Hi Hf].
  pose proof (failed_entry_blank s) as Hb.
  rewrite error_spec. destruct (bool_decide_reflect (current_test_id s ∈ failed_tests s));
    [contradiction|].
  destruct s as [v c f h tr cur i ti ca cl]; simpl in *.
  split; [reflexivity|]. split; [exact Hi|].
  apply Forall_app. split; [exact Hf | repeat constructor; exact Hb].
Qed.

Lemma prim_ids_ok s s' : prim false s s' -> ids_ok s -> ids_ok s'.
Proof.
  intros H Hs. inversion H; subst; try discriminate.
  - destruct s; exact Hs.
  - destruct s; exact Hs.
  - destruct s; exact Hs.
  - destruct s; exact Hs.
  - now apply error_ids_ok.
  - rewrite update_current_spec. destruct s as [? ? ? ? ? [?|] ? ? ? ?]; exact Hs.
  - rewrite update_current_spec. destruct s as [? ? ? ? ? [?|] ? ? ? ?]; exact Hs.
Qed.

Lemma steps_ids_ok s s' : steps false s s' -> ids_ok s -> ids_ok s'.
Proof. induction 1; eauto using prim_ids_ok. Qed.

Lemma cmd_test_ids_ok args s :
  Forall (fun tok => has_blank tok = false) args ->
  ids_ok s -> ids_ok (snd (cmd_test args s)).
Proof.
  intros Ha [Hi Hf]. destruct args as [|a0 rest].
  - rewrite cmd_test_nil. unfold ids_ok, finalize_current.
    destruct s as [? ? ? ? ? [?|] ? ? ? ?]; simpl in *; auto.
  - rewrite cmd_test_cons. unfold ids_ok, finalize_current.
    inversion Ha; subst.
    destruct s as [? ? ? ? ? [?|] ? ? ? ?]; simpl in *; auto.
Qed.

Lemma run_lines_ids_ok w lines :
  forall s, ids_ok s -> ids_ok (snd (run_lines w lines s)).
Proof.
  induction lines as [|line rest IH]; intros s Hs; [exact Hs|].
  rewrite run_lines_cons. destruct (skipped line) eqn:Sk; [now apply IH|].
  assert (H1 : ids_ok (snd (execute_line w (Py.strip line) s))).
  { destruct (test_args line) as [args|] eqn:E.
    - apply test_args_Some in E as [_ E].
      rewrite (execute_line_test _ _ _ E).
      apply cmd_test_ids_ok; [|exact Hs]. eapply command_of_no_blank; exact E.
    - eapply steps_ids_ok; [|exact Hs].
      apply Steps_execute_line_other. now apply test_args_None_other. }
  unfold bind. destruct (execute_line w (Py.strip line) s) as [[[]|e] s1];
    [apply IH|]; exact H1.
Qed.

Lemma failed_entry_error msg s : failed_entry (snd (error msg s)) = failed_entry s.
Proof.
  rewrite error_spec. destruct s as [? ? ? ? ? [?|] ? ? ? ?]; reflexivity.
Qed.

Lemma ids_ok_init : ids_ok init.
Proof. split; [reflexivity | constructor]. Qed.

(** X14: the check of [error] against duplicates never holds.  It looks
    for the bare id of the current case in a list whose entries have the
    form [id (title)]; an id is one word of the script (or the placeholder
    N/A) and an entry holds a blank, so in whatever state a script has
    brought the interpreter to, the id is not in the list and every call
    of [error] appends one more entry: a case that fails twice, even with
    the same message, is listed twice in the summary of the run. *)
Theorem error_appends_an_entry_each_time (w : world) (lines : list string)
    (msg msg' : string) :
  let s := snd (run_lines w lines init) in
  (current_test_id s ∉ failed_tests s) /\
  failed_tests (snd (error msg s)) = (failed_tests s ++ [failed_entry s])%list /\
  failed_tests (snd (error msg' (snd (error msg s)))) =
    (failed_tests s ++ [failed_entry s; failed_entry s])%list /\
  printed_failures
    (run w_ok (FileLines ["TEST T1 a"; "CHECK_DIFF 1 2 0.5"; "CHECK_DIFF 1 2 0.5"]))
    = ["T1 (a)"; "T1 (a)"].
Proof.
  intros s. pose proof (run_lines_ids_ok w lines init ids_ok_init) as Hs.
  fold s in Hs. destruct (error_ids_ok msg s Hs) as [E1 Hs1].
  destruct (error_ids_ok msg' _ Hs1) as [E2 _].
  split; [now apply ids_ok_not_in|]. split; [exact E1|]. split; [|reflexivity].
  rewrite E2, E1, <- app_assoc, failed_entry_error. reflexivity.
Qed.

(** ** Lines that raise *)

Lemma OnlyInterrupt_raises {A} (m : M A) s e :
  OnlyInterrupt m -> fst (m s) = Raise e -> e = KeyboardInterrupt.
Proof. intros H E. specialize (H s). now rewrite E in H. Qed.

Lemma OnlyInterrupt_returns {A} (m : M A) : Returns m -> OnlyInterrupt m.
Proof. intros H s. destruct (H s) as [a ->]. exact I. Qed.

Lemma OnlyInterrupt_ret {A} (a : A) : OnlyInterrupt (ret a).
Proof. intros s. exact I. Qed.

Lemma OnlyInterrupt_interrupt {A} : OnlyInterrupt (@raise A KeyboardInterrupt).
Proof. intros s. reflexivity. Qed.

Lemma OnlyInterrupt_get : OnlyInterrupt get.
Proof. intros s. exact I. Qed.

Lemma OnlyInterrupt_modify f : OnlyInterrupt (modify f).
Proof. intros s. exact I. Qed.

Lemma OnlyInterrupt_next_reading : OnlyInterrupt next_reading.
Proof. intros s. exact I. Qed.

Lemma OnlyInterrupt_bind {A B} (m : M A) (k : A -> M B) :
  OnlyInterrupt m -> (forall a, OnlyInterrupt (k a)) -> OnlyInterrupt (bind m k).
Proof.
  intros Hm Hk s. unfold bind. specialize (Hm s).
  destruct (m s) as [[a|e] s1]; simpl in *; [apply Hk | exact Hm].
Qed.

(** What [try: ... except Exception] lets through is the interrupt, whatever
    the body does. *)
Lemma OnlyInterrupt_try {A} (m : M A) (h : exn -> M A) :
  (forall e, OnlyInterrupt (h e)) -> OnlyInterrupt (try_except m h).
Proof.
  intros Hh s. unfold try_except. destruct (m s) as [[a|e] s1]; simpl; [exact I|].
  destruct e; simpl; try apply Hh. reflexivity.
Qed.

Create HintDb interrupt_db.
#[export] Hint Resolve OnlyInterrupt_ret OnlyInterrupt_interrupt OnlyInterrupt_get
  OnlyInterrupt_modify OnlyInterrupt_next_reading OnlyInterrupt_returns
  Returns_error Returns_update_current Returns_cmd_check_range
  Returns_cmd_check_diff : interrupt_db.

Ltac interrupt_split :=
  repeat first
    [ solve [auto with interrupt_db]
    | apply OnlyInterrupt_bind; [| intros ?]
    | apply OnlyInterrupt_try; intros ?
    | match goal with
      | |- OnlyInterrupt (if ?b then _ else _) => destruct b
      | |- OnlyInterrupt (match ?x with _ => _ end) => destruct x
      end ].

Section InterruptOfCommands.

Context (w : world).

Lemma OnlyInterrupt_run_external_tool cmd desc :
  OnlyInterrupt (run_external_tool w cmd desc).
Proof. unfold run_external_tool. interrupt_split. Qed.

Lemma OnlyInterrupt_sleep_1 : OnlyInterrupt (sleep w 1%float).
Proof.
  change (sleep w 1%float)
    with (k <- next_reading ;;
          if interrupt_at w k then raise KeyboardInterrupt else ret tt).
  interrupt_split.
Qed.

#[local] Hint Resolve OnlyInterrupt_run_external_tool OnlyInterrupt_sleep_1
  : interrupt_db.

Lemma OnlyInterrupt_cmd_def_var args : OnlyInterrupt (cmd_def_var args).
Proof. unfold cmd_def_var. interrupt_split. Qed.

Lemma OnlyInterrupt_cmd_config args : OnlyInterrupt (cmd_config args).
Proof. unfold cmd_config. interrupt_split. Qed.

Lemma OnlyInterrupt_cmd_power_on args : OnlyInterrupt (cmd_power_on w args).
Proof. unfold cmd_power_on. interrupt_split. Qed.

Lemma OnlyInterrupt_cmd_power_off args : OnlyInterrupt (cmd_power_off w args).
Proof. unfold cmd_power_off. interrupt_split. Qed.

Lemma OnlyInterrupt_cmd_power_cycle args : OnlyInterrupt (cmd_power_cycle w args).
Proof.
  unfold cmd_power_cycle.
  apply OnlyInterrupt_bind; [apply OnlyInterrupt_cmd_power_off | intros _].
  apply OnlyInterrupt_bind; [apply OnlyInterrupt_sleep_1 | intros _].
  interrupt_split.
Qed.

Lemma OnlyInterrupt_cmd_res_set a rest : OnlyInterrupt (cmd_res_set w (a :: rest)).
Proof.
  unfold cmd_res_set.
  apply OnlyInterrupt_bind; [intros s; exact I | intros ?]. interrupt_split.
Qed.

Lemma OnlyInterrupt_cmd_res_open args : OnlyInterrupt (cmd_res_open w args).
Proof. unfold cmd_res_open. interrupt_split. Qed.

Lemma OnlyInterrupt_cmd_res_close args : OnlyInterrupt (cmd_res_close w args).
Proof. unfold cmd_res_close. interrupt_split. Qed.

Lemma OnlyInterrupt_cmd_screenshot args : OnlyInterrupt (cmd_screenshot w args).
Proof. unfold cmd_screenshot. interrupt_split. Qed.

Lemma OnlyInterrupt_cmd_read args : OnlyInterrupt (cmd_read w args).
Proof. unfold cmd_read. interrupt_split. Qed.

Lemma OnlyInterrupt_cmd_set_var args : OnlyInterrupt (cmd_set_var args).
Proof. unfold cmd_set_var. interrupt_split. Qed.

(** [WAIT] with an argument: the text is read, then the process sleeps. *)
Lemma cmd_wait_cons a more s :
  cmd_wait w (a :: more) s =
  match PyFloat.parse a with
  | None =>
      (Raise (ValueError ("could not convert string to float: " ++ PyRepr.repr a)), s)
  | Some sec => sleep w sec s
  end.
Proof.
  unfold cmd_wait, item, float_of_str, bind. simpl.
  destruct (PyFloat.parse a); reflexivity.
Qed.

Lemma sleep_raises sec s e :
  fst (sleep w sec s) = Raise e ->
  e = KeyboardInterrupt \/
  (negb (is_nan sec) &&
   negb ((sec * 1000000000 <? -9223372036854775808)%float ||
         (9223372036854775808 <=? sec * 1000000000)%float) &&
   negb (sec <? 0)%float = false /\
   is_Exception e = true /\ snd (sleep w sec s) = s).
Proof.
  unfold sleep. destruct (is_nan sec); [intros [= <-]; right; auto|].
  destruct (_ || _); [intros [= <-]; right; auto|].
  destruct (_ <? _)%float; [intros [= <-]; right; auto|].
  unfold bind, next_reading. simpl.
  destruct (interrupt_at w (clock s)); simpl; [intros [= <-]; now left | discriminate].
Qed.

End InterruptOfCommands.

(** X15: a line of a script raises, and so ends the run, for three reasons
    only: the operator's interrupt; the keyword [TEST], [RES_SET] or [WAIT]
    with no argument (an [IndexError]); [WAIT] with a duration that is no
    number or that [time.sleep] refuses (not a number, negative, too
    large), in which case nothing is recorded at all.  Every other line,
    whatever its arguments and whatever the tools do, returns. *)
Theorem a_line_raises_for_three_reasons (w : world) (line : string)
    (s : TestRunner) (e : exn) :
  fst (execute_line w line s) = Raise e ->
  e = KeyboardInterrupt \/
  (e = IndexError "list index out of range" /\
   exists c, c ∈ ["TEST"; "RES_SET"; "WAIT"] /\ command_of line = Some (c, [])) \/
  (exists a more,
     command_of line = Some ("WAIT", a :: more) /\ duration_ok a = false /\
     is_Exception e = true /\ snd (execute_line w line s) = s).
Proof.
  unfold execute_line, command_of.
  destruct (Py.split line) as [|p0 args]; [discriminate|].
  destruct (String.eqb_spec (Py.upper p0) "TEST") as [E|_].
  { destruct args as [|a0 rest]; [|rewrite cmd_test_cons; discriminate].
    rewrite cmd_test_nil. intros [= <-]. right. left. split; [reflexivity|].
    exists "TEST". rewrite E. split; [set_solver | reflexivity]. }
  destruct (String.eqb (Py.upper p0) "DEF_VAR");
    [intros H; left; exact (OnlyInterrupt_raises _ _ _ (OnlyInterrupt_cmd_def_var _) H)|].
  destruct (String.eqb (Py.upper p0) "CONFIG");
    [intros H; left; exact (OnlyInterrupt_raises _ _ _ (OnlyInterrupt_cmd_config _) H)|].
  destruct (String.eqb (Py.upper p0) "POWER_ON");
    [intros H; left; exact (OnlyInterrupt_raises _ _ _ (OnlyInterrupt_cmd_power_on w _) H)|].
  destruct (String.eqb (Py.upper p0) "POWER_OFF");
    [intros H; left; exact (OnlyInterrupt_raises _ _ _ (OnlyInterrupt_cmd_power_off w _) H)|].
  destruct (String.eqb (Py.upper p0) "POWER_CYCLE");
    [intros H; left; exact (OnlyInterrupt_raises _ _ _ (OnlyInterrupt_cmd_power_cycle w _) H)|].
  destruct (String.eqb_spec (Py.upper p0) "RES_SET") as [E|_].
  { destruct args as [|a0 rest].
    - intros [= <-]. right. left. split; [reflexivity|].
      exists "RES_SET". rewrite E. split; [set_solver | reflexivity].
    - intros H. left.
      exact (OnlyInterrupt_raises _ _ _ (OnlyInterrupt_cmd_res_set w _ _) H). }
  destruct (String.eqb (Py.upper p0) "RES_OPEN");
    [intros H; left; exact (OnlyInterrupt_raises _ _ _ (OnlyInterrupt_cmd_res_open w _) H)|].
  destruct (String.eqb (Py.upper p0) "RES_CLOSE");
    [intros H; left; exact (OnlyInterrupt_raises _ _ _ (OnlyInterrupt_cmd_res_close w _) H)|].
  destruct (String.eqb (Py.upper p0) "SCREENSHOT");
    [intros H; left; exact (OnlyInterrupt_raises _ _ _ (OnlyInterrupt_cmd_screenshot w _) H)|].
  destruct (String.eqb_spec (Py.upper p0) "WAIT") as [E|_].
  { destruct args as [|a more].
    - intros [= <-]. right. left. split; [reflexivity|].
      exists "WAIT". rewrite E. split; [set_solver | reflexivity].
    - rewrite cmd_wait_cons, E.
      destruct (PyFloat.parse a) as [sec|] eqn:Ep.
      + intros H. destruct (sleep_raises w sec s e H) as [->|(H1 & H2 & H3)];
          [now left|].
        right. right. exists a, more. unfold duration_ok. rewrite Ep.
        split; [reflexivity|]. split; [exact H1|]. split; [exact H2 | exact H3].
      + intros [= <-]. right. right. exists a, more. unfold duration_ok. rewrite Ep.
        split; [reflexivity|]. split; [reflexivity|]. split; reflexivity. }
  destruct (String.eqb (Py.upper p0) "READ");
    [intros H; left; exact (OnlyInterrupt_raises _ _ _ (OnlyInterrupt_cmd_read w _) H)|].
  destruct (String.eqb (Py.upper p0) "SET_VAR");
    [intros H; left; exact (OnlyInterrupt_raises _ _ _ (OnlyInterrupt_cmd_set_var _) H)|].
  destruct (String.eqb (Py.upper p0) "CHECK_RANGE").
  { intros H. destruct (Returns_cmd_check_range args s) as [a Ha]. congruence. }
  destruct (String.eqb (Py.upper p0) "CHECK_DIFF").
  { intros H. destruct (Returns_cmd_check_diff args s) as [a Ha]. congruence. }
  intros H. destruct (Returns_error ("未知指令: " ++ Py.upper p0) s) as [a Ha]. congruence.
Qed.

Lemma a_line_raises_for_three_reasons_witness :
  duration_ok "-1" = false /\
  snd (execute_line w_ok "WAIT -1" init) = init.
Proof.
  destruct (a_line_raises_for_three_reasons w_ok "WAIT -1" init
              (ValueError "sleep length must be non-negative") eq_refl)
    as [H|[[H _]|(a & more & H1 & H2 & _ & H4)]].
  - discriminate H.
  - discriminate H.
  - injection H1 as <- <-. split; [exact H2 | exact H4].
Defined.

(** ** Screenshots *)

Lemma cmd_screenshot_spec w args s :
  cmd_screenshot w args s =
  (run_external_tool w (shot_call w args s) ("截图 " ++ shot_file w args s) ;;
   update_current (add_note (shot_link w args s))) (set_clock (S (clock s)) s).
Proof. destruct s; reflexivity. Qed.

Lemma error_current msg s :
  current_test_data (snd (error msg s)) = current_test_data s.
Proof. exact (frame_current _ _ (prim_frame _ _ (prim_error false msg s))). Qed.

(** X16: [SCREENSHOT] links the picture in the report whatever the tool
    did.  With a test case open and no interrupt, it returns after one
    invocation of the oscilloscope tool, and the note of the open case
    ends with the link to the file it asked for: after a successful
    capture the case is otherwise as before, after a failed one (non-zero
    exit, or the tool could not be started) the case is FAIL, the failure
    is recorded, and the link, to a picture that was not taken, is there
    all the same. *)
Theorem screenshot_is_linked_whatever_the_tool_does (w : world)
    (args : list string) (s : TestRunner) (r : nat) (td : test_data) :
  current_test_data s = Some r -> deref s r = Some td ->
  tool_at w (S (clock s)) <> Interrupted ->
  fst (cmd_screenshot w args s) = Ret tt /\
  calls (snd (cmd_screenshot w args s)) = (calls s ++ [shot_call w args s])%list /\
  ((exists o e,
      tool_at w (S (clock s)) = Exited 0 o e /\
      deref (snd (cmd_screenshot w args s)) r =
        Some (add_note (shot_link w args s) td) /\
      failed_tests (snd (cmd_screenshot w args s)) = failed_tests s) \/
   (exists msg,
      (forall o e, tool_at w (S (clock s)) <> Exited 0 o e) /\
      deref (snd (cmd_screenshot w args s)) r =
        Some (add_note (shot_link w args s) (mark_failed msg td)) /\
      failed_tests (snd (cmd_screenshot w args s)) <> [])).
Proof.
  intros Hc Hd Hi. rewrite cmd_screenshot_spec.
  set (cmd := shot_call w args s). set (desc := ("截图 " ++ _)%string).
  set (link := shot_link w args s). set (s1 := set_clock (S (clock s)) s).
  assert (H1 : current_test_data s1 = Some r /\ deref s1 r = Some td /\
               calls s1 = calls s /\ failed_tests s1 = failed_tests s)
    by (subst s1; destruct s; auto).
  destruct H1 as (Hc1 & Hd1 & Hca1 & Hf1).
  destruct (tool_called_keeps cmd s1) as (Kc & Kd & Kf & _ & _).
  assert (Kca : calls (tool_called cmd s1) = (calls s ++ [cmd])%list)
    by (rewrite <- Hca1; destruct s1; reflexivity).
  pose proof (run_external_tool_spec w cmd desc s1) as Hspec.
  change (clock s1) with (S (clock s)) in Hspec.
  assert (Hfail : forall msg,
            run_external_tool w cmd desc s1 =
              (Ret None, snd (error msg (tool_called cmd s1))) ->
            (forall o e, tool_at w (S (clock s)) <> Exited 0 o e) ->
            fst ((run_external_tool w cmd desc ;;
                  update_current (add_note link)) s1) = Ret tt /\
            calls (snd ((run_external_tool w cmd desc ;;
                         update_current (add_note link)) s1)) =
              (calls s ++ [cmd])%list /\
            ((exists o e,
                tool_at w (S (clock s)) = Exited 0 o e /\
                deref (snd ((run_external_tool w cmd desc ;;
                             update_current (add_note link)) s1)) r =
                  Some (add_note link td) /\
                failed_tests (snd ((run_external_tool w cmd desc ;;
                                    update_current (add_note link)) s1)) =
                  failed_tests s) \/
             (exists msg,
                (forall o e, tool_at w (S (clock s)) <> Exited 0 o e) /\
                deref (snd ((run_external_tool w cmd desc ;;
                             update_current (add_note link)) s1)) r =
                  Some (add_note link (mark_failed msg td)) /\
                failed_tests (snd ((run_external_tool w cmd desc ;;
                                    update_current (add_note link)) s1)) <> []))).
  { intros msg E Hne. step_bind E. rewrite update_current_ret. cbn [fst snd].
    set (s2 := snd (error msg (tool_called cmd s1))).
    assert (Hc2 : current_test_data s2 = Some r)
      by (subst s2; rewrite error_current, Kc; exact Hc1).
    assert (Hd2 : deref s2 r = Some (mark_failed msg td)).
    { subst s2. apply error_deref; [rewrite Kc; exact Hc1 | rewrite Kd; exact Hd1]. }
    destruct (update_current_deref (add_note link) s2 r _ Hc2 Hd2) as [Hd3 _].
    destruct (stores_update_current (add_note link) s2) as (_ & _ & Eca & _ & Ef).
    destruct (stores_error msg (tool_called cmd s1)) as (_ & _ & Eca' & _).
    split; [reflexivity|]. split; [rewrite Eca; subst s2; rewrite Eca'; exact Kca|].
    right. exists msg. split; [exact Hne|]. split; [exact Hd3|].
    rewrite Ef. subst s2. apply error_records. }
  destruct (tool_at w (S (clock s))) as [rc out err|m|] eqn:Ht; [| |contradiction].
  - destruct (Z.eqb_spec rc 0) as [->|Hrc].
    + step_bind Hspec. rewrite update_current_ret. cbn [fst snd].
      set (s2 := tool_called cmd s1) in *.
      assert (Hc2 : current_test_data s2 = Some r) by (rewrite Kc; exact Hc1).
      assert (Hd2 : deref s2 r = Some td) by (rewrite Kd; exact Hd1).
      destruct (update_current_deref (add_note link) s2 r _ Hc2 Hd2) as [Hd3 _].
      destruct (stores_update_current (add_note link) s2) as (_ & _ & Eca & _ & Ef).
      split; [reflexivity|]. split; [rewrite Eca; exact Kca|].
      left. exists out, err. split; [reflexivity|]. split; [exact Hd3|].
      rewrite Ef, Kf. exact Hf1.
    + eapply Hfail; [exact Hspec|]. intros o e [= -> _ _]. now apply Hrc.
  - eapply Hfail; [exact Hspec|]. intros o e. discriminate.
Qed.

Lemma screenshot_is_linked_whatever_the_tool_does_witness :
  deref (snd (cmd_screenshot w_ok ["boot"] s_open)) 0%nat =
    Some (TestData "T1" "a" "PASS" [] []
            "![boot](screen_shot/T1_boot_120000.png) ").
Proof.
  destruct (screenshot_is_linked_whatever_the_tool_does w_ok ["boot"] s_open 0%nat
              (TestData "T1" "a" "PASS" [] [] "") eq_refl eq_refl)
    as (_ & _ & [(o & e & _ & H & _)|(msg & Hne & _)]).
  - discriminate.
  - exact H.
  - destruct (Hne "2.58" "" eq_refl).
Defined.

(** ** Power cycling *)

Lemma with_config_config s s' key flag cmd :
  config s' = config s -> with_config s' key flag cmd = with_config s key flag cmd.
Proof. unfold with_config. now intros ->. Qed.

Lemma run_external_tool_outcome w cmd desc s :
  (tool_at w (clock s) = Interrupted ->
   fst (run_external_tool w cmd desc s) = Raise KeyboardInterrupt) /\
  (tool_at w (clock s) <> Interrupted ->
   exists o, fst (run_external_tool w cmd desc s) = Ret o) /\
  config (snd (run_external_tool w cmd desc s)) = config s /\
  (failed_tests s <> [] -> failed_tests (snd (run_external_tool w cmd desc s)) <> []) /\
  ((forall o e, tool_at w (clock s) <> Exited 0 o e) ->
   tool_at w (clock s) <> Interrupted ->
   failed_tests (snd (run_external_tool w cmd desc s)) <> []).
Proof.
  rewrite run_external_tool_spec.
  assert (Hc : config (tool_called cmd s) = config s) by (destruct s; reflexivity).
  assert (Hf : failed_tests (tool_called cmd s) = failed_tests s)
    by (destruct s; reflexivity).
  assert (He : forall msg, config (snd (error msg (tool_called cmd s))) = config s).
  { intros msg. destruct (stores_error msg (tool_called cmd s)) as (_ & -> & _).
    exact Hc. }
  destruct (tool_at w (clock s)) as [rc out err|m|].
  - destruct (Z.eqb_spec rc 0) as [->|Hrc]; cbn [fst snd].
    + split; [discriminate|]. split; [eauto|]. split; [exact Hc|].
      split; [now rewrite Hf|]. intros H. destruct (H out err eq_refl).
    + split; [discriminate|]. split; [eauto|]. split; [apply He|].
      split; intros; apply error_records.
  - cbn [fst snd]. split; [discriminate|]. split; [eauto|]. split; [apply He|].
    split; intros; apply error_records.
  - cbn [fst snd]. split; [reflexivity|]. split; [congruence|]. split; [exact Hc|].
    split; [now rewrite Hf|]. congruence.
Qed.

Lemma sleep_1_spec w s :
  sleep w 1%float s =
  (if interrupt_at w (clock s) then Raise KeyboardInterrupt else Ret tt,
   set_clock (S (clock s)) s).
Proof.
  change (sleep w 1%float)
    with (k <- next_reading ;;
          if interrupt_at w k then raise KeyboardInterrupt else ret tt).
  unfold bind, next_reading. destruct (interrupt_at w (clock s)); reflexivity.
Qed.

(** X17: [POWER_CYCLE] switches the supply off, waits, and switches it on
    again, with the configured address both times and whatever arguments
    it was given.  A failed power-off is recorded but does not stop it:
    the supply is switched on all the same.  Only an interrupt, of the
    power-off tool or during the wait, stops it before the second
    invocation, and then the interrupt is raised with the supply left
    off. *)
Theorem power_cycle_switches_off_then_on (w : world) (args : list string)
    (s : TestRunner) :
  (tool_at w (clock s) = Interrupted \/ interrupt_at w (S (clock s)) = true ->
   fst (cmd_power_cycle w args s) = Raise KeyboardInterrupt /\
   calls (snd (cmd_power_cycle w args s)) = (calls s ++ [power_off_call w s])%list) /\
  (tool_at w (clock s) <> Interrupted -> interrupt_at w (S (clock s)) = false ->
   calls (snd (cmd_power_cycle w args s)) =
     (calls s ++ [power_off_call w s; power_on_again_call w s])%list /\
   (tool_at w (S (S (clock s))) <> Interrupted ->
    fst (cmd_power_cycle w args s) = Ret tt) /\
   (tool_at w (S (S (clock s))) = Interrupted ->
    fst (cmd_power_cycle w args s) = Raise KeyboardInterrupt) /\
   ((forall o e, tool_at w (clock s) <> Exited 0 o e) ->
    failed_tests (snd (cmd_power_cycle w args s)) <> [])).
Proof.
  assert (E0 : cmd_power_cycle w args s =
    match run_external_tool w (power_off_call w s) "电源下电" s with
    | (Ret _, s1) =>
        if interrupt_at w (clock s1)
        then (Raise KeyboardInterrupt, set_clock (S (clock s1)) s1)
        else
          match run_external_tool w (power_on_again_call w s1)
                  "电源上电 (恢复输出)" (set_clock (S (clock s1)) s1) with
          | (Ret _, s3) => (Ret tt, s3)
          | (Raise e, s3) => (Raise e, s3)
          end
    | (Raise e, s1) => (Raise e, s1)
    end).
  { unfold cmd_power_cycle, cmd_power_off, bind, get, power_off_call.
    destruct (run_external_tool w _ _ s) as [[o|e] s1]; [|reflexivity].
    unfold ret. cbv beta iota zeta. rewrite sleep_1_spec.
    destruct (interrupt_at w (clock s1)); [reflexivity|].
    unfold power_on_again_call.
    change (with_config (set_clock (S (clock s1)) s1)) with (with_config s1).
    destruct (run_external_tool w _ _ _) as [[o'|e'] s3]; reflexivity. }
  rewrite E0. clear E0.
  destruct (calls_run_external_tool w (power_off_call w s) "电源下电" s) as [Hca Hcl].
  destruct (run_external_tool_outcome w (power_off_call w s) "电源下电" s)
    as (Hi & Hr & Hcf & _ & Hfail).
  destruct (run_external_tool w (power_off_call w s) "电源下电" s) as [[o|e] s1];
    cbn [fst snd] in *.
  - assert (Hni : tool_at w (clock s) <> Interrupted)
      by (intros H; discriminate (Hi H)).
    rewrite Hcl.
    assert (E1 : power_on_again_call w s1 = power_on_again_call w s)
      by (apply with_config_config; exact Hcf).
    rewrite E1. set (s2 := set_clock (S (S (clock s))) s1).
    assert (Hs2 : calls s2 = calls s1 /\ failed_tests s2 = failed_tests s1)
      by (subst s2; destruct s1; auto).
    destruct Hs2 as [Hs2c Hs2f].
    destruct (calls_run_external_tool w (power_on_again_call w s)
                "电源上电 (恢复输出)" s2) as [Hca2 _].
    destruct (run_external_tool_outcome w (power_on_again_call w s)
                "电源上电 (恢复输出)" s2) as (Hi2 & Hr2 & _ & Hkeep & _).
    change (clock s2) with (S (S (clock s))) in Hi2, Hr2.
    destruct (interrupt_at w (S (clock s))) eqn:Ei.
    + split.
      * intros _. cbn [fst snd]. split; [reflexivity|]. now rewrite Hs2c.
      * intros _ H. discriminate H.
    + split.
      * intros [H|H]; [contradiction | discriminate].
      * intros _ _.
        destruct (run_external_tool w (power_on_again_call w s)
                    "电源上电 (恢复输出)" s2) as [[o2|e2] s3]; cbn [fst snd] in *.
        -- split; [rewrite Hca2, Hs2c, Hca, <- app_assoc; reflexivity|].
           split; [reflexivity|]. split; [intros H; discriminate (Hi2 H)|].
           intros H. apply Hkeep. rewrite Hs2f. now apply Hfail.
        -- split; [rewrite Hca2, Hs2c, Hca, <- app_assoc; reflexivity|].
           split; [intros H; destruct (Hr2 H) as [? ?]; discriminate|].
           split; [intros H; injection (Hi2 H) as ->; reflexivity|].
           intros H. apply Hkeep. rewrite Hs2f. now apply Hfail.
  - destruct (tool_at w (clock s)) as [rc out err|m|] eqn:Ht.
    + destruct Hr as [? ?]; discriminate.
    + destruct Hr as [? ?]; discriminate.
    + split.
      * intros _. split; [injection (Hi eq_refl) as ->; reflexivity | exact Hca].
      * intros H. destruct (H eq_refl).
Qed.

(** ** The configuration and the tools *)

Lemma cmd_config_cons key value more s :
  cmd_config (key :: value :: more) s =
  (Ret tt, set_config (<[Py.upper key := value]> (config s)) s).
Proof. reflexivity. Qed.

Lemma with_config_insert s key value k flag cmd :
  value <> "" ->
  with_config (set_config (<[key := value]> (config s)) s) k flag cmd =
  if String.eqb k key then (cmd ++ [flag; value])%list else with_config s k flag cmd.
Proof.
  intros Hv. unfold with_config.
  replace (config (set_config (<[key := value]> (config s)) s))
    with (<[key := value]> (config s)) by (destruct s; reflexivity).
  destruct (String.eqb_spec k key) as [->|Hk].
  - rewrite lookup_insert_eq. destruct value; [contradiction | reflexivity].
  - rewrite lookup_insert_ne by congruence. reflexivity.
Qed.

(** X18: what [CONFIG] stores reaches the tools.  [CONFIG key value]
    always returns and records nothing, whatever the key; from then on the
    option of the key (taken in upper case) is added, with that value, to
    the command line of every tool that consults it, and the options of
    the other keys are as before.  So after [CONFIG power_addr A] the
    power supply is switched on with [-a A], and after [CONFIG res_port P]
    the resistance is set with [-p P]. *)
Theorem configured_address_reaches_the_tool (w : world) (key value : string)
    (more : list string) (s : TestRunner) :
  value <> "" ->
  fst (cmd_config (key :: value :: more) s) = Ret tt /\
  failed_tests (snd (cmd_config (key :: value :: more) s)) = failed_tests s /\
  (forall k flag cmd,
     with_config (snd (cmd_config (key :: value :: more) s)) k flag cmd =
     if String.eqb k (Py.upper key) then (cmd ++ [flag; value])%list
     else with_config s k flag cmd) /\
  (Py.upper key = "POWER_ADDR" -> forall args,
     calls (snd (cmd_power_on w args (snd (cmd_config (key :: value :: more) s)))) =
     (calls s ++
      [[python_exe w; PATH_POWER_CTRL; "-v"; default "12.0" (args !! 0%nat);
        "-c"; default "2.0" (args !! 1%nat); "-o"; "on"; "-a"; value]])%list) /\
  (Py.upper key = "RES_PORT" -> forall a rest,
     calls (snd (cmd_res_set w (a :: rest)
                   (snd (cmd_config (key :: value :: more) s)))) =
     (calls s ++
      [[python_exe w; PATH_RES_CTRL; "-v"; a; "--action"; "connect";
        "-p"; value]])%list).
Proof.
  intros Hv. rewrite cmd_config_cons. cbn [fst snd].
  set (s1 := set_config (<[Py.upper key := value]> (config s)) s).
  assert (Hs1 : failed_tests s1 = failed_tests s /\ calls s1 = calls s)
    by (subst s1; destruct s; auto).
  destruct Hs1 as [Hf Hc].
  split; [reflexivity|]. split; [exact Hf|].
  split; [intros k flag cmd; now apply with_config_insert|].
  split.
  - intros Hk args. unfold cmd_power_on.
    step_bind (eq_refl : get s1 = (Ret s1, s1)). unfold bind.
    destruct (calls_run_external_tool w
                (with_config s1 "POWER_ADDR" "-a"
                   [python_exe w; PATH_POWER_CTRL; "-v"; default "12.0" (args !! 0%nat);
                    "-c"; default "2.0" (args !! 1%nat); "-o"; "on"])
                ("电源上电 " ++ default "12.0" (args !! 0%nat) ++ "V " ++
                 default "2.0" (args !! 1%nat) ++ "A") s1) as [H _].
    destruct (run_external_tool w _ _ s1) as [[o|e] s2]; cbn [fst snd] in H;
      cbv beta iota zeta delta [ret fst snd];
      rewrite H, Hc; subst s1; rewrite (with_config_insert _ _ _ _ _ _ Hv), Hk;
      reflexivity.
  - intros Hk a rest. unfold cmd_res_set.
    step_bind (eq_refl : item (a :: rest) 0 s1 = (Ret a, s1)).
    step_bind (eq_refl : get s1 = (Ret s1, s1)). unfold bind.
    destruct (calls_run_external_tool w
                (with_config s1 "RES_PORT" "-p"
                   [python_exe w; PATH_RES_CTRL; "-v"; a; "--action"; "connect"])
                ("设置电阻 " ++ a) s1) as [H _].
    destruct (run_external_tool w _ _ s1) as [[o|e] s2]; cbn [fst snd] in H;
      cbv beta iota zeta delta [ret fst snd];
      rewrite H, Hc; subst s1; rewrite (with_config_insert _ _ _ _ _ _ Hv), Hk;
      reflexivity.
Qed.

Lemma configured_address_reaches_the_tool_witness :
  calls (snd (cmd_power_on w_ok ["5.0"]
                (snd (cmd_config ["power_addr"; "USB0"] init)))) =
  [["python"; "power_ctrl/power_ctrl_cli.py"; "-v"; "5.0"; "-c"; "2.0";
    "-o"; "on"; "-a"; "USB0"]].
Proof.
  destruct (configured_address_reaches_the_tool w_ok "power_addr" "USB0" [] init)
    as (_ & _ & _ & H & _).
  - discriminate.
  - exact (H eq_refl ["5.0"]).
Defined.

(** ** What a run only adds to *)

Lemma grows_refl s : grows s s.
Proof. split; reflexivity. Qed.

Lemma grows_trans a b c : grows a b -> grows b c -> grows a c.
Proof. intros [] []. split; etrans; eassumption. Qed.

Section GrowsOfMethods.

Lemma Grows_ret {A} (a : A) : Grows (ret a).
Proof. intros s. apply grows_refl. Qed.

Lemma Grows_raise {A} (e : exn) : Grows (@raise A e).
Proof. intros s. apply grows_refl. Qed.

Lemma Grows_get : Grows get.
Proof. intros s. apply grows_refl. Qed.

Lemma Grows_bind {A B} (m : M A) (k : A -> M B) :
  Grows m -> (forall a, Grows (k a)) -> Grows (bind m k).
Proof.
  intros Hm Hk s. unfold bind. specialize (Hm s).
  destruct (m s) as [[a|e] s1]; simpl in *; [|exact Hm].
  eapply grows_trans; [exact Hm | apply Hk].
Qed.

Lemma Grows_try {A} (m : M A) (h : exn -> M A) :
  Grows m -> (forall e, Grows (h e)) -> Grows (try_except m h).
Proof.
  intros Hm Hh s. unfold try_except. specialize (Hm s).
  destruct (m s) as [[a|e] s1]; simpl in *; [exact Hm|].
  destruct (is_Exception e); simpl; [|exact Hm].
  eapply grows_trans; [exact Hm | apply Hh].
Qed.

Lemma Grows_update_current f : Grows (update_current f).
Proof.
  intros s. rewrite update_current_spec.
  destruct s as [v c fl h tr [r|] i ti ca cl]; split; simpl;
    rewrite ?length_alter; reflexivity.
Qed.

Lemma Grows_error msg : Grows (error msg).
Proof.
  intros s. rewrite error_spec.
  destruct s as [v c fl h tr cur i ti ca cl]; split; simpl; try reflexivity.
  - destruct (bool_decide _); [reflexivity | now apply prefix_app_r].
  - destruct cur; rewrite ?length_alter; reflexivity.
Qed.

Lemma Grows_next_reading : Grows next_reading.
Proof. intros s. destruct s; split; simpl; try reflexivity. lia. Qed.

Lemma Grows_call cmd : Grows (modify (fun s => set_calls (calls s ++ [cmd]) s)).
Proof.
  intros s. destruct s; split; simpl; try reflexivity. now apply prefix_app_r.
Qed.

Lemma Grows_store_variable n (v : float) :
  Grows (modify (fun s => set_variables (<[n := v]> (variables s)) s)).
Proof.
  intros s. destruct s; split; simpl; try reflexivity. apply dom_insert_subseteq.
Qed.

Lemma Grows_store_config k (v : string) :
  Grows (modify (fun s => set_config (<[k := v]> (config s)) s)).
Proof.
  intros s. destruct s; split; simpl; try reflexivity. apply dom_insert_subseteq.
Qed.

Lemma Grows_item args i : Grows (item args i).
Proof. unfold item. destruct (args !! i); [apply Grows_ret | apply Grows_raise]. Qed.

Lemma Grows_float_of_str x : Grows (float_of_str x).
Proof.
  unfold float_of_str. destruct (PyFloat.parse x); [apply Grows_ret | apply Grows_raise].
Qed.

Lemma Grows_cmd_test args : Grows (cmd_test args).
Proof.
  intros s. destruct args as [|a0 rest]; [rewrite cmd_test_nil | rewrite cmd_test_cons];
    unfold open_case, finalize_current;
    destruct s as [v c fl h tr [r|] i ti ca cl]; split; simpl;
    rewrite ?length_app; try reflexivity; try lia; now apply prefix_app_r.
Qed.

End GrowsOfMethods.

Create HintDb grows_db.

Ltac grows_split :=
  repeat first
    [ apply Grows_ret | apply Grows_raise | apply Grows_get
    | apply Grows_error | apply Grows_update_current
    | apply Grows_store_variable | apply Grows_store_config
    | apply Grows_call | apply Grows_next_reading
    | apply Grows_item | apply Grows_float_of_str
    | apply Grows_bind; [| intros ?]
    | apply Grows_try; [| intros ?]
    | match goal with
      | |- Grows (if ?b then _ else _) => destruct b
      | |- Grows (match ?x with _ => _ end) => destruct x
      end ].

Section GrowsOfCommands.

Context (w : world).

Lemma Grows_run_external_tool cmd desc : Grows (run_external_tool w cmd desc).
Proof. unfold run_external_tool. grows_split. Qed.

Lemma Grows_parse_value tok : Grows (parse_value tok).
Proof. unfold parse_value. grows_split. Qed.

Lemma Grows_sleep sec : Grows (sleep w sec).
Proof. unfold sleep. grows_split. Qed.

#[local] Hint Resolve Grows_run_external_tool Grows_parse_value Grows_sleep
  : grows_db.

Lemma Grows_cmd_def_var args : Grows (cmd_def_var args).
Proof. unfold cmd_def_var. grows_split; auto with grows_db. Qed.

Lemma Grows_cmd_config args : Grows (cmd_config args).
Proof. unfold cmd_config. grows_split; auto with grows_db. Qed.

Lemma Grows_cmd_power_on args : Grows (cmd_power_on w args).
Proof. unfold cmd_power_on. grows_split; auto with grows_db. Qed.

Lemma Grows_cmd_power_off args : Grows (cmd_power_off w args).
Proof. unfold cmd_power_off. grows_split; auto with grows_db. Qed.

Lemma Grows_cmd_power_cycle args : Grows (cmd_power_cycle w args).
Proof. unfold cmd_power_cycle. grows_split; auto using Grows_cmd_power_off with grows_db. Qed.

Lemma Grows_cmd_res_set args : Grows (cmd_res_set w args).
Proof. unfold cmd_res_set. grows_split; auto with grows_db. Qed.

Lemma Grows_cmd_res_open args : Grows (cmd_res_open w args).
Proof. unfold cmd_res_open. grows_split; auto with grows_db. Qed.

Lemma Grows_cmd_res_close args : Grows (cmd_res_close w args).
Proof. unfold cmd_res_close. grows_split; auto with grows_db. Qed.

Lemma Grows_cmd_screenshot args : Grows (cmd_screenshot w args).
Proof. unfold cmd_screenshot. grows_split; auto with grows_db. Qed.

Lemma Grows_cmd_wait args : Grows (cmd_wait w args).
Proof. unfold cmd_wait. grows_split; auto with grows_db. Qed.

Lemma Grows_cmd_read args : Grows (cmd_read w args).
Proof. unfold cmd_read. grows_split; auto with grows_db. Qed.

Lemma Grows_cmd_set_var args : Grows (cmd_set_var args).
Proof. unfold cmd_set_var. grows_split; auto with grows_db. Qed.

Lemma Grows_cmd_check_range args : Grows (cmd_check_range args).
Proof. unfold cmd_check_range. grows_split; auto with grows_db. Qed.

Lemma Grows_cmd_check_diff args : Grows (cmd_check_diff args).
Proof. unfold cmd_check_diff. grows_split; auto with grows_db. Qed.

Lemma Grows_execute_line line : Grows (execute_line w line).
Proof.
  unfold execute_line. destruct (Py.split line) as [|p0 args]; [apply Grows_ret|].
  repeat match goal with
         | |- Grows (if ?b then _ else _) => destruct b
         end;
    auto using Grows_cmd_test, Grows_cmd_def_var, Grows_cmd_config,
      Grows_cmd_power_on, Grows_cmd_power_off, Grows_cmd_power_cycle,
      Grows_cmd_res_set, Grows_cmd_res_open, Grows_cmd_res_close,
      Grows_cmd_screenshot, Grows_cmd_wait, Grows_cmd_read, Grows_cmd_set_var,
      Grows_cmd_check_range, Grows_cmd_check_diff, Grows_error.
Qed.

Lemma Grows_run_lines lines : Grows (run_lines w lines).
Proof.
  induction lines as [|line rest IH]; [apply Grows_ret|].
  rewrite run_lines_cons. destruct (skipped line); [exact IH|].
  apply Grows_bind; [apply Grows_execute_line | intros _; exact IH].
Qed.

End GrowsOfCommands.

(** X19: a script only adds to the interpreter, from whatever state it
    starts and however it ends.  The list of failures, the list of tool
    invocations and the finalized list are only extended; no test case
    disappears; every variable and every configuration key that was
    defined is still defined (no command undefines one); so a failure,
    once recorded, is there when the run ends, and a name that
    [parse_value] could read can be read after any further lines. *)
Theorem a_script_only_adds (w : world) (lines : list string) (s : TestRunner) :
  grows s (snd (run_lines w lines s)) /\
  (failed_tests s <> [] -> failed_tests (snd (run_lines w lines s)) <> []) /\
  (forall x v, Py.strip x = x -> parse_value x s = (Ret v, s) ->
     Py.startswith "$" x = true ->
     exists v', parse_value x (snd (run_lines w lines s)) =
                  (Ret v', snd (run_lines w lines s))).
Proof.
  pose proof (Grows_run_lines w lines s) as H. split; [exact H|]. split.
  - intros Hne E. destruct (grows_failed _ _ H) as [k Hk]. rewrite E in Hk.
    destruct (failed_tests s); [contradiction | discriminate].
  - intros x v Hx Hp Hd. unfold parse_value in *. rewrite Hx, Hd in *.
    unfold bind, get in *.
    destruct (variables s !! x) as [v0|] eqn:E; [|discriminate].
    assert (Hin : x ∈ dom (variables (snd (run_lines w lines s)))).
    { apply (grows_variables _ _ H). apply elem_of_dom. rewrite E. eauto. }
    apply elem_of_dom in Hin as [v' ->]. eauto.
Qed.

(** * Stores that a command does not look at *)

(** ** The variable store *)

Section IgnoresVariables.

Lemma ignores_variables_ret {A} (a : A) : ignores_variables (ret a).
Proof. intros s v. reflexivity. Qed.

Lemma ignores_variables_raise {A} (e : exn) : ignores_variables (@raise A e).
Proof. intros s v. reflexivity. Qed.

Lemma ignores_variables_bind {A B} (m : M A) (k : A -> M B) :
  ignores_variables m -> (forall a, ignores_variables (k a)) ->
  ignores_variables (bind m k).
Proof.
  intros Hm Hk s v. unfold bind. rewrite (Hm s v).
  destruct (m s) as [[a|e] s1]; simpl; [apply Hk | reflexivity].
Qed.

Lemma ignores_variables_try {A} (m : M A) (h : exn -> M A) :
  ignores_variables m -> (forall e, ignores_variables (h e)) ->
  ignores_variables (try_except m h).
Proof.
  intros Hm Hh s v. unfold try_except. rewrite (Hm s v).
  destruct (m s) as [[a|e] s1]; simpl; [reflexivity|].
  destruct (is_Exception e); [apply Hh | reflexivity].
Qed.

(** A method that reads the interpreter, but nothing of the variables. *)
Lemma ignores_variables_get {A} (k : TestRunner -> M A) :
  (forall s v, k (set_variables v s) = k s) ->
  (forall s, ignores_variables (k s)) ->
  ignores_variables (bind get k).
Proof. intros Hk Hi s v. unfold bind, get. rewrite Hk. apply Hi. Qed.

Lemma ignores_variables_modify (f : TestRunner -> TestRunner) :
  (forall s v, f (set_variables v s) = set_variables v (f s)) ->
  ignores_variables (modify f).
Proof. intros Hf s v. unfold modify. now rewrite Hf. Qed.

Lemma ignores_variables_update_current f : ignores_variables (update_current f).
Proof.
  apply ignores_variables_modify. intros [? ? ? ? ? [?|] ? ? ? ?] v; reflexivity.
Qed.

Lemma ignores_variables_error msg : ignores_variables (error msg).
Proof.
  apply ignores_variables_bind; [|intros _; apply ignores_variables_update_current].
  apply ignores_variables_modify. intros [? ? ? ? ? ? ? ? ? ?] v; simpl.
  destruct (bool_decide _); reflexivity.
Qed.

Lemma ignores_variables_next_reading : ignores_variables next_reading.
Proof. intros [? ? ? ? ? ? ? ? ? ?] v. reflexivity. Qed.

Lemma ignores_variables_item args i : ignores_variables (item args i).
Proof.
  unfold item. destruct (args !! i);
    [apply ignores_variables_ret | apply ignores_variables_raise].
Qed.

Lemma ignores_variables_float_of_str x : ignores_variables (float_of_str x).
Proof.
  unfold float_of_str. destruct (PyFloat.parse x);
    [apply ignores_variables_ret | apply ignores_variables_raise].
Qed.

End IgnoresVariables.

Ltac ignores_variables_split :=
  repeat first
    [ apply ignores_variables_ret | apply ignores_variables_raise
    | apply ignores_variables_error | apply ignores_variables_update_current
    | apply ignores_variables_next_reading
    | apply ignores_variables_item | apply ignores_variables_float_of_str
    | match goal with
      | |- ignores_variables (bind get _) =>
          apply ignores_variables_get; [intros ? ?; reflexivity | intros ?]
      | |- ignores_variables (modify _) =>
          apply ignores_variables_modify; intros [? ? ? ? ? ? ? ? ? ?] ?; reflexivity
      | |- ignores_variables (bind _ _) => apply ignores_variables_bind; [| intros ?]
      | |- ignores_variables (try_except _ _) =>
          apply ignores_variables_try; [| intros ?]
      | |- ignores_variables (if ?b then _ else _) => destruct b
      | |- ignores_variables (match ?x with _ => _ end) => destruct x
      end ].

Section IgnoresVariablesCommands.

Context (w : world).

Lemma ignores_variables_run_external_tool cmd desc :
  ignores_variables (run_external_tool w cmd desc).
Proof. unfold run_external_tool. ignores_variables_split. Qed.

Lemma ignores_variables_sleep sec : ignores_variables (sleep w sec).
Proof. unfold sleep. ignores_variables_split. Qed.

Lemma ignores_variables_cmd_test args : ignores_variables (cmd_test args).
Proof.
  unfold cmd_test.
  apply ignores_variables_bind.
  { apply ignores_variables_modify. intros [? ? ? ? ? [?|] ? ? ? ?] v; reflexivity. }
  intros _. ignores_variables_split.
Qed.

Lemma ignores_variables_cmd_config args : ignores_variables (cmd_config args).
Proof. unfold cmd_config. ignores_variables_split. Qed.

Lemma ignores_variables_cmd_power_on args : ignores_variables (cmd_power_on w args).
Proof.
  unfold cmd_power_on.
  apply ignores_variables_get; [intros ? ?; reflexivity | intros s0].
  apply ignores_variables_bind; [apply ignores_variables_run_external_tool|].
  intros _. apply ignores_variables_ret.
Qed.

Lemma ignores_variables_cmd_power_off args : ignores_variables (cmd_power_off w args).
Proof.
  unfold cmd_power_off.
  apply ignores_variables_get; [intros ? ?; reflexivity | intros s0].
  apply ignores_variables_bind; [apply ignores_variables_run_external_tool|].
  intros _. apply ignores_variables_ret.
Qed.

Lemma ignores_variables_cmd_power_cycle args :
  ignores_variables (cmd_power_cycle w args).
Proof.
  unfold cmd_power_cycle.
  apply ignores_variables_bind; [apply ignores_variables_cmd_power_off | intros _].
  apply ignores_variables_bind; [apply ignores_variables_sleep | intros _].
  apply ignores_variables_get; [intros ? ?; reflexivity | intros s0].
  apply ignores_variables_bind; [apply ignores_variables_run_external_tool|].
  intros _. apply ignores_variables_ret.
Qed.

Lemma ignores_variables_cmd_res_set args : ignores_variables (cmd_res_set w args).
Proof.
  unfold cmd_res_set.
  apply ignores_variables_bind; [apply ignores_variables_item | intros val].
  apply ignores_variables_get; [intros ? ?; reflexivity | intros s0].
  apply ignores_variables_bind; [apply ignores_variables_run_external_tool|].
  intros _. apply ignores_variables_ret.
Qed.

Lemma ignores_variables_cmd_res_open args : ignores_variables (cmd_res_open w args).
Proof.
  unfold cmd_res_open.
  apply ignores_variables_get; [intros ? ?; reflexivity | intros s0].
  apply ignores_variables_bind; [apply ignores_variables_run_external_tool|].
  intros _. apply ignores_variables_ret.
Qed.

Lemma ignores_variables_cmd_res_close args : ignores_variables (cmd_res_close w args).
Proof.
  unfold cmd_res_close.
  apply ignores_variables_get; [intros ? ?; reflexivity | intros s0].
  apply ignores_variables_bind; [apply ignores_variables_run_external_tool|].
  intros _. apply ignores_variables_ret.
Qed.

Lemma ignores_variables_cmd_screenshot args :
  ignores_variables (cmd_screenshot w args).
Proof.
  unfold cmd_screenshot.
  apply ignores_variables_bind; [apply ignores_variables_next_reading | intros k].
  apply ignores_variables_get; [intros ? ?; reflexivity | intros s0].
  apply ignores_variables_bind; [apply ignores_variables_run_external_tool|].
  intros _. apply ignores_variables_update_current.
Qed.

Lemma ignores_variables_cmd_wait args : ignores_variables (cmd_wait w args).
Proof.
  unfold cmd_wait.
  apply ignores_variables_bind; [apply ignores_variables_item | intros a0].
  apply ignores_variables_bind; [apply ignores_variables_float_of_str | intros sec].
  apply ignores_variables_sleep.
Qed.

(** The lines that resolve no variable: every keyword but the five that
    hand a token to [parse_value] or check a target. *)
Lemma ignores_variables_execute_line line c :
  keyword line = Some c ->
  c ∉ ["DEF_VAR"; "SET_VAR"; "READ"; "CHECK_RANGE"; "CHECK_DIFF"] ->
  ignores_variables (execute_line w line).
Proof.
  unfold keyword, command_of, execute_line.
  destruct (Py.split line) as [|p0 args]; [discriminate|].
  intros [= <-] Hc.
  destruct (String.eqb (Py.upper p0) "TEST"); [apply ignores_variables_cmd_test|].
  destruct (String.eqb_spec (Py.upper p0) "DEF_VAR") as [E|_];
    [exfalso; apply Hc; rewrite E; set_solver|].
  destruct (String.eqb (Py.upper p0) "CONFIG"); [apply ignores_variables_cmd_config|].
  destruct (String.eqb (Py.upper p0) "POWER_ON");
    [apply ignores_variables_cmd_power_on|].
  destruct (String.eqb (Py.upper p0) "POWER_OFF");
    [apply ignores_variables_cmd_power_off|].
  destruct (String.eqb (Py.upper p0) "POWER_CYCLE");
    [apply ignores_variables_cmd_power_cycle|].
  destruct (String.eqb (Py.upper p0) "RES_SET"); [apply ignores_variables_cmd_res_set|].
  destruct (String.eqb (Py.upper p0) "RES_OPEN");
    [apply ignores_variables_cmd_res_open|].
  destruct (String.eqb (Py.upper p0) "RES_CLOSE");
    [apply ignores_variables_cmd_res_close|].
  destruct (String.eqb (Py.upper p0) "SCREENSHOT");
    [apply ignores_variables_cmd_screenshot|].
  destruct (String.eqb (Py.upper p0) "WAIT"); [apply ignores_variables_cmd_wait|].
  destruct (String.eqb_spec (Py.upper p0) "READ") as [E|_];
    [exfalso; apply Hc; rewrite E; set_solver|].
  destruct (String.eqb_spec (Py.upper p0) "SET_VAR") as [E|_];
    [exfalso; apply Hc; rewrite E; set_solver|].
  destruct (String.eqb_spec (Py.upper p0) "CHECK_RANGE") as [E|_];
    [exfalso; apply Hc; rewrite E; set_solver|].
  destruct (String.eqb_spec (Py.upper p0) "CHECK_DIFF") as [E|_];
    [exfalso; apply Hc; rewrite E; set_solver|].
  apply ignores_variables_error.
Qed.

End IgnoresVariablesCommands.

(** ** The list of failures *)

Section IgnoresFailures.

Lemma ignores_failures_ret {A} (a : A) : ignores_failures (ret a).
Proof. intros s f. exists f. reflexivity. Qed.

Lemma ignores_failures_raise {A} (e : exn) : ignores_failures (@raise A e).
Proof. intros s f. exists f. reflexivity. Qed.

Lemma ignores_failures_bind {A B} (m : M A) (k : A -> M B) :
  ignores_failures m -> (forall a, ignores_failures (k a)) ->
  ignores_failures (bind m k).
Proof.
  intros Hm Hk s f. destruct (Hm s f) as [f1 E1]. unfold bind. rewrite E1.
  destruct (m s) as [[a|e] s1]; simpl; [apply Hk | exists f1; reflexivity].
Qed.

Lemma ignores_failures_try {A} (m : M A) (h : exn -> M A) :
  ignores_failures m -> (forall e, ignores_failures (h e)) ->
  ignores_failures (try_except m h).
Proof.
  intros Hm Hh s f. destruct (Hm s f) as [f1 E1]. unfold try_except. rewrite E1.
  destruct (m s) as [[a|e] s1]; simpl; [exists f1; reflexivity|].
  destruct (is_Exception e); [apply Hh | exists f1; reflexivity].
Qed.

(** A method that reads the interpreter, but nothing of the failures. *)
Lemma ignores_failures_get {A} (k : TestRunner -> M A) :
  (forall s f, k (set_failed_tests f s) = k s) ->
  (forall s, ignores_failures (k s)) ->
  ignores_failures (bind get k).
Proof. intros Hk Hi s f. unfold bind, get. rewrite Hk. apply Hi. Qed.

Lemma ignores_failures_modify (g : TestRunner -> TestRunner) :
  (forall s f, g (set_failed_tests f s) = set_failed_tests f (g s)) ->
  ignores_failures (modify g).
Proof. intros Hg s f. exists f. unfold modify. now rewrite Hg. Qed.

Lemma ignores_failures_update_current g : ignores_failures (update_current g).
Proof.
  apply ignores_failures_modify. intros [? ? ? ? ? [?|] ? ? ? ?] f; reflexivity.
Qed.

(** [error] looks at the list of failures only to extend it. *)
Lemma ignores_failures_error msg : ignores_failures (error msg).
Proof.
  intros s f. rewrite !error_spec.
  destruct s as [v c fl h tr cur i ti ca cl]. simpl. eexists. reflexivity.
Qed.

Lemma ignores_failures_next_reading : ignores_failures next_reading.
Proof. intros [? ? ? ? ? ? ? ? ? ?] f. exists f. reflexivity. Qed.

Lemma ignores_failures_item args i : ignores_failures (item args i).
Proof.
  unfold item. destruct (args !! i);
    [apply ignores_failures_ret | apply ignores_failures_raise].
Qed.

Lemma ignores_failures_float_of_str x : ignores_failures (float_of_str x).
Proof.
  unfold float_of_str. destruct (PyFloat.parse x);
    [apply ignores_failures_ret | apply ignores_failures_raise].
Qed.

End IgnoresFailures.

Create HintDb failures_db.

Ltac ignores_failures_split :=
  repeat first
    [ apply ignores_failures_ret | apply ignores_failures_raise
    | apply ignores_failures_error | apply ignores_failures_update_current
    | apply ignores_failures_next_reading
    | apply ignores_failures_item | apply ignores_failures_float_of_str
    | solve [auto with failures_db]
    | match goal with
      | |- ignores_failures (bind get _) =>
          apply ignores_failures_get; [intros ? ?; reflexivity | intros ?]
      | |- ignores_failures (modify _) =>
          apply ignores_failures_modify;
          intros [? ? ? ? ? [?|] ? ? ? ?] ?; reflexivity
      | |- ignores_failures (bind _ _) => apply ignores_failures_bind; [| intros ?]
      | |- ignores_failures (try_except _ _) =>
          apply ignores_failures_try; [| intros ?]
      | |- ignores_failures (if ?b then _ else _) => destruct b
      | |- ignores_failures (match ?x with _ => _ end) => destruct x
      end ].

Section IgnoresFailuresCommands.

Context (w : world).

Lemma ignores_failures_run_external_tool cmd desc :
  ignores_failures (run_external_tool w cmd desc).
Proof. unfold run_external_tool. ignores_failures_split. Qed.

Lemma ignores_failures_parse_value tok : ignores_failures (parse_value tok).
Proof. unfold parse_value. ignores_failures_split. Qed.

Lemma ignores_failures_sleep sec : ignores_failures (sleep w sec).
Proof. unfold sleep. ignores_failures_split. Qed.

#[local] Hint Resolve ignores_failures_run_external_tool
  ignores_failures_parse_value ignores_failures_sleep : failures_db.

Lemma ignores_failures_cmd_test args : ignores_failures (cmd_test args).
Proof. unfold cmd_test. ignores_failures_split. Qed.

Lemma ignores_failures_cmd_def_var args : ignores_failures (cmd_def_var args).
Proof. unfold cmd_def_var. ignores_failures_split. Qed.

Lemma ignores_failures_cmd_config args : ignores_failures (cmd_config args).
Proof. unfold cmd_config. ignores_failures_split. Qed.

Lemma ignores_failures_cmd_power_on args : ignores_failures (cmd_power_on w args).
Proof. unfold cmd_power_on. ignores_failures_split. Qed.

Lemma ignores_failures_cmd_power_off args : ignores_failures (cmd_power_off w args).
Proof. unfold cmd_power_off. ignores_failures_split. Qed.

Lemma ignores_failures_cmd_power_cycle args :
  ignores_failures (cmd_power_cycle w args).
Proof.
  unfold cmd_power_cycle.
  apply ignores_failures_bind; [apply ignores_failures_cmd_power_off | intros _].
  ignores_failures_split.
Qed.

Lemma ignores_failures_cmd_res_set args : ignores_failures (cmd_res_set w args).
Proof. unfold cmd_res_set. ignores_failures_split. Qed.

Lemma ignores_failures_cmd_res_open args : ignores_failures (cmd_res_open w args).
Proof. unfold cmd_res_open. ignores_failures_split. Qed.

Lemma ignores_failures_cmd_res_close args : ignores_failures (cmd_res_close w args).
Proof. unfold cmd_res_close. ignores_failures_split. Qed.

Lemma ignores_failures_cmd_screenshot args :
  ignores_failures (cmd_screenshot w args).
Proof. unfold cmd_screenshot. ignores_failures_split. Qed.

Lemma ignores_failures_cmd_wait args : ignores_failures (cmd_wait w args).
Proof. unfold cmd_wait. ignores_failures_split. Qed.

Lemma ignores_failures_cmd_read args : ignores_failures (cmd_read w args).
Proof. unfold cmd_read. ignores_failures_split. Qed.

Lemma ignores_failures_cmd_set_var args : ignores_failures (cmd_set_var args).
Proof. unfold cmd_set_var. ignores_failures_split. Qed.

Lemma ignores_failures_cmd_check_range args :
  ignores_failures (cmd_check_range args).
Proof. unfold cmd_check_range. ignores_failures_split. Qed.

Lemma ignores_failures_cmd_check_diff args : ignores_failures (cmd_check_diff args).
Proof. unfold cmd_check_diff. ignores_failures_split. Qed.

Lemma ignores_failures_execute_line line : ignores_failures (execute_line w line).
Proof.
  unfold execute_line.
  destruct (Py.split line) as [|p0 args]; [apply ignores_failures_ret|].
  repeat match goal with
         | |- ignores_failures (if ?b then _ else _) => destruct b
         end;
    auto using ignores_failures_cmd_test, ignores_failures_cmd_def_var,
      ignores_failures_cmd_config, ignores_failures_cmd_power_on,
      ignores_failures_cmd_power_off, ignores_failures_cmd_power_cycle,
      ignores_failures_cmd_res_set, ignores_failures_cmd_res_open,
      ignores_failures_cmd_res_close, ignores_failures_cmd_screenshot,
      ignores_failures_cmd_wait, ignores_failures_cmd_read,
      ignores_failures_cmd_set_var, ignores_failures_cmd_check_range,
      ignores_failures_cmd_check_diff, ignores_failures_error.
Qed.

Lemma ignores_failures_run_lines lines : ignores_failures (run_lines w lines).
Proof.
  induction lines as [|line rest IH]; [apply ignores_failures_ret|].
  rewrite run_lines_cons. destruct (skipped line); [exact IH|].
  apply ignores_failures_bind; [apply ignores_failures_execute_line | intros _; exact IH].
Qed.

End IgnoresFailuresCommands.

(** The report does not depend on the list of failures. *)
Lemma finalize_last_set_failed_tests f s :
  finalize_last (set_failed_tests f s) = set_failed_tests f (finalize_last s).
Proof.
  unfold finalize_last.
  destruct s as [v c fl h tr [r|] i ti ca cl]; [|reflexivity]. simpl.
  change (dict_in (set_failed_tests f (mkRunner v c fl h tr (Some r) i ti ca cl)) r tr)
    with (dict_in (mkRunner v c fl h tr (Some r) i ti ca cl) r tr).
  destruct (dict_in _ r tr); reflexivity.
Qed.

Lemma report_set_failed_tests f s :
  report_of (finalize_last (set_failed_tests f s)) = report_of (finalize_last s) /\
  finalized (finalize_last (set_failed_tests f s)) = finalized (finalize_last s).
Proof.
  rewrite finalize_last_set_failed_tests.
  destruct (finalize_last s) as [v c fl h tr cur i ti ca cl]. split; reflexivity.
Qed.

(** * Undefined variables, in every command *)

(** C7 (as amended): every command that resolves a variable reports an
    undefined one and leaves the variable store as it is, and the other
    commands look at no variable at all.  A token [x] that starts with [$]
    (blanks around it apart) and names no defined variable makes the value
    parser raise the undefined-variable error, in every state.  [DEF_VAR]
    with a well-formed name and [x] as initial value, [SET_VAR] of a
    defined variable to [x], [CHECK_DIFF] and [CHECK_RANGE] with [x] as
    first operand, or as second or third operand when the operands before
    it resolve, hand that error to [error] and do nothing else; [SET_VAR]
    and [READ] report a target [x] that is not defined, [READ] without
    calling the oscilloscope.  [error] never writes to the variable store,
    so no binding is created.  Every line with another keyword ([TEST],
    [CONFIG], the [POWER_] and [RES_] commands, [SCREENSHOT], [WAIT], an
    unknown keyword) neither reads nor writes the variable store: it does
    the same whatever the store holds, so a [$] name among its arguments
    is plain text.  In particular [SET_VAR $x 1] before any [DEF_VAR $x]
    records an error and leaves the store empty. *)
Theorem C7_undefined_variable (w : world) (s : TestRunner) (x : string) :
  Py.startswith "$" (Py.strip x) = true ->
  variables s !! Py.strip x = None ->
  let e := undefined_variable (Py.strip x) in
  parse_value x s = (Raise e, s) /\
  (forall n rest, Py.startswith "$" n = true ->
     only_reports (cmd_def_var (n :: x :: rest))
       ("变量初始值解析失败: " ++ exn_str e) s) /\
  (forall n v, Py.startswith "$" n = true -> variables s !! n = Some v ->
     only_reports (cmd_set_var [n; x]) ("变量设置失败: " ++ exn_str e) s) /\
  (forall rest,
     only_reports (cmd_check_diff (x :: rest))
       ("CHECK_DIFF 执行异常: " ++ exn_str e) s /\
     only_reports (cmd_check_range (x :: rest))
       ("CHECK_RANGE 执行异常: " ++ exn_str e) s) /\
  (forall a0 v0 rest, parse_value a0 s = (Ret v0, s) ->
     only_reports (cmd_check_diff (a0 :: x :: rest))
       ("CHECK_DIFF 执行异常: " ++ exn_str e) s /\
     only_reports (cmd_check_range (a0 :: x :: rest))
       ("CHECK_RANGE 执行异常: " ++ exn_str e) s) /\
  (forall a0 v0 a1 v1 rest,
     parse_value a0 s = (Ret v0, s) -> parse_value a1 s = (Ret v1, s) ->
     only_reports (cmd_check_diff (a0 :: a1 :: x :: rest))
       ("CHECK_DIFF 执行异常: " ++ exn_str e) s /\
     only_reports (cmd_check_range (a0 :: a1 :: x :: rest))
       ("CHECK_RANGE 执行异常: " ++ exn_str e) s) /\
  (Py.strip x = x ->
     (forall value, only_reports (cmd_set_var [x; value]) (undefined_target x) s) /\
     (forall ch to, Py.upper to = "TO" ->
        only_reports (cmd_read w [ch; to; x]) (undefined_target x) s)) /\
  (forall msg, variables (snd (error msg s)) = variables s /\
               failed_tests (snd (error msg s)) <> []) /\
  (forall line c, keyword line = Some c ->
     c ∉ ["DEF_VAR"; "SET_VAR"; "READ"; "CHECK_RANGE"; "CHECK_DIFF"] ->
     ignores_variables (execute_line w line)) /\
  (execute_line w "SET_VAR $x 1" init = error (undefined_target "$x") init /\
   variables (snd (execute_line w "SET_VAR $x 1" init)) = ∅ /\
   variables (snd (execute_line w "SET_VAR $x 1" init)) !! "$x" = None /\
   failed_tests (snd (execute_line w "SET_VAR $x 1" init)) = ["N/A ()"]).
Proof.
  intros Hp Hu e. pose proof (parse_value_undefined x s Hp Hu) as Hx. fold e in Hx.
  assert (He : is_Exception e = true) by reflexivity.
  split; [exact Hx|].
  split; [|split; [|split; [|split; [|split; [|split; [|split; [|split]]]]]]].
  - intros n rest Hn. unfold only_reports, cmd_def_var. rewrite Hn. cbn [negb].
    set (h := fun e0 : exn =>
                error ("变量初始值解析失败: " ++ exn_str e0) ;; ret (@None float)).
    assert (E : try_except (v <- parse_value x ;; ret (Some v)) h s =
                (Ret None, snd (error ("变量初始值解析失败: " ++ exn_str e) s))).
    { rewrite (try_except_raise _ h s e s); [|now step_raise Hx | exact He].
      unfold h. step_bind (error_ret ("变量初始值解析失败: " ++ exn_str e) s).
      reflexivity. }
    step_bind E. symmetry. apply error_ret.
  - intros n v Hn Hv. unfold only_reports, cmd_set_var. rewrite Hn. cbn [negb].
    step_bind (eq_refl : get s = (Ret s, s)). rewrite Hv.
    rewrite (try_except_raise _ _ s e s); [reflexivity | now step_raise Hx | exact He].
  - intros rest. split; unfold only_reports.
    + unfold cmd_check_diff. rewrite (try_except_raise _ _ s e s); [reflexivity | | exact He].
      step_bind (eq_refl : item (x :: rest) 0 s = (Ret x, s)). now step_raise Hx.
    + unfold cmd_check_range. rewrite (try_except_raise _ _ s e s); [reflexivity | | exact He].
      step_bind (eq_refl : item (x :: rest) 0 s = (Ret x, s)). now step_raise Hx.
  - intros a0 v0 rest H0. split; unfold only_reports.
    + unfold cmd_check_diff. rewrite (try_except_raise _ _ s e s); [reflexivity | | exact He].
      step_bind (eq_refl : item (a0 :: x :: rest) 0 s = (Ret a0, s)). step_bind H0.
      step_bind (eq_refl : item (a0 :: x :: rest) 1 s = (Ret x, s)). now step_raise Hx.
    + unfold cmd_check_range. rewrite (try_except_raise _ _ s e s); [reflexivity | | exact He].
      step_bind (eq_refl : item (a0 :: x :: rest) 0 s = (Ret a0, s)). step_bind H0.
      step_bind (eq_refl : item (a0 :: x :: rest) 1 s = (Ret x, s)). now step_raise Hx.
  - intros a0 v0 a1 v1 rest H0 H1. split; unfold only_reports.
    + unfold cmd_check_diff. rewrite (try_except_raise _ _ s e s); [reflexivity | | exact He].
      step_bind (eq_refl : item (a0 :: a1 :: x :: rest) 0 s = (Ret a0, s)). step_bind H0.
      step_bind (eq_refl : item (a0 :: a1 :: x :: rest) 1 s = (Ret a1, s)). step_bind H1.
      step_bind (eq_refl : item (a0 :: a1 :: x :: rest) 2 s = (Ret x, s)).
      now step_raise Hx.
    + unfold cmd_check_range. rewrite (try_except_raise _ _ s e s); [reflexivity | | exact He].
      step_bind (eq_refl : item (a0 :: a1 :: x :: rest) 0 s = (Ret a0, s)). step_bind H0.
      step_bind (eq_refl : item (a0 :: a1 :: x :: rest) 1 s = (Ret a1, s)). step_bind H1.
      step_bind (eq_refl : item (a0 :: a1 :: x :: rest) 2 s = (Ret x, s)).
      apply bind_raise.
      destruct (Py.endswith "%" x); [now step_raise Hx | exact Hx].
  - intros Hs. rewrite Hs in Hp, Hu. split.
    + intros value. unfold only_reports, cmd_set_var. rewrite Hp. cbn [negb].
      step_bind (eq_refl : get s = (Ret s, s)). now rewrite Hu.
    + intros ch to Hto. unfold only_reports, cmd_read. rewrite Hto, Hp.
      change (String.eqb "TO" "TO") with true. cbn [negb].
      step_bind (eq_refl : get s = (Ret s, s)). now rewrite Hu.
  - intros msg. split; [apply variables_error | apply error_records].
  - intros line c Hk Hc. exact (ignores_variables_execute_line w line c Hk Hc).
  - vm_compute. auto.
Qed.

Lemma C7_undefined_variable_witness :
  cmd_check_diff ["$v"; "$x"; "1"] s_with_v =
    error ("CHECK_DIFF 执行异常: " ++ exn_str (undefined_variable "$x")) s_with_v /\
  cmd_set_var ["$x"; "1"] s_with_v = error (undefined_target "$x") s_with_v /\
  variables (snd (error (undefined_target "$x") s_with_v)) = variables s_with_v /\
  execute_line w_ok "RES_SET $x" (set_variables ∅ s_with_v) =
    (fst (execute_line w_ok "RES_SET $x" s_with_v),
     set_variables ∅ (snd (execute_line w_ok "RES_SET $x" s_with_v))).
Proof.
  destruct (C7_undefined_variable w_ok s_with_v "$x")
    as (_ & _ & _ & _ & H1 & _ & H2 & H3 & H4 & _).
  - reflexivity.
  - vm_compute. reflexivity.
  - split; [|split; [|split]].
    + destruct (H1 "$v" 1.5%float ["1"]) as [E _]; [reflexivity | exact E].
    + destruct (H2 eq_refl) as [E _]. exact (E "1").
    + destruct (H3 (undefined_target "$x")) as [E _]. exact E.
    + apply (H4 "RES_SET $x" "RES_SET"); [reflexivity|].
      intros H. repeat (inversion H as [|? ? ? H']; subst; clear H; rename H' into H).
Defined.

(** C7 as the claim states it fails: [RES_SET] does not resolve its
    argument, so an undefined [$r] is handed to the resistance tool as text
    and no error is recorded; [WAIT] reads its argument with [float], so
    an undefined [$t] ends the run with a conversion error; and in a
    command that does resolve its operands an undefined [$x] after a
    malformed operand is never reported: [CHECK_RANGE xyz $x 5%] records
    the conversion error of [xyz] only. *)
Lemma C7_counterexample_res_set_looks_no_variable_up :
  variables (final (run w_ok (FileLines ["TEST T1 a"; "RES_SET $r"]))) !! "$r" = None /\
  status (run w_ok (FileLines ["TEST T1 a"; "RES_SET $r"])) = SysExit 0 /\
  failed_tests (final (run w_ok (FileLines ["TEST T1 a"; "RES_SET $r"]))) = [] /\
  calls (final (run w_ok (FileLines ["TEST T1 a"; "RES_SET $r"]))) =
    [["python"; "res_ctrl/resistance_cli.py"; "-v"; "$r"; "--action"; "connect"]] /\
  fst (execute_line w_ok "WAIT $t" init) =
    Raise (ValueError "could not convert string to float: '$t'") /\
  variables s_open !! "$x" = None /\
  option_map td_note
    (deref (snd (execute_line w_ok "CHECK_RANGE xyz $x 5%" s_open)) 0%nat) =
    Some "CHECK_RANGE 执行异常: could not convert string to float: 'xyz'; ".
Proof. vm_compute. auto 10. Qed.


(** * Errors before the first test case, whatever follows *)

(** C10: an error recorded before the first [TEST] command does not stop
    the interpreter: [error] returns, and all it changes is the list of
    failures, which gets the entry with the placeholder id N/A (no test
    case exists that could reflect it).  A script without [TEST] commands
    stays in that situation; when its loop completes with an error
    recorded, the process exits with status 1, prints the N/A entries, and
    writes no report.  And whatever follows: when a script records an
    error in the lines before its first [TEST] and its loop completes, the
    process exits with status 1 and prints the list of failures, which
    starts with the N/A entries; no test case existed when they were
    recorded, and the finalized cases and the report are those of the run
    in which the list of failures was emptied before the first [TEST], so
    no row reflects the error.  So [BOGUS] followed by [TEST T1 a] exits
    with status 1 although its only report row has the verdict PASS and an
    empty note. *)
Theorem C10_error_before_the_first_test (w : world) :
  (forall msg s, no_case_yet s ->
     error msg s = (Ret tt, set_failed_tests (failed_tests s ++ ["N/A ()"]) s)) /\
  (forall lines, test_commands lines = [] ->
     no_case_yet (snd (run_lines w lines init))) /\
  (forall lines s, test_commands lines = [] ->
     run_lines w lines init = (Ret tt, s) -> failed_tests s <> [] ->
     run w (FileLines lines) = RunResult (SysExit 1) None (failed_tests s) s /\
     Forall (fun e => e = "N/A ()") (failed_tests s) /\
     finalized s = []) /\
  (forall pre rest s,
     test_commands pre = [] ->
     failed_tests (snd (run_lines w pre init)) <> [] ->
     run_lines w (pre ++ rest) init = (Ret tt, s) ->
     heap (snd (run_lines w pre init)) = [] /\
     status (run w (FileLines (pre ++ rest))) = SysExit 1 /\
     printed_failures (run w (FileLines (pre ++ rest))) = failed_tests s /\
     (exists later,
        failed_tests s = (failed_tests (snd (run_lines w pre init)) ++ later)%list /\
        Forall (fun e => e = "N/A ()") (failed_tests (snd (run_lines w pre init)))) /\
     (exists s',
        run_lines w rest (set_failed_tests [] (snd (run_lines w pre init))) =
          (Ret tt, s') /\
        written (run w (FileLines (pre ++ rest))) = report_of (finalize_last s') /\
        finalized (final (run w (FileLines (pre ++ rest)))) =
          finalized (finalize_last s'))) /\
  (status (run w (FileLines ["BOGUS"; "TEST T1 a"])) = SysExit 1 /\
   printed_failures (run w (FileLines ["BOGUS"; "TEST T1 a"])) = ["N/A ()"] /\
   option_map rep_rows (written (run w (FileLines ["BOGUS"; "TEST T1 a"]))) =
     Some [TestData "T1" "a" "PASS" [] [] ""]).
Proof.
  assert (Hinv : forall lines, test_commands lines = [] ->
            no_case_yet (snd (run_lines w lines init))).
  { intros lines H.
    exact (steps_no_case_yet _ _ (Steps_run_lines_no_test w lines H init)
             no_case_yet_init). }
  split; [exact error_before_first_case|].
  split; [exact Hinv|]. split; [|split].
  - intros lines s Hl Hrun Hf. specialize (Hinv lines Hl). rewrite Hrun in Hinv.
    destruct Hinv as (Hh & Hr & Hc & Hi & Ht & Hfl).
    simpl in Hh, Hr, Hc, Hi, Ht, Hfl.
    rewrite (run_completed w lines s Hrun).
    unfold finalize_last, report_of, finalized. rewrite Hc, Hr.
    destruct (failed_tests s) eqn:E; [contradiction|]. auto.
  - intros pre rest s Hpre Hf Hrun.
    pose proof (Hinv pre Hpre) as (Hh & _ & _ & _ & _ & Hfl).
    rewrite (run_completed w _ s Hrun). cbn [status printed_failures written final].
    rewrite run_lines_app in Hrun. unfold bind in Hrun.
    destruct (run_lines w pre init) as [[[]|e] s0]; [|discriminate].
    cbn [snd] in *.
    pose proof (Grows_run_lines w rest s0) as Hg. rewrite Hrun in Hg.
    destruct (grows_failed _ _ Hg) as [later El]. cbn [snd] in El.
    destruct (ignores_failures_run_lines w rest s0 []) as [f' Ef].
    rewrite Hrun in Ef. cbn [fst snd] in Ef.
    destruct (report_set_failed_tests f' s) as [R1 R2].
    split; [exact Hh|]. split.
    { rewrite El. destruct (failed_tests s0); [contradiction | reflexivity]. }
    split; [reflexivity|]. split; [exists later; auto|].
    exists (set_failed_tests f' s). rewrite R1, R2. auto.
  - vm_compute. auto.
Qed.

Lemma C10_error_before_the_first_test_witness :
  status (run w_ok (FileLines ["BOGUS"; "SET_VAR $x 1"; "TEST T1 a"; "DEF_VAR $y 2"]))
    = SysExit 1 /\
  printed_failures
    (run w_ok (FileLines ["BOGUS"; "SET_VAR $x 1"; "TEST T1 a"; "DEF_VAR $y 2"]))
    = ["N/A ()"; "N/A ()"].
Proof.
  destruct (C10_error_before_the_first_test w_ok) as (_ & _ & _ & H & _).
  destruct (H ["BOGUS"; "SET_VAR $x 1"] ["TEST T1 a"; "DEF_VAR $y 2"]
              (snd (run_lines w_ok
                      ["BOGUS"; "SET_VAR $x 1"; "TEST T1 a"; "DEF_VAR $y 2"] init)))
    as (_ & Hs & Hp & _).
  - reflexivity.
  - vm_compute. discriminate.
  - vm_compute. reflexivity.
  - split; [exact Hs|]. refine (eq_trans Hp _). vm_compute. reflexivity.
Defined.
